(** * Toonflow: the outline/script agent ([@/agents/outlineScript.ts])

    A shallow embedding of the [OutlineScript] class: the record store it
    reads and writes, its outline, script and asset operations, the tool
    catalogue and the sub-agent turn, followed by the properties that the
    specification states about them.

    Conventions of the embedding.
    - A table of the record store is the list of its rows in insertion order
      together with the next auto-increment id.  A query without [orderBy]
      returns the rows in table order; [first()] is the first match.
    - JavaScript numbers that hold ids and episode numbers are integers, in
      [Z].  The two sums of the module, [getMaxEpisode() + 1] and
      [startEpisode + idx], are written over an addition [plus]: the
      engine's is [double_add], the rounded sum of IEEE doubles, which is
      [Z.add] as long as the sum is a safe integer ([double_add_safe]).
      The operations without suffix compute with [Z.add]; C1, the claim
      about these sums on any project, is stated on the engine's addition.
    - A text column that holds a JSON document is a [Text]: either the text
      of a document (what [JSON.stringify] writes) or text that [JSON.parse]
      rejects.  Documents are typed as the TypeScript annotations type them
      ([EpisodeData], [Partial<EpisodeData>]).  Text that parses to a value
      of another shape (the literal [null], a field of another type) has no
      counterpart here: the readers of the module throw on part of it, and
      the properties of the readers are about stores without it.
    - An [insert] of an empty list is rejected by the query builder
      (["The query is empty"]); the other queries always succeed.
    - [orderBy] is a stable sort: rows with equal keys stay in table order
      (SQL leaves their order open).
    - An [async] method is a function from the world to a settled result
      and the world it leaves behind; a rejected promise keeps the writes
      made before the rejection.  The world is the record store, the events
      emitted so far and the conversation history.  Console logging
      ([this.log]) is left out. *)

From Stdlib Require Import ZArith Lia.
From stdpp Require Import base tactics option list strings pretty.

Local Open Scope Z_scope.

(** ** Types of the module *)

Inductive AgentType := AI1 | AI2 | director.

(** ["角色" | "道具" | "场景"] *)
Inductive AssetType := asset_character | asset_prop | asset_scene.

Inductive RefreshEvent := refresh_storyline | refresh_outline | refresh_assets.

Record AssetItem := mkAssetItem { name : string; description : string }.

Record EpisodeData := mkEpisodeData {
  episodeIndex : Z;
  title : string;
  chapterRange : list Z;
  scenes : list AssetItem;
  characters : list AssetItem;
  props : list AssetItem;
  coreConflict : string;
  outline : string;
  openingHook : string;
  keyEvents : list string;
  emotionalCurve : string;
  visualHighlights : list string;
  endingHook : string;
  classicQuotes : list string }.

(** [Partial<EpisodeData>]: every field may be absent ([undefined]). *)
Record PartialEpisodeData := mkPartial {
  p_episodeIndex : option Z;
  p_title : option string;
  p_chapterRange : option (list Z);
  p_scenes : option (list AssetItem);
  p_characters : option (list AssetItem);
  p_props : option (list AssetItem);
  p_coreConflict : option string;
  p_outline : option string;
  p_openingHook : option string;
  p_keyEvents : option (list string);
  p_emotionalCurve : option string;
  p_visualHighlights : option (list string);
  p_endingHook : option string;
  p_classicQuotes : option (list string) }.

(** The object literal [{}]. *)
Definition empty_object : PartialEpisodeData :=
  mkPartial None None None None None None None None None None None None None None.

(** An [EpisodeData] seen as an object with every field present. *)
Definition as_partial (ep : EpisodeData) : PartialEpisodeData :=
  mkPartial (Some (episodeIndex ep)) (Some (title ep)) (Some (chapterRange ep))
    (Some (scenes ep)) (Some (characters ep)) (Some (props ep))
    (Some (coreConflict ep)) (Some (outline ep)) (Some (openingHook ep))
    (Some (keyEvents ep)) (Some (emotionalCurve ep)) (Some (visualHighlights ep))
    (Some (endingHook ep)) (Some (classicQuotes ep)).

(** [{ ...ep, episodeIndex: n }] *)
Definition with_episodeIndex (ep : EpisodeData) (n : Z) : EpisodeData :=
  mkEpisodeData n (title ep) (chapterRange ep) (scenes ep) (characters ep)
    (props ep) (coreConflict ep) (outline ep) (openingHook ep) (keyEvents ep)
    (emotionalCurve ep) (visualHighlights ep) (endingHook ep) (classicQuotes ep).

(** ** JSON text *)

Inductive Text :=
| json_text (doc : PartialEpisodeData)
| invalid_text (raw : string).

(** [JSON.parse]: [None] stands for the [SyntaxError] it throws. *)
Definition JSON_parse (str : Text) : option PartialEpisodeData :=
  match str with
  | json_text doc => Some doc
  | invalid_text _ => None
  end.

Definition JSON_stringify (ep : EpisodeData) : Text := json_text (as_partial ep).

(** The literal ["{}"]. *)
Definition empty_object_text : Text := json_text empty_object.

Definition safeParseJson (str : Text) (fallback : PartialEpisodeData) : PartialEpisodeData :=
  match JSON_parse str with
  | Some v => v
  | None => fallback
  end.

(** ** The record store *)

Record OutlineRow := mkOutline {
  o_id : Z; o_projectId : Z; o_data : option Text; o_episode : Z }.

Record ScriptRow := mkScript {
  s_id : Z; s_name : string; s_content : string; s_projectId : Z; s_outlineId : Z }.

Record AssetRow := mkAsset {
  a_id : Z; a_projectId : Z; a_type : AssetType; a_name : string;
  a_intro : string; a_prompt : string }.

Record StorylineRow := mkStoryline {
  sl_id : Z; sl_projectId : Z; sl_content : string }.

Record NovelRow := mkNovel {
  n_projectId : Z; n_chapterIndex : Z; n_chapter : option string; n_chapterData : string }.

Record PromptRow := mkPrompt {
  pr_code : string; pr_customValue : option string; pr_defaultValue : option string }.

Record Table (A : Type) := mkTable { rows : list A; next_id : Z }.
Arguments mkTable {A} _ _.
Arguments rows {A} _.
Arguments next_id {A} _.

Definition empty_table {A} : Table A := mkTable [] 1.

Record DB := mkDB {
  t_outline : Table OutlineRow;
  t_script : Table ScriptRow;
  t_assets : Table AssetRow;
  t_storyline : Table StorylineRow;
  t_novel : list NovelRow;
  t_prompts : list PromptRow }.

(** ** Events and conversation history *)

(** The [agent] field of an event: the literal ["main"] or a persona. *)
Inductive AgentTag := tag_main | tag_persona (a : AgentType).

Inductive Event :=
| ev_refresh (type : RefreshEvent)
| ev_transfer (to : AgentType)
| ev_toolCall (agent : AgentTag) (tool_title : string)
| ev_subAgentStream (agent : AgentTag) (text : string)
| ev_subAgentEnd (agent : AgentTag)
| ev_data (text : string)
| ev_response (text : string).

Inductive Role := role_user | role_assistant.

Record ModelMessage := mkMessage { role : Role; content : string }.

Record World := mkWorld {
  db : DB;
  emitted : list Event;
  history : list ModelMessage }.

Definition empty_db : DB :=
  mkDB empty_table empty_table empty_table empty_table [] [].

Definition empty_world : World := mkWorld empty_db [] [].

(** ** Promises *)

Inductive Settled (A : Type) :=
| fulfilled (value : A)
| rejected (reason : string).
Arguments fulfilled {A} _.
Arguments rejected {A} _.

Definition Async (A : Type) : Type := World -> Settled A * World.

Definition resolve {A} (a : A) : Async A := fun w => (fulfilled a, w).

Definition throw {A} (reason : string) : Async A := fun w => (rejected reason, w).

Definition bind {A B} (m : Async A) (k : A -> Async B) : Async B :=
  fun w =>
    match m w with
    | (fulfilled a, w') => k a w'
    | (rejected e, w') => (rejected e, w')
    end.

Notation "'await' x <- c ; k" := (bind c (fun x => k))
  (at level 10, x name, c at level 100, k at level 200).
Notation "'await' ' p <- c ; k" := (bind c (fun x => match x with p => k end))
  (at level 10, p pattern, c at level 100, k at level 200).
Notation "'run' c ; k" := (bind c (fun _ => k))
  (at level 10, c at level 100, k at level 200).

Definition read {A} (f : DB -> A) : Async A := fun w => (fulfilled (f (db w)), w).

Definition write (f : DB -> DB) : Async unit :=
  fun w => (fulfilled tt, mkWorld (f (db w)) (emitted w) (history w)).

Definition emit (ev : Event) : Async unit :=
  fun w => (fulfilled tt, mkWorld (db w) (emitted w ++ [ev]) (history w)).

Definition push_history (m : ModelMessage) : Async unit :=
  fun w => (fulfilled tt, mkWorld (db w) (emitted w) (history w ++ [m])).

Definition refresh (type : RefreshEvent) : Async unit := emit (ev_refresh type).

(** Table updates. *)

Definition set_outline (t : Table OutlineRow) (d : DB) : DB :=
  mkDB t (t_script d) (t_assets d) (t_storyline d) (t_novel d) (t_prompts d).
Definition set_script (t : Table ScriptRow) (d : DB) : DB :=
  mkDB (t_outline d) t (t_assets d) (t_storyline d) (t_novel d) (t_prompts d).
Definition set_assets (t : Table AssetRow) (d : DB) : DB :=
  mkDB (t_outline d) (t_script d) t (t_storyline d) (t_novel d) (t_prompts d).
Definition set_storyline (t : Table StorylineRow) (d : DB) : DB :=
  mkDB (t_outline d) (t_script d) (t_assets d) t (t_novel d) (t_prompts d).

(** [insert(list)]: the rows are appended in order and numbered from the
    table's next id, [mk i] being the row that receives id [i]. *)
Fixpoint number_from {A} (i : Z) (mks : list (Z -> A)) : list A :=
  match mks with
  | [] => []
  | mk :: rest => mk i :: number_from (i + 1) rest
  end.

Definition insert_rows {A} (mks : list (Z -> A)) (t : Table A) : Table A :=
  mkTable (rows t ++ number_from (next_id t) mks) (next_id t + Z.of_nat (length mks)).

Definition keep_rows {A} (P : A -> Prop) `{!forall x, Decision (P x)} (t : Table A) : Table A :=
  mkTable (filter P (rows t)) (next_id t).

Definition update_rows {A} (P : A -> Prop) `{!forall x, Decision (P x)} (f : A -> A)
    (t : Table A) : Table A :=
  mkTable (map (fun r => if decide (P r) then f r else r) (rows t)) (next_id t).

(** ** [orderBy] on a numeric column *)

Section OrderBy.
Context {A : Type} (key : A -> Z).

Fixpoint insert_asc (x : A) (l : list A) : list A :=
  match l with
  | [] => [x]
  | y :: l' => if key x <=? key y then x :: y :: l' else y :: insert_asc x l'
  end.

Fixpoint orderBy_asc (l : list A) : list A :=
  match l with
  | [] => []
  | x :: l' => insert_asc x (orderBy_asc l')
  end.

Fixpoint insert_desc (x : A) (l : list A) : list A :=
  match l with
  | [] => [x]
  | y :: l' => if key y <=? key x then x :: y :: l' else y :: insert_desc x l'
  end.

Fixpoint orderBy_desc (l : list A) : list A :=
  match l with
  | [] => []
  | x :: l' => insert_desc x (orderBy_desc l')
  end.
End OrderBy.

(** [max(column)]: [None] is the SQL [NULL] of an empty selection. *)
Fixpoint column_max (l : list Z) : option Z :=
  match l with
  | [] => None
  | x :: l' => match column_max l' with
               | None => Some x
               | Some m => Some (Z.max x m)
               end
  end.

(** [a, a+1, ..., a+n-1] *)
Fixpoint Zseq (a : Z) (n : nat) : list Z :=
  match n with
  | O => []
  | S n' => a :: Zseq (a + 1) n'
  end.

(** ** JavaScript numbers

    The numbers of the engine are IEEE 754 doubles.  An integer is a double
    when it has at most 53 significant bits; the sum of two integers is
    rounded to the nearest such integer, to the even one of two that are
    equally near.  (The sums met here stay far below [2^1024], where the
    engine gives [Infinity].) *)

(** [Number.MAX_SAFE_INTEGER], [2^53 - 1] *)
Definition MAX_SAFE_INTEGER : Z := 9007199254740991.

(** [Number.isSafeInteger] on an integer *)
Definition safe_integer (z : Z) : Prop := - MAX_SAFE_INTEGER <= z <= MAX_SAFE_INTEGER.

(** The double nearest to the integer [z]. *)
Definition double_round (z : Z) : Z :=
  let a := Z.abs z in
  let e := Z.max 0 (Z.log2 a - 52) in
  let ulp := 2 ^ e in
  let q := a / ulp in
  let r := a mod ulp in
  let q' := if 2 * r <? ulp then q
            else if ulp <? 2 * r then q + 1
            else if Z.even q then q else q + 1 in
  Z.sgn z * (q' * ulp).

(** [a + b] on two integers that are doubles *)
Definition double_add (a b : Z) : Z := double_round (a + b).

(** ** JavaScript string helpers *)

Definition nl : string := String (Ascii.ascii_of_nat 10) EmptyString.

(** [Array.prototype.join] *)
Fixpoint join (sep : string) (l : list string) : string :=
  match l with
  | [] => ""
  | x :: rest => match rest with
                 | [] => x
                 | _ :: _ => x +:+ sep +:+ join sep rest
                 end
  end.

(** [String.prototype.repeat] *)
Fixpoint repeat_string (s : string) (n : nat) : string :=
  match n with
  | O => ""
  | S n' => s +:+ repeat_string s n'
  end.

(** [s || d] on a string: the empty string is falsy. *)
Definition or_string (s d : string) : string := if decide (s = "") then d else s.

(** [v || d] where [v] is a string or [undefined]. *)
Definition or_default (v : option string) (d : string) : string :=
  match v with
  | Some s => or_string s d
  | None => d
  end.

(** ** [u.deleteOutline] *)

Fixpoint remove_first {A} (P : A -> Prop) `{!forall x, Decision (P x)} (l : list A) : list A :=
  match l with
  | [] => []
  | x :: l' => if decide (P x) then l' else x :: remove_first P l'
  end.

(** Modelled from the spec: [u.deleteOutline(id, projectId)] lives in the
    utilities of the repository ([@/utils]), which are not part of the
    sources at hand.  Following the specification, deleting an outline id
    removes exactly one outline and at most one script (the cascade), and
    deleting an id that does not exist fails for that id. *)
Definition u_deleteOutline (id projectId : Z) : Async unit :=
  await found <- read (fun d =>
    head (filter (fun o => o_id o = id /\ o_projectId o = projectId) (rows (t_outline d))));
  match found with
  | None => throw "outline not found"
  | Some _ =>
      run write (fun d =>
        set_script (mkTable (remove_first (fun s => s_outlineId s = id) (rows (t_script d)))
                            (next_id (t_script d))) d);
      run write (fun d =>
        set_outline (mkTable (remove_first (fun o => o_id o = id /\ o_projectId o = projectId)
                                           (rows (t_outline d)))
                             (next_id (t_outline d))) d);
      resolve tt
  end.

(** [Promise.allSettled]: every promise is run to its end, whatever the
    others did; the promises are taken in the order of the array. *)
Fixpoint allSettled {A} (ps : list (Async A)) : Async (list (Settled A)) :=
  match ps with
  | [] => resolve []
  | p :: rest =>
      fun w =>
        let (r, w1) := p w in
        match allSettled rest w1 with
        | (fulfilled rs, w2) => (fulfilled (r :: rs), w2)
        | (rejected e, w2) => (rejected e, w2)
        end
  end.

(** ** JavaScript [Map] keyed by strings

    A [Map] keeps its keys in the order of their first insertion; setting a
    key that is present replaces the value in place. *)

Fixpoint Map_set {V} (k : string) (v : V) (m : list (string * V)) : list (string * V) :=
  match m with
  | [] => [(k, v)]
  | e :: m' => if decide (e.1 = k) then (e.1, v) :: m' else e :: Map_set k v m'
  end.

(** [new Map(entries)] *)
Definition Map_new {V} (entries : list (string * V)) : list (string * V) :=
  foldl (fun m e => Map_set e.1 e.2 m) [] entries.

(** [Array.from(m.values())] *)
Definition Map_values {V} (m : list (string * V)) : list V := map snd m.

Definition uniqueByName (items : list AssetItem) : list AssetItem :=
  Map_values (Map_new (map (fun item => (name item, item)) items)).

#[global] Instance AssetType_eq_dec : EqDecision AssetType.
Proof. solve_decision. Defined.

#[global] Instance AgentType_eq_dec : EqDecision AgentType.
Proof. solve_decision. Defined.

#[global] Instance AgentTag_eq_dec : EqDecision AgentTag.
Proof. solve_decision. Defined.

(** ** Tools and the completion service *)

(** The inputs that the tools' schemas accept. *)
Inductive ToolInput :=
| in_empty
| in_content (content : string)
| in_simplified (simplified : bool)
| in_saveOutline (episodes : list EpisodeData) (overwrite : bool) (startEpisode : option Z)
| in_updateOutline (id : Z) (data : EpisodeData)
| in_ids (ids : list Z)
| in_chapterNumbers (chapterNumbers : list Z)
| in_task (taskDescription : string).

(** A tool: its title and its [execute], which is reached only with an input
    that passed the tool's [inputSchema]; other inputs are refused before
    [execute] runs. *)
Record Tool := mkTool { tool_title : string; execute : ToolInput -> Async string }.

Definition invalid_input : Async string := throw "invalid tool input".

(** [episodeSchema]: the only constraint beyond the field types is
    [keyEvents: z.array(z.string()).length(4)]. *)
Definition episodeSchema (ep : EpisodeData) : Prop := length (keyEvents ep) = 4%nat.

#[global] Instance episodeSchema_dec ep : Decision (episodeSchema ep).
Proof. unfold episodeSchema. apply _. Defined.

(** An item of [fullStream].  Only ["tool-call"] and ["text-delta"] items are
    looked at by the engine. *)
Inductive StreamItem :=
| tool_call (item_title : string)
| text_delta (item_text : string)
| other_part.

(** What the engine hands to [u.ai.text.stream]. *)
Record StreamRequest := mkRequest {
  system : string;
  tools : list (string * Tool);
  messages : list ModelMessage;
  maxStep : Z }.

(** The stream of a turn: the items in the order they are yielded, each with
    what the service did to the world before yielding it (it runs the tools
    the model calls). *)
Definition FullStream : Type := list (Async unit * StreamItem).

(** ** The class [OutlineScript] *)

(** An outline record merged with its parsed document:
    [{ id: r.id, episode: r.episode, ...safeParseJson(r.data ?? "{}", {}) }]. *)
Record EpisodeView := mkView { v_id : Z; v_episode : Z; v_doc : PartialEpisodeData }.

Record Stats := mkStats { inserted : Z; updated : Z; skipped : Z }.

Inductive UpsertResult := res_inserted | res_updated | res_skipped.

Section OutlineScript.
Variable projectId : Z.

(** *** Outline operations *)

(** [u.db("t_outline").where({ projectId })] *)
Definition project_outlines (d : DB) : list OutlineRow :=
  filter (fun o => o_projectId o = projectId) (rows (t_outline d)).

Definition findOutlines : Async (list OutlineRow) :=
  read (fun d => orderBy_asc o_episode (project_outlines d)).

Definition findOutlineById (id : Z) : Async (option OutlineRow) :=
  read (fun d =>
    head (filter (fun o => o_id o = id /\ o_projectId o = projectId) (rows (t_outline d)))).

Definition getMaxEpisode : Async Z :=
  await result <- read (fun d => column_max (map o_episode (project_outlines d)));
  resolve (default 0 result).

Definition clearOutlinesAndScripts : Async Z :=
  await outlines <- read project_outlines;
  if decide (length outlines = 0%nat) then resolve 0
  else
    let outlineIds := map o_id outlines in
    run write (fun d =>
      set_script (keep_rows (fun s => s_outlineId s ∉ outlineIds) (t_script d)) d);
    run write (fun d =>
      set_outline (keep_rows (fun o => o_projectId o ≠ projectId) (t_outline d)) d);
    resolve (Z.of_nat (length outlines)).

(** The row that [insertOutlines] builds for the document at index [idx].
    [plus] is the addition of the engine, see _JavaScript numbers_. *)
Definition new_outline_with (plus : Z -> Z -> Z) (startEpisode : Z) (idx : nat)
    (ep : EpisodeData) (id : Z) : OutlineRow :=
  mkOutline id projectId
    (Some (JSON_stringify (with_episodeIndex ep (plus startEpisode (Z.of_nat idx)))))
    (plus startEpisode (Z.of_nat idx)).

(** An [insert] of an empty list has no query to run: the query builder
    rejects it (["The query is empty"]), and nothing is written. *)
Definition insertOutlines_with (plus : Z -> Z -> Z) (episodes : list EpisodeData)
    (startEpisode : Z) : Async Z :=
  let insertList := imap (new_outline_with plus startEpisode) episodes in
  run (if decide (length insertList = 0%nat)
       then throw "The query is empty"
       else write (fun d => set_outline (insert_rows insertList (t_outline d)) d));
  resolve (Z.of_nat (length insertList)).

(** With numbers in [Z]. *)
Definition new_outline : Z -> nat -> EpisodeData -> Z -> OutlineRow :=
  new_outline_with Z.add.

Definition insertOutlines : list EpisodeData -> Z -> Async Z :=
  insertOutlines_with Z.add.

(** The callback of [outlineIds.map] in [createEmptyScripts].  The rows are
    cast to [{ id: number; data: string }]; on a row whose data is [null],
    [JSON.parse(null)] is [null] and reading [episodeIndex] off it throws. *)
Definition new_script (item : OutlineRow) : option (Z -> ScriptRow) :=
  match o_data item with
  | None => None
  | Some str =>
      let data := safeParseJson str empty_object in
      Some (fun id =>
        mkScript id ("第" +:+ from_option pretty "" (p_episodeIndex data) +:+ "集")
          "" projectId (o_id item))
  end.

Definition createEmptyScripts (outlineIds : list OutlineRow) : Async Z :=
  match mapM new_script outlineIds with
  | None => throw "TypeError: Cannot read properties of null (reading 'episodeIndex')"
  | Some scripts =>
      run (if decide (0 < length scripts)%nat
           then write (fun d => set_script (insert_rows scripts (t_script d)) d)
           else resolve tt);
      resolve (Z.of_nat (length scripts))
  end.

Definition saveOutlineData_with (plus : Z -> Z -> Z) (episodes : list EpisodeData)
    (overwrite : bool) (startEpisode : option Z) : Async (Z * Z) :=
  run (if overwrite
       then (await cleared <- clearOutlinesAndScripts; resolve tt)
       else resolve tt);
  await actualStart <-
    (if overwrite then resolve 1
     else match startEpisode with
          | Some s => resolve s
          | None => await m <- getMaxEpisode; resolve (plus m 1)
          end);
  await insertedCount <- insertOutlines_with plus episodes actualStart;
  await newOutlines <- read (fun d =>
    take (Z.to_nat insertedCount) (orderBy_desc o_episode (project_outlines d)));
  await scriptCount <- createEmptyScripts newOutlines;
  run refresh refresh_outline;
  resolve (insertedCount, scriptCount).

(** With numbers in [Z]. *)
Definition saveOutlineData : list EpisodeData -> bool -> option Z -> Async (Z * Z) :=
  saveOutlineData_with Z.add.

Definition updateOutlineData (id : Z) (data : EpisodeData) : Async bool :=
  await existing <- findOutlineById id;
  match existing with
  | None => resolve false
  | Some _ =>
      run write (fun d =>
        set_outline (update_rows (fun o => o_id o = id)
          (fun o => mkOutline (o_id o) (o_projectId o) (Some (JSON_stringify data)) (o_episode o))
          (t_outline d)) d);
      run refresh refresh_outline;
      resolve true
  end.

Definition deleteOutlineData (ids : list Z) : Async (list (Settled unit)) :=
  await results <- allSettled (map (fun id => u_deleteOutline id projectId) ids);
  run refresh refresh_outline;
  resolve results.

(** *** Rendering outlines *)

Definition formatList (items : option (list string)) : string :=
  match items with
  | None => "  无"
  | Some l =>
      or_string
        (join nl (imap (fun i item => "  " +:+ pretty (Z.of_nat i + 1) +:+ ". " +:+ item) l))
        "  无"
  end.

Definition keyEventsLabels : list string := ["起"; "承"; "转"; "合"].

Definition formatKeyEvents (events : option (list string)) : string :=
  match events with
  | None => "  无"
  | Some l =>
      or_string
        (join nl (imap (fun i e =>
           "  【" +:+ or_default (keyEventsLabels !! i) (pretty (Z.of_nat i + 1)) +:+ "】" +:+ e) l))
        "  无"
  end.

Definition formatAssets (items : option (list AssetItem)) : string :=
  match items with
  | None => "无"
  | Some l =>
      or_string (join "; " (map (fun c => name c +:+ "(" +:+ description c +:+ ")") l)) "无"
  end.

Definition formatOutlineDetail (ep : EpisodeView) : string :=
  let d := v_doc ep in
  nl +:+ join nl [
    "大纲ID: " +:+ pretty (v_id ep);
    "第 " +:+ from_option pretty "undefined" (p_episodeIndex d) +:+ " 集: "
      +:+ or_default (p_title d) "";
    repeat_string "=" 50;
    "章节范围: " +:+
      match p_chapterRange d with
      | None => ""
      | Some l => or_string (join ", " (map pretty l)) ""
      end;
    "核心矛盾: " +:+ or_default (p_coreConflict d) "";
    "";
    "【剧情主干】(最高优先级，剧本生成的唯一权威):";
    or_default (p_outline d) "无";
    "";
    "【开场镜头】(必须作为剧本第一个镜头):";
    or_default (p_openingHook d) "无";
    "";
    "【剧情节点】(严格按顺序：起→承→转→合):";
    formatKeyEvents (p_keyEvents d);
    "";
    "情绪曲线: " +:+ or_default (p_emotionalCurve d) "";
    "";
    "【视觉重点】(按剧情主干顺序排列):";
    formatList (p_visualHighlights d);
    "";
    "【结尾悬念】:";
    or_default (p_endingHook d) "无";
    "";
    "【经典台词】:";
    formatList (p_classicQuotes d);
    "";
    "角色(按出场顺序): " +:+ formatAssets (p_characters d);
    "场景(按出场顺序): " +:+ formatAssets (p_scenes d);
    "道具(按出场顺序): " +:+ formatAssets (p_props d) ].

(** The callback of [records.map] in [getOutlineText]. *)
Definition view_of (r : OutlineRow) : EpisodeView :=
  mkView (o_id r) (o_episode r)
    (safeParseJson (default empty_object_text (o_data r)) empty_object).

Definition simplified_line (ep : EpisodeView) : string :=
  "第 " +:+ pretty (default (v_episode ep) (p_episodeIndex (v_doc ep)))
    +:+ " 集 (id=" +:+ pretty (v_id ep) +:+ ")".

Definition getOutlineText (simplified : bool) : Async string :=
  await records <- findOutlines;
  if decide (length records = 0%nat) then resolve "当前项目暂无大纲"
  else
    let episodes := map view_of records in
    if simplified then
      let list := join nl (map simplified_line episodes) in
      resolve ("项目大纲 (共 " +:+ pretty (Z.of_nat (length episodes)) +:+ " 集):" +:+ nl +:+ list)
    else
      let details := join nl (map formatOutlineDetail episodes) in
      resolve ("项目大纲 (共 " +:+ pretty (Z.of_nat (length episodes)) +:+ " 集)"
               +:+ nl +:+ nl +:+ details).

(** *** Storyline operations *)

Definition findStoryline : Async (option StorylineRow) :=
  read (fun d => head (filter (fun r => sl_projectId r = projectId) (rows (t_storyline d)))).

Definition upsertStorylineContent (content : string) : Async unit :=
  await existing <- findStoryline;
  run (match existing with
       | Some _ =>
           write (fun d =>
             set_storyline (update_rows (fun r => sl_projectId r = projectId)
               (fun r => mkStoryline (sl_id r) (sl_projectId r) content) (t_storyline d)) d)
       | None =>
           write (fun d =>
             set_storyline
               (insert_rows [fun id => mkStoryline id projectId content] (t_storyline d)) d)
       end);
  refresh refresh_storyline.

Definition deleteStorylineContent : Async Z :=
  await deleted <- read (fun d =>
    Z.of_nat (length (filter (fun r => sl_projectId r = projectId) (rows (t_storyline d)))));
  run write (fun d =>
    set_storyline (keep_rows (fun r => sl_projectId r ≠ projectId) (t_storyline d)) d);
  run refresh refresh_storyline;
  resolve deleted.

(** *** Asset operations *)

Definition findAssetByTypeAndName (type : AssetType) (nm : string) : Async (option AssetRow) :=
  read (fun d =>
    head (filter (fun a => a_projectId a = projectId /\ a_type a = type /\ a_name a = nm)
                 (rows (t_assets d)))).

Definition upsertAsset (type : AssetType) (item : AssetItem) : Async UpsertResult :=
  await existing <- findAssetByTypeAndName type (name item);
  match existing with
  | None =>
      run write (fun d =>
        set_assets (insert_rows
          [fun id => mkAsset id projectId type (name item) (description item) (description item)]
          (t_assets d)) d);
      resolve res_inserted
  | Some e =>
      if decide (a_intro e ≠ description item) then
        run write (fun d =>
          set_assets (update_rows (fun a => a_id a = a_id e)
            (fun a => mkAsset (a_id a) (a_projectId a) (a_type a) (a_name a)
                        (description item) (description item))
            (t_assets d)) d);
        resolve res_updated
      else resolve res_skipped
  end.

(** One round of the loop of [extractAssetsFromOutlines]: the three
    accumulators are (characters, props, scenes). *)
Definition push_assets (result : list AssetItem * list AssetItem * list AssetItem)
    (outline_data : option Text) : list AssetItem * list AssetItem * list AssetItem :=
  let data := safeParseJson (default empty_object_text outline_data) empty_object in
  (result.1.1 ++ default [] (p_characters data),
   result.1.2 ++ default [] (p_props data),
   result.2 ++ default [] (p_scenes data)).

Definition extractAssetsFromOutlines (outlines : list (option Text))
    : list AssetItem * list AssetItem * list AssetItem :=
  let result := foldl push_assets ([], [], []) outlines in
  (uniqueByName result.1.1, uniqueByName result.1.2, uniqueByName result.2).

(** [stats[result]++] *)
Definition count_result (stats : Stats) (result : UpsertResult) : Stats :=
  match result with
  | res_inserted => mkStats (inserted stats + 1) (updated stats) (skipped stats)
  | res_updated => mkStats (inserted stats) (updated stats + 1) (skipped stats)
  | res_skipped => mkStats (inserted stats) (updated stats) (skipped stats + 1)
  end.

Fixpoint processItems (items : list AssetItem) (type : AssetType) (stats : Stats)
    : Async Stats :=
  match items with
  | [] => resolve stats
  | item :: rest =>
      await result <- upsertAsset type item;
      processItems rest type (count_result stats result)
  end.

Definition generateAssetsFromOutlines : Async Stats :=
  await outlines <- read (fun d => map o_data (project_outlines d));
  if decide (length outlines = 0%nat) then resolve (mkStats 0 0 0)
  else
    let '(characters, props, scenes) := extractAssetsFromOutlines outlines in
    let stats := mkStats 0 0 0 in
    await stats <- processItems characters asset_character stats;
    await stats <- processItems props asset_prop stats;
    await stats <- processItems scenes asset_scene stats;
    run refresh refresh_assets;
    resolve stats.

(** *** Tools: storyline *)

Definition getStoryline : Tool :=
  mkTool "getStoryline" (fun input =>
    match input with
    | in_empty =>
        await storyline <- findStoryline;
        resolve (from_option sl_content "当前项目暂无故事线" storyline)
    | _ => invalid_input
    end).

Definition saveStoryline : Tool :=
  mkTool "saveStoryline" (fun input =>
    match input with
    | in_content content =>
        run upsertStorylineContent content;
        resolve "故事线保存成功"
    | _ => invalid_input
    end).

Definition deleteStoryline : Tool :=
  mkTool "deleteStoryline" (fun input =>
    match input with
    | in_empty =>
        await deleted <- deleteStorylineContent;
        resolve (if decide (0 < deleted) then "故事线删除成功" else "当前项目没有故事线")
    | _ => invalid_input
    end).

(** *** Tools: outline *)

Definition getOutline : Tool :=
  mkTool "getOutline" (fun input =>
    match input with
    | in_simplified simplified => getOutlineText simplified
    | _ => invalid_input
    end).

Definition saveOutline : Tool :=
  mkTool "saveOutline" (fun input =>
    match input with
    | in_saveOutline episodes overwrite startEpisode =>
        if decide (episodes ≠ [] /\ Forall episodeSchema episodes) then
          await '(insertedCount, scriptCount) <- saveOutlineData episodes overwrite startEpisode;
          resolve ("大纲保存成功：插入 " +:+ pretty insertedCount +:+ " 集大纲，创建 "
                   +:+ pretty scriptCount +:+ " 个剧本记录")
        else invalid_input
    | _ => invalid_input
    end).

Definition updateOutline : Tool :=
  mkTool "updateOutline" (fun input =>
    match input with
    | in_updateOutline id data =>
        if decide (episodeSchema data) then
          await success <- updateOutlineData id data;
          resolve (if success : bool
                   then "大纲ID " +:+ pretty id +:+ " 更新成功"
                   else "未找到大纲ID: " +:+ pretty id)
        else invalid_input
    | _ => invalid_input
    end).

Definition status_text {A} (r : Settled A) : string :=
  match r with
  | fulfilled _ => "成功"
  | rejected _ => "失败"
  end.

(** [results.map((r, i) => `ID ${ids[i]}: ...`).join(", ")] *)
Definition delete_summary (ids : list Z) (results : list (Settled unit)) : string :=
  join ", " (imap (fun i r =>
    "ID " +:+ from_option pretty "undefined" (ids !! i) +:+ ": " +:+ status_text r) results).

Definition deleteOutline : Tool :=
  mkTool "deleteOutline" (fun input =>
    match input with
    | in_ids ids =>
        if decide (ids ≠ []) then
          await results <- deleteOutlineData ids;
          resolve ("删除结果: " +:+ delete_summary ids results)
        else invalid_input
    | _ => invalid_input
    end).

(** *** Tools: chapters and assets *)

Definition chapter_text (d : DB) (num : Z) : string :=
  match head (filter (fun c => n_projectId c = projectId /\ n_chapterIndex c = num) (t_novel d)) with
  | Some chapter =>
      nl +:+ "【第" +:+ pretty (n_chapterIndex chapter) +:+ "章 "
         +:+ or_default (n_chapter chapter) "" +:+ "】" +:+ nl +:+ n_chapterData chapter
  | None => nl +:+ "【第" +:+ pretty num +:+ "章】未找到"
  end.

Definition getChapter : Tool :=
  mkTool "getChapter" (fun input =>
    match input with
    | in_chapterNumbers chapterNumbers =>
        if decide (chapterNumbers ≠ []) then
          await results <- read (fun d => map (chapter_text d) chapterNumbers);
          resolve (join (nl +:+ nl +:+ "---" +:+ nl) results)
        else invalid_input
    | _ => invalid_input
    end).

Definition generateAssets : Tool :=
  mkTool "generateAssets" (fun input =>
    match input with
    | in_empty =>
        await stats <- generateAssetsFromOutlines;
        if decide (inserted stats = 0 /\ updated stats = 0 /\ skipped stats = 0)
        then resolve "当前项目没有大纲数据，无法生成资产"
        else resolve ("资产生成完成：新增 " +:+ pretty (inserted stats) +:+ "，更新 "
                      +:+ pretty (updated stats) +:+ "，保持 " +:+ pretty (skipped stats))
    | _ => invalid_input
    end).

(** *** Sub-agents *)

(** The completion service, [u.ai.text.stream], is outside the module: it
    is any function from the request to the stream of the turn. *)
Variable ai_text_stream : StreamRequest -> FullStream.

(** [buildEnvironmentContext] renders project metadata and the system
    time into the environment text; the text plays no part below. *)
Variable buildEnvironmentContext : Async string.

Definition role_text (r : Role) : string :=
  match r with
  | role_user => "user"
  | role_assistant => "assistant"
  end.

Definition buildConversationHistory : Async string :=
  fun w =>
    (fulfilled
       (if decide (length (history w) = 0%nat) then "无对话历史"
        else join (nl +:+ nl)
               (map (fun m => role_text (role m) +:+ ": " +:+ content m) (history w))),
     w).

Definition buildFullContext (task : string) : Async string :=
  await env <- buildEnvironmentContext;
  await hist <- buildConversationHistory;
  resolve (env +:+ nl +:+ nl +:+ "<对话历史>" +:+ nl +:+ hist +:+ nl +:+ "</对话历史>"
           +:+ nl +:+ nl +:+ "<当前任务>" +:+ nl +:+ task +:+ nl +:+ "</当前任务>").

Definition getSubAgentTools : list (string * Tool) :=
  [ ("getChapter", getChapter);
    ("getStoryline", getStoryline);
    ("saveStoryline", saveStoryline);
    ("getOutline", getOutline);
    ("saveOutline", saveOutline);
    ("updateOutline", updateOutline) ].

Definition AgentType_text (a : AgentType) : string :=
  match a with
  | AI1 => "AI1"
  | AI2 => "AI2"
  | director => "director"
  end.

(** [item?.customValue || item?.defaultValue || fallback] *)
Definition prompt_value (promptsList : list PromptRow) (code fallback : string) : string :=
  match head (filter (fun p => pr_code p = code) promptsList) with
  | None => fallback
  | Some item =>
      or_default (pr_customValue item) (or_default (pr_defaultValue item) fallback)
  end.

(** The [for await] loop of [invokeSubAgent]. *)
Fixpoint subAgentLoop (agentType : AgentType) (fullStream : FullStream)
    (fullResponse : string) : Async string :=
  match fullStream with
  | [] => resolve fullResponse
  | (before, item) :: rest =>
      run before;
      match item with
      | tool_call item_title =>
          run emit (ev_toolCall tag_main item_title);
          subAgentLoop agentType rest fullResponse
      | text_delta item_text =>
          run emit (ev_subAgentStream (tag_persona agentType) item_text);
          subAgentLoop agentType rest (fullResponse +:+ item_text)
      | other_part => subAgentLoop agentType rest fullResponse
      end
  end.

Definition subAgentRequest (promptsList : list PromptRow) (agentType : AgentType)
    (context : string) : StreamRequest :=
  let errPrompts := "不论用户说什么，请直接输出Agent配置异常" in
  let SYSTEM_PROMPTS :=
    match agentType with
    | AI1 => prompt_value promptsList "outlineScript-a1" errPrompts
    | AI2 => prompt_value promptsList "outlineScript-a2" errPrompts
    | director => prompt_value promptsList "outlineScript-director" errPrompts
    end in
  mkRequest SYSTEM_PROMPTS getSubAgentTools [mkMessage role_user context] 100.

Definition invokeSubAgent (agentType : AgentType) (task : string) : Async string :=
  run emit (ev_transfer agentType);
  await promptsList <- read (fun d =>
    filter (fun p => pr_code p ∈ ["outlineScript-a1"; "outlineScript-a2"; "outlineScript-director"])
           (t_prompts d));
  await context <- buildFullContext task;
  let fullStream := ai_text_stream (subAgentRequest promptsList agentType context) in
  await fullResponse <- subAgentLoop agentType fullStream "";
  run emit (ev_subAgentEnd (tag_persona agentType));
  run push_history (mkMessage role_assistant fullResponse);
  resolve fullResponse.

Definition createSubAgentTool (agentType : AgentType) : Tool :=
  mkTool (AgentType_text agentType) (fun input =>
    match input with
    | in_task taskDescription => invokeSubAgent agentType taskDescription
    | _ => invalid_input
    end).

(** *** The top-level turn *)

Definition getAllTools : list (string * Tool) :=
  [ ("AI1", createSubAgentTool AI1);
    ("AI2", createSubAgentTool AI2);
    ("director", createSubAgentTool director);
    ("getChapter", getChapter);
    ("getStoryline", getStoryline);
    ("saveStoryline", saveStoryline);
    ("deleteStoryline", deleteStoryline);
    ("getOutline", getOutline);
    ("saveOutline", saveOutline);
    ("updateOutline", updateOutline);
    ("deleteOutline", deleteOutline);
    ("generateAssets", generateAssets) ].

(** The [for await] loop of [call]. *)
Fixpoint callLoop (fullStream : FullStream) (fullResponse : string) : Async string :=
  match fullStream with
  | [] => resolve fullResponse
  | (before, item) :: rest =>
      run before;
      match item with
      | tool_call item_title =>
          run emit (ev_toolCall tag_main item_title);
          callLoop rest fullResponse
      | text_delta item_text =>
          run emit (ev_data item_text);
          callLoop rest (fullResponse +:+ item_text)
      | other_part => callLoop rest fullResponse
      end
  end.

Definition call (msg : string) : Async string :=
  run push_history (mkMessage role_user msg);
  await envContext <- buildEnvironmentContext;
  await prompts <- read (fun d => filter (fun p => pr_code p = "outlineScript-main") (t_prompts d));
  let mainPrompts :=
    prompt_value prompts "outlineScript-main" "不论用户说什么，请直接输出Agent配置异常" in
  await hist <- (fun w => (fulfilled (history w), w));
  let fullStream :=
    ai_text_stream (mkRequest (envContext +:+ nl +:+ mainPrompts) getAllTools hist 100) in
  await fullResponse <- callLoop fullStream "";
  run push_history (mkMessage role_assistant fullResponse);
  run emit (ev_response fullResponse);
  resolve fullResponse.

End OutlineScript.

(** * Vocabulary of the specification *)

(** The project's existing maximum episode number, [0] when it has no
    outline. *)
Definition max_episode (projectId : Z) (d : DB) : Z :=
  default 0 (column_max (map o_episode (project_outlines projectId d))).

(** The records that [insertOutlines] appends to the outline table of [d]. *)
Definition inserted_outlines (projectId start : Z) (episodes : list EpisodeData) (d : DB)
    : list OutlineRow :=
  number_from (next_id (t_outline d)) (imap (new_outline projectId start) episodes).

(** The episode index written inside the stored document of a record. *)
Definition stored_episodeIndex (o : OutlineRow) : option Z :=
  p_episodeIndex (safeParseJson (default empty_object_text (o_data o)) empty_object).

(** [`第${n}集`] *)
Definition script_name (n : option Z) : string := "第" +:+ from_option pretty "" n +:+ "集".

(** The empty script records made for the outlines [l]. *)
Definition scripts_for (projectId : Z) (l : list OutlineRow) : list (Z -> ScriptRow) :=
  map (fun item id =>
         mkScript id (script_name (stored_episodeIndex item)) "" projectId (o_id item)) l.

Definition project_scripts (projectId : Z) (d : DB) : list ScriptRow :=
  filter (fun s => s_projectId s = projectId) (rows (t_script d)).

(** The scripts linked to the outline [id]. *)
Definition scripts_of_outline (id : Z) (d : DB) : list ScriptRow :=
  filter (fun s => s_outlineId s = id) (rows (t_script d)).

(** Referential integrity of the store: ids come from the auto-increment
    counters, and every script belongs to an outline of its own project. *)
Definition outline_ids_issued (d : DB) : Prop :=
  Forall (fun o => o_id o < next_id (t_outline d)) (rows (t_outline d)).

Definition scripts_attached (d : DB) : Prop :=
  Forall (fun s => Exists (fun o => o_id o = s_outlineId s /\ o_projectId o = s_projectId s)
                          (rows (t_outline d)))
         (rows (t_script d)).

(** The episode numbers of a project, in ascending order. *)
Definition episode_numbers (projectId : Z) (d : DB) : list Z :=
  orderBy_asc (fun n => n) (map o_episode (project_outlines projectId d)).

(** A list of numbers is a contiguous ascending run [a, a+1, ...]. *)
Definition contiguous (l : list Z) : Prop := l = Zseq (hd 0 l) (length l).

#[global] Instance contiguous_dec l : Decision (contiguous l).
Proof. unfold contiguous. apply _. Defined.

(** The store after [clearOutlinesAndScripts]. *)
Definition cleared_db (projectId : Z) (d : DB) : DB :=
  let outlineIds := map o_id (project_outlines projectId d) in
  let d1 := set_script (keep_rows (fun s => s_outlineId s ∉ outlineIds) (t_script d)) d in
  set_outline (keep_rows (fun o => o_projectId o ≠ projectId) (t_outline d1)) d1.

(** The store on which [saveOutlineData] inserts, and the number it starts
    from. *)
Definition base_db (projectId : Z) (overwrite : bool) (d : DB) : DB :=
  if overwrite then cleared_db projectId d else d.

Definition actualStart (projectId : Z) (overwrite : bool) (startEpisode : option Z) (d : DB) : Z :=
  if overwrite then 1 else default (max_episode projectId d + 1) startEpisode.

(** The store after [insertOutlines]. *)
Definition with_inserted (projectId start : Z) (episodes : list EpisodeData) (d : DB) : DB :=
  set_outline (insert_rows (imap (new_outline projectId start) episodes) (t_outline d)) d.

(** The episode numbers of a project are exactly [1 .. n]. *)
Definition numbered_from_one (projectId : Z) (d : DB) : Prop :=
  episode_numbers projectId d = Zseq 1 (length (project_outlines projectId d)).

(** [m.get(k)] *)
Definition Map_get {V} (k : string) (m : list (string * V)) : option V :=
  snd <$> head (filter (fun e => e.1 = k) m).

(** ** Assets *)

(** An asset record has the key (project, type, name). *)
Definition asset_key (projectId : Z) (type : AssetType) (nm : string) (a : AssetRow) : Prop :=
  a_projectId a = projectId /\ a_type a = type /\ a_name a = nm.

#[global] Instance asset_key_dec projectId type nm a : Decision (asset_key projectId type nm a).
Proof. unfold asset_key. apply _. Defined.

(** The asset records with a given key. *)
Definition assets_with_key (projectId : Z) (type : AssetType) (nm : string)
    (t : Table AssetRow) : list AssetRow :=
  filter (asset_key projectId type nm) (rows t).

(** [upsertAsset] on the asset table. *)
Definition upsert_row (projectId : Z) (type : AssetType) (item : AssetItem)
    (t : Table AssetRow) : UpsertResult * Table AssetRow :=
  match head (assets_with_key projectId type (name item) t) with
  | None =>
      (res_inserted,
       insert_rows
         [fun id => mkAsset id projectId type (name item) (description item) (description item)] t)
  | Some e =>
      if decide (a_intro e ≠ description item) then
        (res_updated,
         update_rows (fun a => a_id a = a_id e)
           (fun a => mkAsset (a_id a) (a_projectId a) (a_type a) (a_name a)
                       (description item) (description item)) t)
      else (res_skipped, t)
  end.

(** What [update({ intro, prompt })] does to a record where the id is [i]. *)
Definition redescribe (i : Z) (d : string) (a : AssetRow) : AssetRow :=
  if decide (a_id a = i)
  then mkAsset (a_id a) (a_projectId a) (a_type a) (a_name a) d d
  else a.

(** The loop of [processItems], over entries tagged with their type. *)
Fixpoint upsert_all (projectId : Z) (entries : list (AssetType * AssetItem))
    (stats : Stats) (t : Table AssetRow) : Stats * Table AssetRow :=
  match entries with
  | [] => (stats, t)
  | e :: rest =>
      let (r, t') := upsert_row projectId e.1 e.2 t in
      upsert_all projectId rest (count_result stats r) t'
  end.

Definition tagged (type : AssetType) (items : list AssetItem) : list (AssetType * AssetItem) :=
  map (fun item => (type, item)) items.

(** The deduplicated entries in the order [generateAssetsFromOutlines]
    processes them: characters, props, scenes. *)
Definition asset_entries (x : list AssetItem * list AssetItem * list AssetItem)
    : list (AssetType * AssetItem) :=
  tagged asset_character x.1.1 ++ tagged asset_prop x.1.2 ++ tagged asset_scene x.2.

Definition entry_key (e : AssetType * AssetItem) : AssetType * string := (e.1, name e.2).

(** The asset table holds the entry: the first record with its key carries
    its description. *)
Definition entry_settled (projectId : Z) (t : Table AssetRow) (e : AssetType * AssetItem) : Prop :=
  exists a, head (assets_with_key projectId e.1 (name e.2) t) = Some a
            /\ a_intro a = description e.2.

(** Ids of asset records are unique and were issued by the counter. *)
Definition assets_wf (t : Table AssetRow) : Prop :=
  NoDup (map a_id (rows t)) /\ Forall (fun a => a_id a < next_id t) (rows t).

(** At most one asset record per (project, type, name). *)
Definition assets_unique (projectId : Z) (t : Table AssetRow) : Prop :=
  forall type nm, (length (assets_with_key projectId type nm t) <= 1)%nat.


Definition of_type (type : AssetType) (x : list AssetItem * list AssetItem * list AssetItem)
    : list AssetItem :=
  match type with
  | asset_character => x.1.1
  | asset_prop => x.1.2
  | asset_scene => x.2
  end.



(** The last entry called [nm]. *)
Definition last_named (nm : string) (items : list AssetItem) : option AssetItem :=
  last (filter (fun x => name x = nm) items).


(** ** Deleting outlines *)

Definition outline_exists (id projectId : Z) (d : DB) : Prop :=
  Exists (fun o => o_id o = id /\ o_projectId o = projectId) (rows (t_outline d)).

#[global] Instance outline_exists_dec id projectId d : Decision (outline_exists id projectId d).
Proof. unfold outline_exists. apply _. Defined.

(** The store after a successful [u_deleteOutline]. *)
Definition deleted_db (id projectId : Z) (d : DB) : DB :=
  let d1 :=
    set_script (mkTable (remove_first (fun s => s_outlineId s = id) (rows (t_script d)))
                        (next_id (t_script d))) d in
  set_outline (mkTable (remove_first (fun o => o_id o = id /\ o_projectId o = projectId)
                                     (rows (t_outline d1)))
                       (next_id (t_outline d1))) d1.






(** ** What a tool call may do *)

(** Every record of [t] is still in [t'] (by id). *)
Definition ids_kept {A} (id : A -> Z) (t t' : Table A) : Prop :=
  Forall (fun r => id r ∈ map id (rows t')) (rows t).

(** No outline, script, storyline or asset record was deleted from [w] to
    [w']. *)
Definition no_data_deleted (w w' : World) : Prop :=
  ids_kept o_id (t_outline (db w)) (t_outline (db w'))
  /\ ids_kept s_id (t_script (db w)) (t_script (db w'))
  /\ ids_kept sl_id (t_storyline (db w)) (t_storyline (db w'))
  /\ ids_kept a_id (t_assets (db w)) (t_assets (db w')).

#[global] Instance no_data_deleted_dec w w' : Decision (no_data_deleted w w').
Proof. unfold no_data_deleted, ids_kept. apply _. Defined.

(** No asset was generated or changed. *)
Definition assets_untouched (w w' : World) : Prop := t_assets (db w') = t_assets (db w).

(** The only events emitted from [w] to [w'] are [refresh] events: no
    [transfer] to a sub-agent among them. *)
Definition only_refresh_emitted (w w' : World) : Prop :=
  exists evs, emitted w' = emitted w ++ evs
              /\ Forall (fun ev => exists type, ev = ev_refresh type) evs.

(** A [saveOutline] input with [overwrite = true]. *)
Definition overwriting_save (input : ToolInput) : Prop :=
  match input with
  | in_saveOutline _ overwrite _ => overwrite = true
  | _ => False
  end.

(** The turns of sub-agents are started with the catalogue [catalogue]:
    whatever the persona, the task and the world, there is one request,
    carrying exactly this catalogue and the step budget of 100, such that the
    outcome of [invokeSubAgent] depends on the completion service only
    through the stream with which it answers this request. *)
Definition turn_started_with (projectId : Z) (catalogue : list (string * Tool)) : Prop :=
  forall (buildEnvironmentContext : Async string) agentType task w,
  exists request,
    tools request = catalogue
    /\ maxStep request = 100
    /\ forall stream stream' : StreamRequest -> FullStream,
         stream request = stream' request ->
         invokeSubAgent projectId stream buildEnvironmentContext agentType task w
         = invokeSubAgent projectId stream' buildEnvironmentContext agentType task w.

(** The confinement of sub-agents: every turn of a sub-agent is started with
    the catalogue [getSubAgentTools], which is the six tools below, none of
    the delete, asset or delegation tools; whatever tool of the catalogue is
    executed on whatever input, no asset changes and no transfer is emitted,
    and no record is deleted unless [may_delete] holds of the input. *)
Definition sub_agent_confined (may_delete : ToolInput -> Prop) : Prop :=
  forall projectId,
    turn_started_with projectId (getSubAgentTools projectId)
    /\ map fst (getSubAgentTools projectId)
       = ["getChapter"; "getStoryline"; "saveStoryline"; "getOutline"; "saveOutline";
          "updateOutline"]
    /\ Forall (fun excluded => excluded ∉ map fst (getSubAgentTools projectId))
              ["deleteStoryline"; "deleteOutline"; "generateAssets"; "AI1"; "AI2"; "director"]
    /\ forall key tool input w,
         (key, tool) ∈ getSubAgentTools projectId ->
         assets_untouched w (execute tool input w).2
         /\ only_refresh_emitted w (execute tool input w).2
         /\ (~ may_delete input -> no_data_deleted w (execute tool input w).2).

Definition never (input : ToolInput) : Prop := False.

(** ** Histories of outline operations *)

(** The operations that change outlines, as tool calls. *)
Inductive OutlineOp :=
| op_saveOutline (episodes : list EpisodeData) (overwrite : bool) (startEpisode : option Z)
| op_updateOutline (id : Z) (data : EpisodeData)
| op_deleteOutline (ids : list Z).

Definition apply_op (projectId : Z) (op : OutlineOp) : Async string :=
  match op with
  | op_saveOutline episodes overwrite startEpisode =>
      execute (saveOutline projectId) (in_saveOutline episodes overwrite startEpisode)
  | op_updateOutline id data =>
      execute (updateOutline projectId) (in_updateOutline id data)
  | op_deleteOutline ids =>
      execute (deleteOutline projectId) (in_ids ids)
  end.

(** The worlds reached from the empty store by operations, of any project,
    that satisfy [allowed]. *)
Inductive reachable_by (allowed : OutlineOp -> Prop) : World -> Prop :=
| reach_start : reachable_by allowed empty_world
| reach_step w projectId op :
    reachable_by allowed w -> allowed op ->
    reachable_by allowed (apply_op projectId op w).2.

Definition any_op (op : OutlineOp) : Prop := True.

Definition store_integrity (d : DB) : Prop := outline_ids_issued d /\ scripts_attached d.

Definition any_store (d : DB) : Prop := True.

(** Overwriting replaces everything, on the stores [admitted]:
    [saveOutlineData] with [overwrite = true] and [N >= 1] documents fulfils
    with [N] outlines and [N] scripts; afterwards the outlines of the project
    are exactly the [N] new records, numbered [1 .. N]; the scripts of the
    project are exactly [N] empty scripts, one per new outline; no outline
    that the project had before is left in the table, and neither is any
    script that was linked to one of them. *)
Definition overwrite_replaces (admitted : DB -> Prop) : Prop :=
  forall projectId (episodes : list EpisodeData) (startEpisode : option Z) w,
    episodes ≠ [] ->
    admitted (db w) ->
    let N := length episodes in
    let result := saveOutlineData projectId episodes true startEpisode w in
    let d' := db result.2 in
    let old_ids := map o_id (project_outlines projectId (db w)) in
    result.1 = fulfilled (Z.of_nat N, Z.of_nat N)
    /\ project_outlines projectId d'
       = inserted_outlines projectId 1 episodes (cleared_db projectId (db w))
    /\ length (project_outlines projectId d') = N
    /\ map o_episode (project_outlines projectId d') = Zseq 1 N
    /\ map stored_episodeIndex (project_outlines projectId d') = map Some (Zseq 1 N)
    /\ length (project_scripts projectId d') = N
    /\ map s_outlineId (project_scripts projectId d')
       = reverse (map o_id (project_outlines projectId d'))
    /\ NoDup (map o_id (project_outlines projectId d'))
    /\ Forall (fun s => s_content s = "") (project_scripts projectId d')
    /\ Forall (fun o => o ∉ rows (t_outline d')) (project_outlines projectId (db w))
    /\ Forall (fun s => s ∉ rows (t_script d'))
              (filter (fun s => s_outlineId s ∈ old_ids) (rows (t_script (db w))))
    /\ Forall (fun s => s_outlineId s ∉ old_ids) (rows (t_script d')).

(** The operations with which the module itself fills the store: saves and
    updates. *)
Definition save_or_update (op : OutlineOp) : Prop :=
  match op with
  | op_deleteOutline _ => False
  | _ => True
  end.

(** The operations that leave the numbering to the module: overwriting
    saves, appending saves without [startEpisode], and updates. *)
Definition numbering_kept (op : OutlineOp) : Prop :=
  match op with
  | op_saveOutline _ overwrite startEpisode => overwrite = true \/ startEpisode = None
  | op_updateOutline _ _ => True
  | op_deleteOutline _ => False
  end.

(** The invariant as the specification states it: in every reachable state
    the episode numbers of every project are contiguous. *)
Definition numbering_invariant (allowed : OutlineOp -> Prop) : Prop :=
  forall w, reachable_by allowed w ->
  forall projectId, contiguous (episode_numbers projectId (db w)).

(** ** Events of a sub-agent turn *)

(** The agent an event is labelled with, for the events that carry a label. *)
Definition event_agent (ev : Event) : option AgentTag :=
  match ev with
  | ev_toolCall agent _ => Some agent
  | ev_subAgentStream agent _ => Some agent
  | ev_subAgentEnd agent => Some agent
  | _ => None
  end.

(** What the loop of [invokeSubAgent] emits for one item of the stream. *)
Definition sub_agent_event (agentType : AgentType) (item : StreamItem) : list Event :=
  match item with
  | tool_call item_title => [ev_toolCall tag_main item_title]
  | text_delta item_text => [ev_subAgentStream (tag_persona agentType) item_text]
  | other_part => []
  end.

Definition item_text_of (item : StreamItem) : string :=
  match item with
  | text_delta item_text => item_text
  | _ => ""
  end.

(** The texts of a list, one after the other. *)
Definition concat_texts (l : list string) : string := foldr String.append "" l.

(** A stream during which the service leaves the world alone. *)
Definition quiet (items : list StreamItem) : FullStream :=
  map (fun item => (resolve tt, item)) items.

(** ** Sample data *)

Definition sample_episode (index : Z) (cast : list AssetItem) : EpisodeData :=
  mkEpisodeData index "title" [1; 2] [mkAssetItem "Hall" "a hall"] cast
    [mkAssetItem "Sword" "a sword"] "conflict" "outline" "hook" ["a"; "b"; "c"; "d"]
    "curve" ["shot"] "ending" ["quote"].

(** Project 7 after one overwriting save of three episodes. *)
Definition three_episodes : World :=
  (saveOutlineData 7
     [sample_episode 1 []; sample_episode 2 []; sample_episode 3 []] true None empty_world).2.

(** A sub-agent turn in which the model writes, calls [saveOutline], and
    writes again. *)
Definition sample_stream (request : StreamRequest) : FullStream :=
  quiet [text_delta "plan"; tool_call "saveOutline"; text_delta " done"].

(** An outline record whose payload is not JSON. *)
Definition broken_outline : OutlineRow := mkOutline 5 7 (Some (invalid_text "{oops")) 2.

Definition lin (described : string) : AssetItem := mkAssetItem "Lin" described.

(** Project 7 after two appending saves with explicit starting numbers:
    first episode 5, then episode 1.  Both episodes have a character Lin. *)
Definition episode_five_first : World :=
  (saveOutlineData 7 [sample_episode 1 [lin "as in episode 1"]] false (Some 1)
     (saveOutlineData 7 [sample_episode 5 [lin "as in episode 5"]] false (Some 5)
        empty_world).2).2.

(** ** Storylines *)

(** [u.db("t_storyline").where({ projectId })] *)
Definition project_storylines (projectId : Z) (d : DB) : list StorylineRow :=
  filter (fun r => sl_projectId r = projectId) (rows (t_storyline d)).

(** ** Listing outlines *)

(** The outlines in the order [findOutlines] returns them. *)
Definition listed_outlines (projectId : Z) (d : DB) : list OutlineRow :=
  orderBy_asc o_episode (project_outlines projectId d).

(** The text of [getOutlineText(true)] over the records [l]. *)
Definition simplified_text (l : list OutlineRow) : string :=
  "项目大纲 (共 " +:+ pretty (Z.of_nat (length l)) +:+ " 集):" +:+ nl
    +:+ join nl (map (fun o => simplified_line (view_of o)) l).

(** The line of the simplified list for episode [n] stored under [id]. *)
Definition episode_line (n id : Z) : string :=
  "第 " +:+ pretty n +:+ " 集 (id=" +:+ pretty id +:+ ")".

(** The text of [getOutlineText(false)] over the records [l]. *)
Definition detailed_text (l : list OutlineRow) : string :=
  "项目大纲 (共 " +:+ pretty (Z.of_nat (length l)) +:+ " 集)" +:+ nl +:+ nl
    +:+ join nl (map (fun o => formatOutlineDetail (view_of o)) l).

(** ** Extraction, document by document *)

(** The entries of one type that the document of an outline contributes. *)
Definition document_entries (type : AssetType) (outline_data : option Text) : list AssetItem :=
  let data := safeParseJson (default empty_object_text outline_data) empty_object in
  match type with
  | asset_character => default [] (p_characters data)
  | asset_prop => default [] (p_props data)
  | asset_scene => default [] (p_scenes data)
  end.

(** The columns that identify an asset record. *)
Definition asset_identity (a : AssetRow) : Z * Z * AssetType * string :=
  (a_id a, a_projectId a, a_type a, a_name a).

(** The record that [upsertAsset] inserts for an entry. *)
Definition new_asset (projectId : Z) (e : AssetType * AssetItem) (id : Z) : AssetRow :=
  mkAsset id projectId e.1 (name e.2) (description e.2) (description e.2).

(** The entries that [generateAssetsFromOutlines] processes on the store [d]. *)
Definition project_entries (projectId : Z) (d : DB) : list (AssetType * AssetItem) :=
  asset_entries (extractAssetsFromOutlines (map o_data (project_outlines projectId d))).

(** The answer of the [generateAssets] tool for the statistics [stats]. *)
Definition assets_report (stats : Stats) : string :=
  "资产生成完成：新增 " +:+ pretty (inserted stats) +:+ "，更新 "
    +:+ pretty (updated stats) +:+ "，保持 " +:+ pretty (skipped stats).

(** ** Events of a top-level turn *)

(** What the loop of [call] emits for one item of the stream. *)
Definition call_event (item : StreamItem) : list Event :=
  match item with
  | tool_call item_title => [ev_toolCall tag_main item_title]
  | text_delta item_text => [ev_data item_text]
  | other_part => []
  end.

(** The text that a turn accumulates over the items of its stream. *)
Definition response_text (items : list StreamItem) : string :=
  concat_texts (map item_text_of items).

(** ** The video prompt route ([routes/video/generatePrompt.ts]) *)

Inductive GenerateMode := startEnd | multi | single.

(** [getPromptValue]: [item?.customValue ?? item?.defaultValue ?? errPrompts],
    where [item] is the first row of the list with the code. *)
Definition getPromptValue (promptsList : list PromptRow) (code : string) : string :=
  let errPrompts := "不论用户说什么，请直接输出AI配置异常" in
  match head (filter (fun p => pr_code p = code) promptsList) with
  | None => errPrompts
  | Some item => default (default errPrompts (pr_defaultValue item)) (pr_customValue item)
  end.


Definition getModeDescription (mode : GenerateMode) : string :=
  match mode with
  | startEnd => "首尾帧模式"
  | multi => "宫格模式"
  | single => "单图模式"
  end.


(** Project 7 with its three episodes beside a project 8 that has one
    episode, its assets and a storyline. *)
Definition two_projects : World :=
  (generateAssetsFromOutlines 8
     (upsertStorylineContent 8 "the other storyline"
        (saveOutlineData 8 [sample_episode 1 [lin "of project 8"]] false None
           three_episodes).2).2).2.

(** A turn whose stream breaks after the first fragment. *)
Definition broken_stream (request : StreamRequest) : FullStream :=
  quiet [text_delta "plan"] ++ [(throw "connection lost", tool_call "saveOutline")].

(** ** Appending in the engine's arithmetic *)

(** An appending save without [startEpisode], of [N] documents on a project
    whose highest number is [M], computes [M + 1] and then
    [M + 1 + idx] for [idx < N]: all of them are safe integers. *)
Definition within_safe_integers (M : Z) (N : nat) : Prop :=
  safe_integer M /\ safe_integer (M + Z.of_nat N).

Definition any_numbers (M : Z) (N : nat) : Prop := True.

(** The outlines that a call appended to the table: the rows behind those
    that the table had before. *)
Definition appended_outlines (before after : World) : list OutlineRow :=
  drop (length (rows (t_outline (db before)))) (rows (t_outline (db after))).

(** Appending numbers from the maximum, for the projects and batches
    [admitted]: [saveOutlineData], in the engine's arithmetic, with
    [overwrite = false], no [startEpisode] and a batch that is not empty,
    fulfils with [N] outlines and [N] scripts, appends exactly [N] records of
    the project to the outline table, numbers them [M+1 .. M+N], and stores in
    each document the assigned number as its episode index. *)
Definition appended_from_max (admitted : Z -> nat -> Prop) : Prop :=
  forall projectId (episodes : list EpisodeData) w,
    episodes ≠ [] ->
    let M := max_episode projectId (db w) in
    let N := length episodes in
    admitted M N ->
    let result := saveOutlineData_with projectId double_add episodes false None w in
    let new := appended_outlines w result.2 in
    result.1 = fulfilled (Z.of_nat N, Z.of_nat N)
    /\ rows (t_outline (db result.2)) = rows (t_outline (db w)) ++ new
    /\ length new = N
    /\ Forall (fun o => o_projectId o = projectId) new
    /\ map o_episode new = Zseq (M + 1) N
    /\ map stored_episodeIndex new = map Some (Zseq (M + 1) N)
    /\ map o_data new
       = imap (fun idx ep =>
                 Some (JSON_stringify (with_episodeIndex ep (M + 1 + Z.of_nat idx)))) episodes.

(** Project 7 with one outline, saved under the largest safe integer as its
    explicit starting number. *)
Definition largest_safe_episode : World :=
  (saveOutlineData_with 7 double_add [sample_episode 1 []] false (Some MAX_SAFE_INTEGER)
     empty_world).2.

(** Project 7 after the three episodes, an appending save of one document
    with [startEpisode = 1], and the deletion of outline 3: the second
    script that the appending save had made for outline 3 is left without
    outline. *)
Definition orphaned_script : World :=
  (apply_op 7 (op_deleteOutline [3])
     (apply_op 7 (op_saveOutline [sample_episode 1 []] false (Some 1)) three_episodes).2).2.

(** A completion service that answers only requests with the step budget
    of 100. *)
Definition budgeted_stream (request : StreamRequest) : FullStream :=
  if decide (maxStep request = 100) then sample_stream request else [].

(** ** Payloads *)

(** A payload as the module leaves it: the text that [JSON.stringify] wrote
    for an episode, or text that [JSON.parse] rejects. *)
Definition written_payload (data : option Text) : Prop :=
  (exists ep, data = Some (JSON_stringify ep)) \/ (exists raw, data = Some (invalid_text raw)).

(** The same, or no payload at all (SQL [NULL]). *)
Definition readable_payload (data : option Text) : Prop :=
  data = None \/ written_payload data.



(** * Lemmas *)

(** ** Runs, numbering *)

Lemma Zseq_length a n : length (Zseq a n) = n.
Proof. revert a. induction n as [|n IH]; intros a; simpl; [done|]. by rewrite IH. Qed.

Lemma Zseq_app a n m : Zseq a (n + m) = Zseq a n ++ Zseq (a + Z.of_nat n) m.
Proof.
  revert a. induction n as [|n IH]; intros a; simpl.
  - by rewrite Z.add_0_r.
  - rewrite IH. do 3 f_equal. lia.
Qed.

Lemma Zseq_lookup a n (i : nat) : (i < n)%nat -> Zseq a n !! i = Some (a + Z.of_nat i).
Proof.
  revert a i. induction n as [|n IH]; intros a i Hi; [lia|].
  destruct i as [|i]; simpl.
  - by rewrite Z.add_0_r.
  - rewrite IH by lia. f_equal. lia.
Qed.

Lemma elem_of_Zseq x a n : x ∈ Zseq a n <-> a <= x < a + Z.of_nat n.
Proof.
  revert a. induction n as [|n IH]; intros a; simpl.
  - rewrite elem_of_nil. lia.
  - rewrite elem_of_cons, IH. lia.
Qed.

Lemma number_from_length {A} i (mks : list (Z -> A)) : length (number_from i mks) = length mks.
Proof. revert i. induction mks as [|mk mks IH]; intros i; simpl; [done|]. by rewrite IH. Qed.

Lemma number_from_lookup {A} i (mks : list (Z -> A)) (k : nat) :
  number_from i mks !! k = (fun mk => mk (i + Z.of_nat k)) <$> mks !! k.
Proof.
  revert i k. induction mks as [|mk mks IH]; intros i k; [done|].
  destruct k as [|k]; simpl.
  - by rewrite Z.add_0_r.
  - rewrite IH. destruct (mks !! k); simpl; [|done]. do 2 f_equal. lia.
Qed.

Lemma new_outline_shift projectId start (l : list EpisodeData) :
  imap (new_outline projectId start ∘ S) l = imap (new_outline projectId (start + 1)) l.
Proof.
  apply imap_ext. intros i ep _. unfold compose, new_outline, new_outline_with.
  replace (start + Z.of_nat (S i)) with (start + 1 + Z.of_nat i) by lia. done.
Qed.

Lemma inserted_episode_numbers projectId start episodes i :
  map o_episode (number_from i (imap (new_outline projectId start) episodes))
  = Zseq start (length episodes).
Proof.
  revert start i. induction episodes as [|ep l IH]; intros start i; [done|].
  simpl. rewrite new_outline_shift, IH. f_equal. unfold new_outline, new_outline_with. simpl. lia.
Qed.

Lemma inserted_project projectId start episodes i :
  Forall (fun o => o_projectId o = projectId)
         (number_from i (imap (new_outline projectId start) episodes)).
Proof.
  revert start i. induction episodes as [|ep l IH]; intros start i; simpl; [constructor|].
  constructor; [done|]. rewrite new_outline_shift. apply IH.
Qed.

Lemma inserted_ids projectId start episodes i :
  map o_id (number_from i (imap (new_outline projectId start) episodes))
  = Zseq i (length episodes).
Proof.
  revert start i. induction episodes as [|ep l IH]; intros start i; [done|].
  simpl. by rewrite new_outline_shift, IH.
Qed.

Lemma inserted_lookup projectId start episodes i (k : nat) ep :
  episodes !! k = Some ep ->
  number_from i (imap (new_outline projectId start) episodes) !! k
  = Some (mkOutline (i + Z.of_nat k) projectId
            (Some (JSON_stringify (with_episodeIndex ep (start + Z.of_nat k))))
            (start + Z.of_nat k)).
Proof.
  intros Hk. rewrite number_from_lookup, list_lookup_imap, Hk. done.
Qed.

(** ** [orderBy] *)

Section OrderByFacts.
Context {A : Type} (key : A -> Z).

Lemma insert_asc_perm x l : insert_asc key x l ≡ₚ x :: l.
Proof.
  induction l as [|y l IH]; simpl; [done|].
  destruct (key x <=? key y); [done|]. rewrite IH. apply Permutation_swap.
Qed.

Lemma orderBy_asc_perm l : orderBy_asc key l ≡ₚ l.
Proof.
  induction l as [|x l IH]; simpl; [done|]. by rewrite insert_asc_perm, IH.
Qed.

Lemma insert_desc_perm x l : insert_desc key x l ≡ₚ x :: l.
Proof.
  induction l as [|y l IH]; simpl; [done|].
  destruct (key y <=? key x); [done|]. rewrite IH. apply Permutation_swap.
Qed.

Lemma orderBy_desc_perm l : orderBy_desc key l ≡ₚ l.
Proof.
  induction l as [|x l IH]; simpl; [done|]. by rewrite insert_desc_perm, IH.
Qed.

Lemma orderBy_desc_length l : length (orderBy_desc key l) = length l.
Proof. by rewrite orderBy_desc_perm. Qed.

Lemma orderBy_asc_length l : length (orderBy_asc key l) = length l.
Proof. by rewrite orderBy_asc_perm. Qed.

(** A row below every row of [a] sinks past [a] in a descending order. *)
Lemma insert_desc_app x a b :
  Forall (fun y => key x < key y) a ->
  insert_desc key x (a ++ b) = a ++ insert_desc key x b.
Proof.
  induction 1 as [|y a Hy _ IH]; simpl; [done|].
  destruct (Z.leb_spec (key y) (key x)); [lia|]. by rewrite IH.
Qed.

Lemma orderBy_desc_app old new :
  Forall (fun x => Forall (fun y => key x < key y) new) old ->
  orderBy_desc key (old ++ new) = orderBy_desc key new ++ orderBy_desc key old.
Proof.
  induction 1 as [|x old Hx _ IH]; simpl; [by rewrite app_nil_r|].
  rewrite IH. apply insert_desc_app. by rewrite orderBy_desc_perm.
Qed.

(** A row below every row of [b] stays in front of [b] in an ascending
    order. *)
Lemma insert_asc_app x a b :
  Forall (fun y => key x < key y) b ->
  insert_asc key x (a ++ b) = insert_asc key x a ++ b.
Proof.
  intros Hb. induction a as [|z a IH]; simpl.
  - destruct Hb as [|y b Hy Hb]; simpl; [done|].
    destruct (Z.leb_spec (key x) (key y)); [done|lia].
  - destruct (key x <=? key z); [done|]. by rewrite IH.
Qed.

Lemma orderBy_asc_app old new :
  Forall (fun x => Forall (fun y => key x < key y) new) old ->
  orderBy_asc key (old ++ new) = orderBy_asc key old ++ orderBy_asc key new.
Proof.
  induction 1 as [|x old Hx _ IH]; simpl; [done|].
  rewrite IH. apply insert_asc_app. by rewrite orderBy_asc_perm.
Qed.

(** Rows that already carry the numbers [a, a+1, ...] are in order. *)
Lemma orderBy_asc_run a l :
  map key l = Zseq a (length l) -> orderBy_asc key l = l.
Proof.
  revert a. induction l as [|x l IH]; intros a Hl; simpl in *; [done|].
  injection Hl as Hx Hl. rewrite (IH _ Hl).
  destruct l as [|y l]; simpl in *; [done|].
  injection Hl as Hy _. destruct (Z.leb_spec (key x) (key y)); [done|lia].
Qed.

Lemma insert_desc_run_aux x l :
  Forall (fun y => key x < key y) l ->
  insert_desc key x l = l ++ [x].
Proof.
  intros H. rewrite <- (app_nil_r l) at 1. by rewrite insert_desc_app.
Qed.

Lemma orderBy_desc_run a l :
  map key l = Zseq a (length l) -> orderBy_desc key l = reverse l.
Proof.
  revert a. induction l as [|x l IH]; intros a Hl; simpl in *; [done|].
  injection Hl as Hx Hl. rewrite (IH _ Hl), reverse_cons.
  apply insert_desc_run_aux. rewrite Forall_reverse.
  apply Forall_forall. intros y Hy.
  assert (key y ∈ Zseq (a + 1) (length l)) as Hin.
  { rewrite <- Hl. apply list_elem_of_fmap. eauto. }
  apply elem_of_Zseq in Hin. lia.
Qed.

Lemma insert_asc_keys x l :
  map key (insert_asc key x l) = insert_asc (fun n => n) (key x) (map key l).
Proof.
  induction l as [|y l IH]; simpl; [done|].
  destruct (key x <=? key y); simpl; [done|]. by rewrite IH.
Qed.

Lemma orderBy_asc_keys l :
  map key (orderBy_asc key l) = orderBy_asc (fun n => n) (map key l).
Proof.
  induction l as [|x l IH]; simpl; [done|]. by rewrite insert_asc_keys, IH.
Qed.
End OrderByFacts.

(** ** [max] of a column *)

Lemma column_max_spec l :
  match column_max l with
  | None => l = []
  | Some m => m ∈ l /\ Forall (fun x => x <= m) l
  end.
Proof.
  induction l as [|x l IH]; simpl; [done|].
  destruct (column_max l) as [m|].
  - destruct IH as [Hm Hall]. split.
    + destruct (Z.max_spec x m) as [[_ ->]|[_ ->]]; [by right | by left].
    + constructor; [lia|]. eapply Forall_impl; [done|]. simpl. lia.
  - subst l. split; [by left|]. constructor; [lia|constructor].
Qed.

Lemma column_max_run l a n :
  l ≡ₚ Zseq a (S n) -> column_max l = Some (a + Z.of_nat n).
Proof.
  intros Hl. pose proof (column_max_spec l) as Hs.
  destruct (column_max l) as [m|].
  - destruct Hs as [Hm Hall]. f_equal.
    assert (m ∈ Zseq a (S n)) as H1 by by rewrite <- Hl.
    apply elem_of_Zseq in H1.
    assert (a + Z.of_nat n ∈ l) as H2.
    { rewrite Hl. apply elem_of_Zseq. lia. }
    rewrite Forall_forall in Hall. specialize (Hall _ H2). lia.
  - subst l. by apply Permutation_nil_l in Hl.
Qed.

Lemma column_max_bound l :
  Forall (fun x => x < default 0 (column_max l) + 1) l.
Proof.
  pose proof (column_max_spec l) as Hs.
  destruct (column_max l) as [m|]; simpl.
  - destruct Hs as [_ Hall]. eapply Forall_impl; [done|]. simpl. lia.
  - subst l. constructor.
Qed.

(** ** Running the outline operations *)

Lemma world_eta w : mkWorld (db w) (emitted w) (history w) = w.
Proof. by destruct w. Qed.

Lemma table_eta {A} (t : Table A) : mkTable (rows t) (next_id t) = t.
Proof. by destruct t. Qed.

Lemma insert_rows_nil {A} (t : Table A) : insert_rows [] t = t.
Proof. unfold insert_rows. simpl. rewrite app_nil_r, Z.add_0_r. apply table_eta. Qed.

Lemma set_script_same d : set_script (t_script d) d = d.
Proof. by destruct d. Qed.

Lemma set_outline_same d : set_outline (t_outline d) d = d.
Proof. by destruct d. Qed.

Lemma filter_all {A} (P : A -> Prop) `{!forall x, Decision (P x)} (l : list A) :
  Forall P l -> filter P l = l.
Proof.
  induction 1 as [|x l Hx _ IH]; [done|].
  rewrite filter_cons_True by done. by rewrite IH.
Qed.

Lemma filter_none {A} (P : A -> Prop) `{!forall x, Decision (P x)} (l : list A) :
  Forall (fun x => ~ P x) l -> filter P l = [].
Proof.
  induction 1 as [|x l Hx _ IH]; [done|].
  rewrite filter_cons_False by done. by rewrite IH.
Qed.

Lemma filter_ext_in {A} (P Q : A -> Prop) `{!forall x, Decision (P x)}
    `{!forall x, Decision (Q x)} (l : list A) :
  (forall x, x ∈ l -> P x <-> Q x) -> filter P l = filter Q l.
Proof.
  induction l as [|x l IH]; intros Hext; [done|].
  rewrite !filter_cons.
  assert (filter P l = filter Q l) as -> by (apply IH; intros y Hy; apply Hext; by right).
  destruct (decide (P x)) as [HP|HP].
  - rewrite decide_True; [done|]. apply Hext; [by left|done].
  - rewrite decide_False; [done|]. intros HQ. apply HP. apply Hext; [by left|done].
Qed.

Lemma clearOutlinesAndScripts_run projectId w :
  clearOutlinesAndScripts projectId w
  = (fulfilled (Z.of_nat (length (project_outlines projectId (db w)))),
     mkWorld (cleared_db projectId (db w)) (emitted w) (history w)).
Proof.
  unfold clearOutlinesAndScripts, bind, read, write, resolve. simpl.
  destruct (decide (length (project_outlines projectId (db w)) = 0%nat)) as [Hlen|Hlen]; [|done].
  rewrite Hlen. simpl. f_equal.
  apply nil_length_inv in Hlen.
  unfold cleared_db, keep_rows. rewrite Hlen. simpl.
  rewrite (filter_all (fun s => s_outlineId s ∉ [])).
  2:{ apply Forall_forall. intros s _. apply not_elem_of_nil. }
  rewrite table_eta.
  rewrite (filter_all (fun o => o_projectId o ≠ projectId)).
  2:{ apply Forall_forall. intros o Ho Heq.
      assert (o ∈ project_outlines projectId (db w)) as Hin.
      { apply list_elem_of_filter. done. }
      rewrite Hlen in Hin. by apply elem_of_nil in Hin. }
  rewrite table_eta. destruct w as [d ev h]. simpl. f_equal. by destruct d.
Qed.

Lemma getMaxEpisode_run projectId w :
  getMaxEpisode projectId w = (fulfilled (max_episode projectId (db w)), w).
Proof. done. Qed.

Lemma insertOutlines_run projectId episodes start w :
  episodes ≠ [] ->
  insertOutlines projectId episodes start w
  = (fulfilled (Z.of_nat (length episodes)),
     mkWorld (with_inserted projectId start episodes (db w)) (emitted w) (history w)).
Proof.
  intros Hne. unfold insertOutlines, insertOutlines_with. cbv zeta. unfold bind at 1.
  rewrite decide_False by (rewrite length_imap; by destruct episodes).
  unfold write, resolve. simpl. by rewrite length_imap.
Qed.

(** [saveOutlineData], step by step. *)
Lemma saveOutlineData_run projectId episodes overwrite startEpisode w :
  episodes ≠ [] ->
  let d0 := base_db projectId overwrite (db w) in
  let start := actualStart projectId overwrite startEpisode (db w) in
  let d1 := with_inserted projectId start episodes d0 in
  let newOutlines :=
    take (length episodes) (orderBy_desc o_episode (project_outlines projectId d1)) in
  saveOutlineData projectId episodes overwrite startEpisode w
  = match mapM (new_script projectId) newOutlines with
    | None =>
        (rejected "TypeError: Cannot read properties of null (reading 'episodeIndex')",
         mkWorld d1 (emitted w) (history w))
    | Some scripts =>
        (fulfilled (Z.of_nat (length episodes), Z.of_nat (length scripts)),
         mkWorld (if decide (0 < length scripts)%nat
                  then set_script (insert_rows scripts (t_script d1)) d1 else d1)
                 (emitted w ++ [ev_refresh refresh_outline]) (history w))
    end.
Proof.
  intros Hne d0 start d1 newOutlines.
  unfold saveOutlineData, saveOutlineData_with. unfold bind at 1.
  assert ((if overwrite
           then bind (clearOutlinesAndScripts projectId) (fun _ => resolve tt)
           else resolve tt) w
          = (fulfilled tt, mkWorld d0 (emitted w) (history w))) as ->.
  { subst d0. destruct overwrite; simpl.
    - unfold bind. by rewrite clearOutlinesAndScripts_run.
    - unfold resolve. by rewrite world_eta. }
  unfold bind at 1.
  assert ((if overwrite then resolve 1
           else match startEpisode with
                | Some s => resolve s
                | None => bind (getMaxEpisode projectId) (fun m => resolve (m + 1))
                end) (mkWorld d0 (emitted w) (history w))
          = (fulfilled start, mkWorld d0 (emitted w) (history w))) as ->.
  { subst start d0. unfold actualStart. destruct overwrite; simpl; [done|].
    destruct startEpisode; simpl; [done|].
    unfold bind. rewrite getMaxEpisode_run. done. }
  unfold bind at 1.
  change (insertOutlines_with projectId Z.add) with (insertOutlines projectId).
  rewrite insertOutlines_run by done. simpl.
  unfold bind at 1, read at 1. simpl. rewrite Nat2Z.id.
  fold d1. fold newOutlines.
  unfold bind at 1, createEmptyScripts.
  destruct (mapM (new_script projectId) newOutlines) as [scripts|]; [|done].
  unfold bind, write, resolve, refresh, emit. simpl.
  destruct (decide (0 < length scripts)%nat); done.
Qed.

(** An empty batch: the clearing of an overwriting save has been done when
    the insert is rejected; no script is made and no refresh is emitted. *)
Lemma saveOutlineData_with_empty projectId plus overwrite startEpisode w :
  saveOutlineData_with projectId plus [] overwrite startEpisode w
  = (rejected "The query is empty",
     mkWorld (base_db projectId overwrite (db w)) (emitted w) (history w)).
Proof.
  unfold saveOutlineData_with. unfold bind at 1.
  assert ((if overwrite
           then bind (clearOutlinesAndScripts projectId) (fun _ => resolve tt)
           else resolve tt) w
          = (fulfilled tt, mkWorld (base_db projectId overwrite (db w)) (emitted w) (history w)))
    as ->.
  { destruct overwrite; simpl.
    - unfold bind. by rewrite clearOutlinesAndScripts_run.
    - unfold resolve. by rewrite world_eta. }
  unfold bind at 1.
  destruct overwrite; [done|]. destruct startEpisode; done.
Qed.

Lemma saveOutlineData_empty projectId overwrite startEpisode w :
  saveOutlineData projectId [] overwrite startEpisode w
  = (rejected "The query is empty",
     mkWorld (base_db projectId overwrite (db w)) (emitted w) (history w)).
Proof. apply saveOutlineData_with_empty. Qed.

Lemma project_outlines_inserted projectId start episodes d :
  project_outlines projectId (with_inserted projectId start episodes d)
  = project_outlines projectId d ++ inserted_outlines projectId start episodes d.
Proof.
  unfold project_outlines, with_inserted, inserted_outlines. simpl.
  rewrite filter_app. f_equal. apply filter_all, inserted_project.
Qed.

Lemma project_outlines_inserted_other projectId q start episodes d :
  q ≠ projectId ->
  project_outlines q (with_inserted projectId start episodes d) = project_outlines q d.
Proof.
  intros Hq. unfold project_outlines, with_inserted. simpl.
  rewrite filter_app, (filter_none _ (number_from _ _)), app_nil_r; [done|].
  eapply Forall_impl; [apply inserted_project|]. simpl. congruence.
Qed.

Lemma inserted_have_text projectId start episodes i :
  Forall (fun o => is_Some (o_data o))
         (number_from i (imap (new_outline projectId start) episodes)).
Proof.
  revert start i. induction episodes as [|ep l IH]; intros start i; simpl; [constructor|].
  constructor; [by eexists|]. rewrite new_outline_shift. apply IH.
Qed.

Lemma mapM_new_script projectId l :
  Forall (fun o => is_Some (o_data o)) l ->
  mapM (new_script projectId) l = Some (scripts_for projectId l).
Proof.
  induction 1 as [|o l [str Hstr] _ IH]; [done|].
  simpl. rewrite IH. unfold new_script at 1. rewrite Hstr. simpl.
  unfold script_name, stored_episodeIndex. rewrite Hstr. done.
Qed.

(** When the starting number lies above every episode number of the project,
    the [limit(insertedCount)] rows with the highest numbers are the rows
    just inserted, and each of them receives its script. *)
Lemma saveOutlineData_fresh projectId episodes overwrite startEpisode w :
  episodes ≠ [] ->
  let d0 := base_db projectId overwrite (db w) in
  let start := actualStart projectId overwrite startEpisode (db w) in
  let d1 := with_inserted projectId start episodes d0 in
  let new := inserted_outlines projectId start episodes d0 in
  Forall (fun o => o_episode o < start) (project_outlines projectId d0) ->
  saveOutlineData projectId episodes overwrite startEpisode w
  = (fulfilled (Z.of_nat (length episodes), Z.of_nat (length episodes)),
     mkWorld (set_script (insert_rows (scripts_for projectId (reverse new)) (t_script d1)) d1)
             (emitted w ++ [ev_refresh refresh_outline]) (history w)).
Proof.
  intros Hne d0 start d1 new Hbelow.
  rewrite saveOutlineData_run by done. cbv zeta.
  rewrite project_outlines_inserted. fold d0 start new d1.
  assert (length new = length episodes) as Hlen.
  { unfold new, inserted_outlines. by rewrite number_from_length, length_imap. }
  assert (map o_episode new = Zseq start (length new)) as Hrun.
  { rewrite Hlen. apply inserted_episode_numbers. }
  rewrite orderBy_desc_app.
  2:{ eapply Forall_impl; [exact Hbelow|]. intros o Ho. simpl in Ho |- *.
      apply Forall_forall. intros n Hn.
      assert (o_episode n ∈ Zseq start (length new)) as Hin.
      { rewrite <- Hrun. apply list_elem_of_fmap. exists n. split; [done|exact Hn]. }
      apply elem_of_Zseq in Hin. lia. }
  rewrite (orderBy_desc_run _ _ _ Hrun).
  rewrite take_app_length' by (by rewrite length_reverse).
  rewrite mapM_new_script.
  2:{ rewrite Forall_reverse. apply inserted_have_text. }
  unfold scripts_for. rewrite length_map, length_reverse, Hlen.
  rewrite decide_True; [done|]. destruct episodes; [done|simpl; lia].
Qed.

(** The outline table after [saveOutlineData], whichever way the call ends. *)
Lemma saveOutlineData_outlines projectId episodes overwrite startEpisode w :
  episodes ≠ [] ->
  let d0 := base_db projectId overwrite (db w) in
  let start := actualStart projectId overwrite startEpisode (db w) in
  t_outline (db (saveOutlineData projectId episodes overwrite startEpisode w).2)
  = t_outline (with_inserted projectId start episodes d0).
Proof.
  intros Hne d0 start. rewrite saveOutlineData_run by done. fold d0 start.
  destruct (mapM _ _) as [scripts|]; simpl; [|done].
  destruct (decide _); done.
Qed.

Lemma max_episode_bound projectId d :
  Forall (fun o => o_episode o < max_episode projectId d + 1) (project_outlines projectId d).
Proof.
  unfold max_episode.
  pose proof (column_max_bound (map o_episode (project_outlines projectId d))) as H.
  by rewrite Forall_fmap in H.
Qed.

Lemma stored_index_inserted projectId start episodes i :
  map stored_episodeIndex (number_from i (imap (new_outline projectId start) episodes))
  = map Some (Zseq start (length episodes)).
Proof.
  revert start i. induction episodes as [|ep l IH]; intros start i; [done|].
  simpl. rewrite new_outline_shift, IH. f_equal.
  unfold stored_episodeIndex, new_outline, new_outline_with. simpl. f_equal. lia.
Qed.

Lemma inserted_data projectId start episodes i :
  map o_data (number_from i (imap (new_outline projectId start) episodes))
  = imap (fun idx ep => Some (JSON_stringify (with_episodeIndex ep (start + Z.of_nat idx))))
         episodes.
Proof.
  revert start i. induction episodes as [|ep l IH]; intros start i; [done|].
  simpl. rewrite new_outline_shift, IH. f_equal.
  apply imap_ext. intros k x _. simpl. do 3 f_equal. lia.
Qed.

(** ** Appending outlines (C1) *)

Lemma double_round_safe z : safe_integer z -> double_round z = z.
Proof.
  unfold safe_integer, MAX_SAFE_INTEGER. intros Hz. unfold double_round. cbv zeta.
  assert (Z.log2 (Z.abs z) - 52 <= 0) as He.
  { destruct (decide (Z.abs z = 0)) as [->|Hnz]; [done|].
    assert (Z.log2 (Z.abs z) < 53); [|lia].
    apply Z.log2_lt_pow2; [lia|]. change (2 ^ 53) with 9007199254740992. lia. }
  rewrite Z.max_l by lia. change (2 ^ 0) with 1.
  rewrite Z.div_1_r, Z.mod_1_r. change (2 * 0 <? 1) with true. cbv iota.
  rewrite Z.mul_1_r, Z.mul_comm. apply Z.abs_sgn.
Qed.

(** Within the safe integers the engine adds as [Z] does. *)
Lemma double_add_safe a b : safe_integer (a + b) -> double_add a b = a + b.
Proof. apply double_round_safe. Qed.

Lemma insertOutlines_with_ext projectId plus episodes start :
  (forall k, (k < length episodes)%nat -> plus start (Z.of_nat k) = start + Z.of_nat k) ->
  insertOutlines_with projectId plus episodes start = insertOutlines projectId episodes start.
Proof.
  intros Hplus. unfold insertOutlines, insertOutlines_with.
  assert (imap (new_outline_with projectId plus start) episodes
          = imap (new_outline_with projectId Z.add start) episodes) as ->; [|done].
  apply imap_ext. intros k ep Hk. apply lookup_lt_Some in Hk.
  unfold new_outline_with. by rewrite Hplus.
Qed.

(** An appending save whose sums the engine computes exactly is the save
    with numbers in [Z]. *)
Lemma saveOutlineData_with_exact projectId plus episodes w :
  let M := max_episode projectId (db w) in
  plus M 1 = M + 1 ->
  (forall k, (k < length episodes)%nat -> plus (M + 1) (Z.of_nat k) = M + 1 + Z.of_nat k) ->
  saveOutlineData_with projectId plus episodes false None w
  = saveOutlineData projectId episodes false None w.
Proof.
  intros M Hone Hplus.
  unfold saveOutlineData, saveOutlineData_with.
  unfold bind at 1. unfold resolve at 1. unfold bind at 1. unfold bind at 1.
  rewrite getMaxEpisode_run. unfold resolve at 1. fold M. rewrite Hone.
  rewrite insertOutlines_with_ext by done.
  symmetry.
  unfold bind at 1. unfold resolve at 1. unfold bind at 1. unfold bind at 1.
  rewrite getMaxEpisode_run. unfold resolve at 1. done.
Qed.

(** With numbers in [Z]: the records appended by a save without
    [startEpisode]. *)
Lemma saveOutlineData_appends projectId (episodes : list EpisodeData) w :
  episodes ≠ [] ->
  let M := max_episode projectId (db w) in
  let N := length episodes in
  let result := saveOutlineData projectId episodes false None w in
  let new := inserted_outlines projectId (M + 1) episodes (db w) in
  result.1 = fulfilled (Z.of_nat N, Z.of_nat N)
  /\ rows (t_outline (db result.2)) = rows (t_outline (db w)) ++ new
  /\ length new = N
  /\ Forall (fun o => o_projectId o = projectId) new
  /\ map o_episode new = Zseq (M + 1) N
  /\ map stored_episodeIndex new = map Some (Zseq (M + 1) N)
  /\ map o_data new
     = imap (fun idx ep =>
               Some (JSON_stringify (with_episodeIndex ep (M + 1 + Z.of_nat idx)))) episodes.
Proof.
  intros Hne M N result new. subst result.
  rewrite saveOutlineData_fresh; [|done|apply max_episode_bound].
  simpl. unfold new, inserted_outlines.
  rewrite number_from_length, length_imap. repeat split.
  - apply inserted_project.
  - apply inserted_episode_numbers.
  - apply stored_index_inserted.
  - apply inserted_data.
Qed.

(** C1, as amended.  As long as the highest episode number [M] of the
    project and [M + N] are safe integers, [saveOutlineData] with
    [overwrite = false], no [startEpisode] and [N >= 1] documents fulfils
    with [N] outlines and [N] scripts, appends exactly [N] records of the
    project to the outline table, numbers them [M+1 .. M+N], and stores in
    each document the assigned number as its episode index, whatever index
    the input document carried. *)
Theorem C1_append_numbers_from_max : appended_from_max within_safe_integers.
Proof.
  intros projectId episodes w Hne M N [HM HMN] result new.
  assert (result = saveOutlineData projectId episodes false None w) as Hexact.
  { unfold result. apply saveOutlineData_with_exact; fold M.
    - apply double_add_safe. unfold safe_integer in *.
      assert (0 < length episodes)%nat by (destruct episodes; [done|simpl; lia]).
      fold N in HMN. unfold N in *. lia.
    - intros k Hk. apply double_add_safe. unfold safe_integer in *.
      fold N in HMN. unfold N in *. lia. }
  destruct (saveOutlineData_appends projectId episodes w Hne)
    as (Hres & Hrows & Hlen & Hproj & Hnum & Hidx & Hdata).
  fold M N in Hres, Hrows, Hlen, Hproj, Hnum, Hidx, Hdata.
  assert (new = inserted_outlines projectId (M + 1) episodes (db w)) as ->.
  { unfold new, appended_outlines. rewrite Hexact, Hrows. by rewrite drop_app_length. }
  rewrite Hexact. done.
Qed.

(** C1 fails as stated, beyond the safe integers: on a project whose
    highest number is [2^53 - 1], an appending save of two documents
    computes the starting number [2^53] and then [2^53 + 1], which the
    engine rounds to [2^53]: both records receive the number [2^53]. *)
Lemma C1_duplicates_beyond_safe_integers : ~ appended_from_max any_numbers.
Proof.
  intros H.
  destruct (H 7 [sample_episode 1 []; sample_episode 1 []] largest_safe_episode)
    as (_ & _ & _ & _ & Hnum & _); [done|done|].
  vm_compute in Hnum. discriminate Hnum.
Qed.

(** ** The scripts made for new outlines *)

Lemma scripts_for_outlineIds projectId l i :
  map s_outlineId (number_from i (scripts_for projectId l)) = map o_id l.
Proof. revert i. induction l as [|o l IH]; intros i; simpl; [done|]. by rewrite IH. Qed.

Lemma scripts_for_names projectId l i :
  map s_name (number_from i (scripts_for projectId l))
  = map (fun o => script_name (stored_episodeIndex o)) l.
Proof. revert i. induction l as [|o l IH]; intros i; simpl; [done|]. by rewrite IH. Qed.

Lemma scripts_for_project projectId l i :
  Forall (fun s => s_projectId s = projectId /\ s_content s = "")
         (number_from i (scripts_for projectId l)).
Proof.
  revert i. induction l as [|o l IH]; intros i; simpl; constructor; [done|apply IH].
Qed.

Lemma scripts_for_length projectId l : length (scripts_for projectId l) = length l.
Proof. unfold scripts_for. by rewrite length_map. Qed.

(** ** Overwriting outlines (C2) *)

Lemma cleared_project_outlines projectId d :
  project_outlines projectId (cleared_db projectId d) = [].
Proof.
  unfold project_outlines, cleared_db. simpl.
  apply filter_none, Forall_forall. intros o Ho.
  apply list_elem_of_filter in Ho. tauto.
Qed.

Lemma cleared_other_outlines projectId q d :
  q ≠ projectId ->
  project_outlines q (cleared_db projectId d) = project_outlines q d.
Proof.
  intros Hq. unfold project_outlines, cleared_db. simpl.
  rewrite list_filter_filter. apply list_filter_iff. intros o. split; [tauto|].
  intros Ho. split; [done|congruence].
Qed.

Lemma cleared_project_scripts projectId d :
  scripts_attached d -> project_scripts projectId (cleared_db projectId d) = [].
Proof.
  intros Hatt. unfold project_scripts, cleared_db. simpl.
  apply filter_none, Forall_forall. intros s Hs Hp.
  apply list_elem_of_filter in Hs as [Hnot Hs].
  unfold scripts_attached in Hatt. rewrite Forall_forall in Hatt.
  specialize (Hatt _ Hs). apply Exists_exists in Hatt as (o & Ho & Hid & Hproj).
  apply Hnot. rewrite <- Hid. apply list_elem_of_fmap. exists o. split; [done|].
  apply list_elem_of_filter. split; [congruence|done].
Qed.

(** C2, as amended.  On a store whose outline ids were issued by the
    counter of the table and whose scripts each belong to an outline of their
    own project, [saveOutlineData] with [overwrite = true] and [N >= 1]
    documents fulfils with [N] outlines and [N] scripts; afterwards the
    outlines of the project are exactly the [N] new records, numbered
    [1 .. N]; the scripts of the project are exactly [N] empty scripts, one
    per new outline; no outline that the project had before is left in the
    table, and neither is any script that was linked to one of them. *)
Theorem C2_overwrite_replaces_everything : overwrite_replaces store_integrity.
Proof.
  intros projectId episodes startEpisode w Hsome [Hissued Hatt] N result d' old_ids.
  subst d' result.
  rewrite saveOutlineData_fresh; [|done|].
  2:{ simpl. rewrite cleared_project_outlines. constructor. }
  cbn [fst snd db base_db actualStart].
  set (d0 := cleared_db projectId (db w)).
  set (new := inserted_outlines projectId 1 episodes d0).
  set (d1 := with_inserted projectId 1 episodes d0).
  assert (length new = N) as Hlen.
  { unfold new, inserted_outlines. by rewrite number_from_length, length_imap. }
  assert (project_outlines projectId d1 = new) as Hproj.
  { unfold d1. rewrite project_outlines_inserted. unfold d0.
    by rewrite cleared_project_outlines. }
  assert (map o_id new = Zseq (next_id (t_outline (db w))) N) as Hids.
  { unfold new, inserted_outlines. rewrite inserted_ids. done. }
  assert (Forall (fun i => i < next_id (t_outline (db w))) old_ids) as Hold.
  { unfold old_ids. rewrite Forall_fmap. unfold project_outlines.
    apply Forall_forall. intros o Ho. apply list_elem_of_filter in Ho as [_ Ho].
    unfold outline_ids_issued in Hissued. rewrite Forall_forall in Hissued. by apply Hissued. }
  assert (forall i, i ∈ old_ids -> i ∈ map o_id new -> False) as Hdisj.
  { intros i H1 H2. rewrite Hids in H2. apply elem_of_Zseq in H2.
    rewrite Forall_forall in Hold. specialize (Hold _ H1). lia. }
  assert (project_outlines projectId
            (set_script (insert_rows (scripts_for projectId (reverse new)) (t_script d1)) d1)
          = new) as Hproj' by exact Hproj.
  assert (project_scripts projectId
            (set_script (insert_rows (scripts_for projectId (reverse new)) (t_script d1)) d1)
          = number_from (next_id (t_script d1)) (scripts_for projectId (reverse new))) as Hscr.
  { unfold project_scripts.
    change (rows (t_script (set_script
              (insert_rows (scripts_for projectId (reverse new)) (t_script d1)) d1)))
      with (rows (t_script d0)
            ++ number_from (next_id (t_script d1)) (scripts_for projectId (reverse new))).
    rewrite filter_app.
    change (filter (fun s => s_projectId s = projectId) (rows (t_script d0)))
      with (project_scripts projectId d0).
    unfold d0 at 1. rewrite cleared_project_scripts by done. rewrite app_nil_l.
    apply filter_all. eapply Forall_impl; [apply scripts_for_project|]. simpl. tauto. }
  rewrite Hproj', Hscr.
  split; [done|]. split; [done|]. split; [done|].
  split; [apply inserted_episode_numbers|].
  split; [apply stored_index_inserted|].
  split; [by rewrite number_from_length, scripts_for_length, length_reverse|].
  split; [by rewrite scripts_for_outlineIds, fmap_reverse|].
  split.
  { rewrite Hids. clear. generalize (next_id (t_outline (db w))). induction N as [|n IH]; intros a.
    - constructor.
    - simpl. constructor; [|apply IH]. rewrite elem_of_Zseq. lia. }
  split.
  { eapply Forall_impl; [apply scripts_for_project|]. simpl. tauto. }
  split.
  { apply Forall_forall. intros o Ho Hin. simpl in Hin.
    apply elem_of_app in Hin as [Hin|Hin].
    - apply list_elem_of_filter in Hin as [Hne _].
      apply list_elem_of_filter in Ho as [Heq _]. done.
    - apply (Hdisj (o_id o)).
      + unfold old_ids. apply list_elem_of_fmap. eauto.
      + apply list_elem_of_fmap. exists o. split; [done|exact Hin]. }
  split.
  { apply Forall_forall. intros s Hs Hin. simpl in Hin.
    apply list_elem_of_filter in Hs as [Hold_s Hs].
    apply elem_of_app in Hin as [Hin|Hin].
    - apply list_elem_of_filter in Hin as [Hnot _]. done.
    - apply (Hdisj (s_outlineId s)); [done|].
      assert (s_outlineId s ∈ map s_outlineId
                (number_from (next_id (t_script (db w))) (scripts_for projectId (reverse new)))) as H.
      { apply list_elem_of_fmap. exists s. split; [done|exact Hin]. }
      rewrite scripts_for_outlineIds, fmap_reverse, elem_of_reverse in H. exact H. }
  apply Forall_forall. intros s Hin Hold_s. simpl in Hin.
  apply elem_of_app in Hin as [Hin|Hin].
  - apply list_elem_of_filter in Hin as [Hnot _]. done.
  - apply (Hdisj (s_outlineId s)); [done|].
    assert (s_outlineId s ∈ map s_outlineId
              (number_from (next_id (t_script (db w))) (scripts_for projectId (reverse new)))) as H.
    { apply list_elem_of_fmap. exists s. split; [done|exact Hin]. }
    rewrite scripts_for_outlineIds, fmap_reverse, elem_of_reverse in H. exact H.
Qed.

(** ** One script per new outline (C3) *)

(** Whenever the starting number lies above the project's episode numbers
    (always so when overwriting or when [startEpisode] is left out), the
    scripts created are those of the new outlines: one each, linked to its
    id and named after its number. *)
Lemma fresh_scripts_match_new_outlines projectId episodes overwrite startEpisode w :
  episodes ≠ [] ->
  let d0 := base_db projectId overwrite (db w) in
  let start := actualStart projectId overwrite startEpisode (db w) in
  let new := inserted_outlines projectId start episodes d0 in
  let result := saveOutlineData projectId episodes overwrite startEpisode w in
  Forall (fun o => o_episode o < start) (project_outlines projectId d0) ->
  exists created,
    rows (t_script (db result.2)) = rows (t_script d0) ++ created
    /\ map s_outlineId created = reverse (map o_id new)
    /\ map s_name created
       = reverse (map (fun n => script_name (Some n)) (Zseq start (length episodes))).
Proof.
  intros Hne d0 start new result Hbelow. subst result.
  rewrite saveOutlineData_fresh by done. fold d0 start new.
  eexists. split; [reflexivity|]. split.
  - by rewrite scripts_for_outlineIds, fmap_reverse.
  - rewrite scripts_for_names, fmap_reverse. f_equal.
    transitivity (map script_name (map stored_episodeIndex new)); [by rewrite map_map|].
    unfold new, inserted_outlines. rewrite stored_index_inserted. by rewrite map_map.
Qed.

(** C3 (defect).  On project 7 with episodes 1, 2, 3 (outline ids 1, 2, 3,
    one script each), [saveOutlineData] with one document,
    [overwrite = false] and [startEpisode = 1] inserts outline 4 with
    episode number 1, then picks the outline with the highest episode
    number, the old outline 3, as the new one: outline 3 receives a second
    script and the new outline 4 receives none. *)
Theorem C3_low_start_scripts_old_outline :
  let result := saveOutlineData 7 [sample_episode 9 []] false (Some 1) three_episodes in
  result.1 = fulfilled (1, 1)
  /\ map (fun o => (o_id o, o_episode o)) (rows (t_outline (db result.2)))
     = [(1, 1); (2, 2); (3, 3); (4, 1)]
  /\ map (fun s => (s_outlineId s, s_name s)) (rows (t_script (db result.2)))
     = [(3, "第3集"); (2, "第2集"); (1, "第1集"); (3, "第3集")]
  /\ scripts_of_outline 4 (db result.2) = []
  /\ length (scripts_of_outline 3 (db result.2)) = 2%nat.
Proof. vm_compute. repeat split. Qed.

(** ** The numbering invariant (C4) *)

Lemma run_from_one_contiguous l n : l = Zseq 1 n -> contiguous l.
Proof.
  intros ->. unfold contiguous. rewrite Zseq_length. by destruct n.
Qed.

Lemma numbered_from_one_contiguous projectId d :
  numbered_from_one projectId d -> contiguous (episode_numbers projectId d).
Proof. apply run_from_one_contiguous. Qed.

Lemma project_outlines_ext q d d' :
  t_outline d = t_outline d' -> project_outlines q d = project_outlines q d'.
Proof. unfold project_outlines. by intros ->. Qed.

Lemma numbered_from_one_ext q d d' :
  t_outline d = t_outline d' -> numbered_from_one q d -> numbered_from_one q d'.
Proof.
  unfold numbered_from_one, episode_numbers. intros H.
  by rewrite (project_outlines_ext q d d' H).
Qed.

Lemma orderBy_asc_numbers_run a n :
  orderBy_asc (fun k => k) (Zseq a n) = Zseq a n.
Proof.
  apply (orderBy_asc_run _ a). by rewrite map_id, Zseq_length.
Qed.

(** With numbers [1 .. n] the highest number is [n]. *)
Lemma max_episode_numbered projectId d :
  numbered_from_one projectId d ->
  max_episode projectId d = Z.of_nat (length (project_outlines projectId d)).
Proof.
  unfold numbered_from_one, episode_numbers, max_episode. intros H.
  set (l := project_outlines projectId d) in *.
  assert (map o_episode l ≡ₚ Zseq 1 (length l)) as Hperm.
  { rewrite <- H. symmetry. apply orderBy_asc_perm. }
  destruct (length l) as [|n] eqn:Hlen.
  - apply nil_length_inv in Hlen. by rewrite Hlen.
  - rewrite (column_max_run _ 1 n Hperm). simpl. lia.
Qed.

Lemma append_keeps_numbering projectId episodes d :
  numbered_from_one projectId d ->
  numbered_from_one projectId
    (with_inserted projectId (max_episode projectId d + 1) episodes d).
Proof.
  intros Hnum. pose proof (max_episode_numbered _ _ Hnum) as Hmax.
  unfold numbered_from_one, episode_numbers in *.
  rewrite project_outlines_inserted, map_app, length_app.
  unfold inserted_outlines at 1. rewrite inserted_episode_numbers.
  rewrite orderBy_asc_app.
  - rewrite Hnum, orderBy_asc_numbers_run.
    unfold inserted_outlines. rewrite number_from_length, length_imap.
    rewrite Zseq_app. do 2 f_equal. lia.
  - pose proof (max_episode_bound projectId d) as Hb.
    rewrite Forall_fmap. eapply Forall_impl; [exact Hb|]. intros o Ho. simpl in Ho |- *.
    apply Forall_forall. intros k Hk. apply elem_of_Zseq in Hk. lia.
Qed.

Lemma overwrite_restarts_numbering projectId episodes d :
  numbered_from_one projectId (with_inserted projectId 1 episodes (cleared_db projectId d)).
Proof.
  unfold numbered_from_one, episode_numbers.
  rewrite project_outlines_inserted, cleared_project_outlines, app_nil_l.
  unfold inserted_outlines. rewrite inserted_episode_numbers, number_from_length, length_imap.
  apply orderBy_asc_numbers_run.
Qed.

Lemma saveOutlineData_keeps_numbering projectId episodes overwrite startEpisode w :
  episodes ≠ [] ->
  overwrite = true \/ startEpisode = None ->
  (forall q, numbered_from_one q (db w)) ->
  forall q, numbered_from_one q
              (db (saveOutlineData projectId episodes overwrite startEpisode w).2).
Proof.
  intros Hne Hmode Hnum q.
  eapply numbered_from_one_ext.
  { symmetry. by apply saveOutlineData_outlines. }
  destruct (decide (q = projectId)) as [->|Hq].
  - destruct overwrite; simpl.
    + apply overwrite_restarts_numbering.
    + destruct Hmode as [?| ->]; [done|]. simpl. by apply append_keeps_numbering.
  - unfold numbered_from_one, episode_numbers.
    rewrite project_outlines_inserted_other by done.
    destruct overwrite; simpl.
    + rewrite cleared_other_outlines by done. apply Hnum.
    + apply Hnum.
Qed.

Lemma saveOutline_world projectId episodes overwrite startEpisode w :
  (execute (saveOutline projectId) (in_saveOutline episodes overwrite startEpisode) w).2
  = if decide (episodes ≠ [] /\ Forall episodeSchema episodes)
    then (saveOutlineData projectId episodes overwrite startEpisode w).2
    else w.
Proof.
  simpl. destruct (decide _); [|done]. unfold bind.
  by destruct (saveOutlineData _ _ _ _ w) as [[[i s]|err] w'].
Qed.

Lemma updateOutlineData_run projectId id data w :
  updateOutlineData projectId id data w
  = match head (filter (fun o => o_id o = id /\ o_projectId o = projectId)
                       (rows (t_outline (db w)))) with
    | None => (fulfilled false, w)
    | Some _ =>
        (fulfilled true,
         mkWorld (set_outline (update_rows (fun o => o_id o = id)
                    (fun o => mkOutline (o_id o) (o_projectId o)
                                (Some (JSON_stringify data)) (o_episode o))
                    (t_outline (db w))) (db w))
                 (emitted w ++ [ev_refresh refresh_outline]) (history w))
    end.
Proof.
  unfold updateOutlineData, findOutlineById, bind, read. simpl.
  destruct (head _); done.
Qed.

Lemma update_keeps_project_episodes q id data (l : list OutlineRow) :
  map o_episode (filter (fun o => o_projectId o = q)
    (map (fun r => if decide (o_id r = id)
                   then mkOutline (o_id r) (o_projectId r) (Some (JSON_stringify data)) (o_episode r)
                   else r) l))
  = map o_episode (filter (fun o => o_projectId o = q) l).
Proof.
  induction l as [|o l IH]; [done|]. simpl.
  destruct (decide (o_projectId o = q)) as [Hq|Hq].
  - rewrite (filter_cons_True _ o) by done.
    rewrite filter_cons_True by (by destruct (decide (o_id o = id))).
    simpl. rewrite IH. f_equal. by destruct (decide (o_id o = id)).
  - rewrite (filter_cons_False _ o) by done.
    rewrite filter_cons_False by (by destruct (decide (o_id o = id))).
    apply IH.
Qed.

Lemma updateOutlineData_keeps_numbering projectId id data w :
  (forall q, numbered_from_one q (db w)) ->
  forall q, numbered_from_one q (db (updateOutlineData projectId id data w).2).
Proof.
  intros Hnum q. rewrite updateOutlineData_run.
  destruct (head _); [|apply Hnum]. simpl.
  specialize (Hnum q). unfold numbered_from_one, episode_numbers, project_outlines in *.
  simpl. rewrite update_keeps_project_episodes.
  rewrite <- (length_map o_episode (filter _ (map _ _))), update_keeps_project_episodes, length_map.
  exact Hnum.
Qed.

Lemma updateOutline_world projectId id data w :
  (execute (updateOutline projectId) (in_updateOutline id data) w).2
  = if decide (episodeSchema data) then (updateOutlineData projectId id data w).2 else w.
Proof.
  simpl. destruct (decide _); [|done]. unfold bind.
  by destruct (updateOutlineData _ _ _ w) as [[b|err] w'].
Qed.

(** The numbers are those of the list that [findOutlines] returns. *)
Lemma episode_numbers_findOutlines projectId w :
  (findOutlines projectId w).1
  = fulfilled (orderBy_asc o_episode (project_outlines projectId (db w)))
  /\ episode_numbers projectId (db w)
     = map o_episode (orderBy_asc o_episode (project_outlines projectId (db w))).
Proof. split; [done|]. unfold episode_numbers. by rewrite orderBy_asc_keys. Qed.

(** The [saveOutline] tool, on an input that its schema accepts, leaves the
    world that [saveOutlineData] leaves. *)
Lemma saveOutline_runs_saveOutlineData projectId episodes overwrite startEpisode w :
  episodes ≠ [] -> Forall episodeSchema episodes ->
  (execute (saveOutline projectId) (in_saveOutline episodes overwrite startEpisode) w).2
  = (saveOutlineData projectId episodes overwrite startEpisode w).2.
Proof. intros Hne Hschema. rewrite saveOutline_world. by rewrite decide_True. Qed.

(** C4, as amended.  In every state reached from the empty store by
    overwriting saves, appending saves without [startEpisode], and updates,
    the episode numbers of every project are exactly [1 .. n], hence
    contiguous and ascending without gaps. *)
Theorem C4_numbering_kept_without_explicit_start w :
  reachable_by numbering_kept w ->
  forall projectId,
    episode_numbers projectId (db w) = Zseq 1 (length (project_outlines projectId (db w)))
    /\ contiguous (episode_numbers projectId (db w)).
Proof.
  intros Hreach.
  cut (forall q, numbered_from_one q (db w)).
  { intros H q. split; [apply H|apply numbered_from_one_contiguous, H]. }
  induction Hreach as [|w projectId op _ IH Hop]; [done|].
  destruct op as [episodes overwrite startEpisode|id data|ids]; simpl in Hop; [| |done].
  - unfold apply_op. rewrite saveOutline_world.
    destruct (decide _) as [[Hne _]|]; [|done]. by apply saveOutlineData_keeps_numbering.
  - unfold apply_op. rewrite updateOutline_world.
    destruct (decide _); [|done]. by apply updateOutlineData_keeps_numbering.
Qed.

(** C4 fails as stated: after an overwriting save of three episodes, an
    appending save with [startEpisode = 10] leaves project 7 with the episode
    numbers 1, 2, 3, 10. *)
Lemma C4_explicit_start_leaves_gap : ~ numbering_invariant any_op.
Proof.
  intros H.
  pose (w1 := (apply_op 7 (op_saveOutline
                  [sample_episode 1 []; sample_episode 2 []; sample_episode 3 []]
                  true None) empty_world).2).
  pose (w := (apply_op 7 (op_saveOutline [sample_episode 1 []] false (Some 10)) w1).2).
  assert (reachable_by any_op w) as Hw.
  { subst w w1. do 2 (apply reach_step; [|done]). apply reach_start. }
  specialize (H w Hw 7).
  apply (bool_decide_pack _) in H. vm_compute in H. done.
Qed.

(** ** [Map] and [uniqueByName] *)

Section MapFacts.
Context {V : Type}.
Implicit Types (m : list (string * V)) (k : string) (v : V).

Lemma Map_get_set k v k' m :
  Map_get k' (Map_set k v m) = if decide (k = k') then Some v else Map_get k' m.
Proof.
  unfold Map_get. induction m as [|[k0 v0] m IH]; simpl.
  - rewrite filter_cons. simpl. by destruct (decide (k = k')).
  - destruct (decide (k0 = k)) as [->|Hne].
    + rewrite !filter_cons. simpl. by destruct (decide (k = k')).
    + rewrite !filter_cons. simpl.
      destruct (decide (k0 = k')) as [->|Hne'].
      * simpl. destruct (decide (k = k')); [congruence|done].
      * apply IH.
Qed.

Lemma Map_set_keys k v m :
  map fst (Map_set k v m) = if decide (k ∈ map fst m) then map fst m else map fst m ++ [k].
Proof.
  induction m as [|[k0 v0] m IH]; simpl.
  - destruct (decide (k ∈ [])) as [H|_]; [destruct (not_elem_of_nil _ H)|done].
  - destruct (decide (k0 = k)) as [->|Hne]; simpl.
    + rewrite decide_True by left. done.
    + rewrite IH. destruct (decide (k ∈ map fst m)) as [Hin|Hnin].
      * rewrite decide_True by (by right). done.
      * rewrite decide_False; [done|]. rewrite elem_of_cons.
        intros [Heq|Hin]; [by subst|done].
Qed.

Lemma Map_set_NoDup k v m : NoDup (map fst m) -> NoDup (map fst (Map_set k v m)).
Proof.
  intros Hnd. rewrite Map_set_keys. destruct (decide _) as [|Hk]; [done|].
  apply NoDup_app. split; [done|]. split.
  - intros x Hx Hx'. apply list_elem_of_singleton in Hx'. by subst.
  - apply NoDup_singleton.
Qed.

Lemma Map_foldl_NoDup (entries : list (string * V)) m :
  NoDup (map fst m) ->
  NoDup (map fst (foldl (fun m e => Map_set e.1 e.2 m) m entries)).
Proof.
  revert m. induction entries as [|e entries IH]; intros m Hm; simpl; [done|].
  by apply IH, Map_set_NoDup.
Qed.

Lemma Map_get_foldl k (entries : list (string * V)) m :
  Map_get k (foldl (fun m e => Map_set e.1 e.2 m) m entries)
  = match last (filter (fun e => e.1 = k) entries) with
    | Some e => Some e.2
    | None => Map_get k m
    end.
Proof.
  revert m. induction entries as [|e entries IH]; intros m; simpl; [done|].
  rewrite IH, Map_get_set, filter_cons.
  destruct (decide (e.1 = k)) as [Hk|Hk].
  - rewrite last_cons. by destruct (last _).
  - done.
Qed.

Lemma Map_get_elem k v m : Map_get k m = Some v -> (k, v) ∈ m.
Proof.
  unfold Map_get. intros H.
  destruct (filter (fun e => e.1 = k) m) as [|[k0 v0] l] eqn:Hf; [done|].
  simpl in H. injection H as ->.
  assert ((k0, v) ∈ filter (fun e => e.1 = k) m) as Hin by (rewrite Hf; left).
  apply list_elem_of_filter in Hin as [Hk Hin]. simpl in Hk. by subst.
Qed.

Lemma Map_elem_get k v m : NoDup (map fst m) -> (k, v) ∈ m -> Map_get k m = Some v.
Proof.
  unfold Map_get. induction m as [|[k0 v0] m IH]; intros Hnd Hin.
  - by apply elem_of_nil in Hin.
  - simpl in Hnd. apply NoDup_cons in Hnd as [Hk0 Hnd].
    rewrite filter_cons. simpl.
    apply elem_of_cons in Hin as [Heq|Hin].
    + injection Heq as -> ->. by rewrite decide_True.
    + rewrite decide_False; [by apply IH|].
      intros ->. apply Hk0. apply list_elem_of_fmap. by exists (k, v).
Qed.
End MapFacts.

Lemma filter_entries_by_name nm (items : list AssetItem) :
  filter (fun e : string * AssetItem => e.1 = nm) (map (fun item => (name item, item)) items)
  = map (fun item => (name item, item)) (filter (fun x => name x = nm) items).
Proof.
  induction items as [|x items IH]; [done|]. simpl.
  rewrite !filter_cons. simpl. destruct (decide (name x = nm)); simpl; by rewrite IH.
Qed.

Lemma uniqueByName_get nm items :
  Map_get nm (Map_new (map (fun item => (name item, item)) items)) = last_named nm items.
Proof.
  unfold Map_new, last_named. rewrite Map_get_foldl, filter_entries_by_name.
  change (map ?f ?l) with (f <$> l). rewrite fmap_last.
  by destruct (last _).
Qed.

(** An entry survives deduplication exactly when it is the last of its name. *)
Lemma elem_of_uniqueByName e items :
  e ∈ uniqueByName items <-> last_named (name e) items = Some e.
Proof.
  unfold uniqueByName, Map_values.
  set (m := Map_new (map (fun item => (name item, item)) items)).
  assert (NoDup (map fst m)) as Hnd by (apply Map_foldl_NoDup; constructor).
  assert (forall k v, (k, v) ∈ m -> k = name v) as Hkey.
  { intros k v Hin. apply (Map_elem_get _ _ _ Hnd) in Hin.
    unfold m in Hin. rewrite uniqueByName_get in Hin.
    unfold last_named in Hin. apply last_Some_elem_of in Hin.
    apply list_elem_of_filter in Hin as [Hn _]. done. }
  rewrite <- uniqueByName_get. fold m. split.
  - intros Hin. apply list_elem_of_fmap in Hin as ([k v] & -> & Hin). simpl.
    rewrite <- (Hkey _ _ Hin). by apply Map_elem_get.
  - intros Hget. apply Map_get_elem in Hget.
    apply list_elem_of_fmap. by exists (name e, e).
Qed.

Lemma uniqueByName_NoDup items : NoDup (map name (uniqueByName items)).
Proof.
  unfold uniqueByName, Map_values.
  set (m := Map_new (map (fun item => (name item, item)) items)).
  assert (NoDup (map fst m)) as Hnd by (apply Map_foldl_NoDup; constructor).
  assert (map name (map snd m) = map fst m) as ->; [|done].
  rewrite map_map. apply map_ext_in. intros [k v] Hin. simpl.
  apply list_elem_of_In in Hin. apply (Map_elem_get _ _ _ Hnd) in Hin.
  unfold m in Hin. rewrite uniqueByName_get in Hin.
  unfold last_named in Hin. apply last_Some_elem_of in Hin.
  apply list_elem_of_filter in Hin as [Hn _]. done.
Qed.

(** Every name met keeps one entry, the last of that name. *)
Lemma uniqueByName_covers item items :
  item ∈ items ->
  exists latest, last_named (name item) items = Some latest
                 /\ latest ∈ uniqueByName items /\ name latest = name item.
Proof.
  intros Hin. unfold last_named.
  destruct (last (filter (fun x => name x = name item) items)) as [latest|] eqn:Hlast.
  - exists latest. split; [done|].
    pose proof Hlast as Hl. apply last_Some_elem_of in Hl.
    apply list_elem_of_filter in Hl as [Hn _].
    split; [|done]. apply elem_of_uniqueByName. unfold last_named. by rewrite Hn.
  - apply last_None in Hlast.
    assert (item ∈ filter (fun x => name x = name item) items) as H.
    { by apply list_elem_of_filter. }
    rewrite Hlast in H. by apply elem_of_nil in H.
Qed.

(** ** Running the asset operations *)

Lemma set_assets_same d : set_assets (t_assets d) d = d.
Proof. by destruct d. Qed.

Lemma upsertAsset_run projectId type item w :
  upsertAsset projectId type item w
  = (fulfilled (upsert_row projectId type item (t_assets (db w))).1,
     mkWorld (set_assets (upsert_row projectId type item (t_assets (db w))).2 (db w))
             (emitted w) (history w)).
Proof.
  unfold upsertAsset, findAssetByTypeAndName, upsert_row, assets_with_key, bind, read. simpl.
  destruct (head _) as [e|]; [|done].
  destruct (decide (a_intro e ≠ description item)); [done|].
  simpl. unfold resolve. by rewrite set_assets_same, world_eta.
Qed.

Lemma processItems_run projectId items type stats w :
  processItems projectId items type stats w
  = (fulfilled (upsert_all projectId (tagged type items) stats (t_assets (db w))).1,
     mkWorld (set_assets (upsert_all projectId (tagged type items) stats (t_assets (db w))).2
                         (db w))
             (emitted w) (history w)).
Proof.
  revert stats w. induction items as [|item items IH]; intros stats w; simpl.
  - unfold resolve. by rewrite set_assets_same, world_eta.
  - unfold bind. rewrite upsertAsset_run, IH. simpl.
    by destruct (upsert_row projectId type item (t_assets (db w))) as [r t'].
Qed.

Lemma upsert_all_app projectId l1 l2 stats t :
  upsert_all projectId (l1 ++ l2) stats t
  = upsert_all projectId l2 (upsert_all projectId l1 stats t).1
                            (upsert_all projectId l1 stats t).2.
Proof.
  revert stats t. induction l1 as [|e l1 IH]; intros stats t; simpl; [done|].
  destruct (upsert_row projectId e.1 e.2 t) as [r t']. apply IH.
Qed.

(** [generateAssetsFromOutlines], in one step. *)
Lemma generateAssetsFromOutlines_run projectId w :
  let entries :=
    asset_entries (extractAssetsFromOutlines (map o_data (project_outlines projectId (db w)))) in
  let done := upsert_all projectId entries (mkStats 0 0 0) (t_assets (db w)) in
  generateAssetsFromOutlines projectId w
  = if decide (length (map o_data (project_outlines projectId (db w))) = 0%nat)
    then (fulfilled (mkStats 0 0 0), w)
    else (fulfilled done.1,
          mkWorld (set_assets done.2 (db w))
                  (emitted w ++ [ev_refresh refresh_assets]) (history w)).
Proof.
  intros entries done. unfold generateAssetsFromOutlines, bind at 1, read at 1.
  cbv beta iota.
  destruct (decide _); [done|].
  subst done entries. unfold asset_entries.
  destruct (extractAssetsFromOutlines _) as [[cs ps] ss]. cbn [fst snd].
  unfold bind. rewrite !processItems_run.
  cbn [db t_assets t_outline t_script t_storyline t_novel t_prompts set_assets
       emitted history fst snd].
  rewrite !upsert_all_app. done.
Qed.

(** ** Upserting into the asset table *)

Lemma unique_id_same_row (l : list AssetRow) a b :
  NoDup (map a_id l) -> a ∈ l -> b ∈ l -> a_id a = a_id b -> a = b.
Proof.
  induction l as [|x l IH]; intros Hnd Ha Hb Hid.
  - by apply elem_of_nil in Ha.
  - simpl in Hnd. apply NoDup_cons in Hnd as [Hx Hnd].
    apply elem_of_cons in Ha as [->|Ha]; apply elem_of_cons in Hb as [->|Hb].
    + done.
    + exfalso. apply Hx. rewrite Hid. apply list_elem_of_fmap. by exists b.
    + exfalso. apply Hx. rewrite <- Hid. apply list_elem_of_fmap. by exists a.
    + by apply IH.
Qed.

Section UpsertFacts.
Variable projectId : Z.

Lemma redescribe_key i d type nm (l : list AssetRow) :
  filter (asset_key projectId type nm) (map (redescribe i d) l)
  = map (redescribe i d) (filter (asset_key projectId type nm) l).
Proof.
  induction l as [|a l IH]; [done|]. simpl.
  assert (asset_key projectId type nm (redescribe i d a) <-> asset_key projectId type nm a) as Hk.
  { unfold redescribe, asset_key. by destruct (decide (a_id a = i)). }
  rewrite !filter_cons. destruct (decide (asset_key projectId type nm a)) as [Ha|Ha].
  - rewrite decide_True by (by apply Hk). simpl. by rewrite IH.
  - rewrite decide_False by (by rewrite Hk). apply IH.
Qed.

Lemma redescribe_ids i d (l : list AssetRow) : map a_id (map (redescribe i d) l) = map a_id l.
Proof.
  rewrite map_map. apply map_ext. intros a. unfold redescribe.
  by destruct (decide (a_id a = i)).
Qed.

Lemma upsert_row_unfold type item t :
  upsert_row projectId type item t
  = match head (assets_with_key projectId type (name item) t) with
    | None =>
        (res_inserted,
         mkTable (rows t ++ [mkAsset (next_id t) projectId type (name item)
                               (description item) (description item)])
                 (next_id t + 1))
    | Some e =>
        if decide (a_intro e = description item) then (res_skipped, t)
        else (res_updated,
              mkTable (map (redescribe (a_id e) (description item)) (rows t)) (next_id t))
    end.
Proof.
  unfold upsert_row. destruct (head _) as [e|]; [|done].
  destruct (decide (a_intro e = description item)) as [Heq|Hne].
  - by rewrite decide_False by (intros H; by apply H).
  - by rewrite decide_True.
Qed.

Lemma upsert_row_wf type item t :
  assets_wf t -> assets_wf (upsert_row projectId type item t).2.
Proof.
  intros [Hnd Hlt]. rewrite upsert_row_unfold.
  destruct (head _) as [e|]; [destruct (decide _)|]; simpl; [done| |].
  - split; simpl; [by rewrite redescribe_ids|].
    apply Forall_forall. intros a Ha.
    apply list_elem_of_fmap in Ha as (b & -> & Hb).
    rewrite Forall_forall in Hlt. specialize (Hlt _ Hb).
    unfold redescribe. by destruct (decide _).
  - split; simpl.
    + rewrite map_app. apply NoDup_app. split; [done|]. split; [|apply NoDup_singleton].
      intros i Hi Hi'. apply list_elem_of_singleton in Hi'. subst i.
      apply list_elem_of_fmap in Hi as (a & Hid & Ha).
      rewrite Forall_forall in Hlt. specialize (Hlt _ Ha). simpl in Hid. lia.
    + apply Forall_app. split.
      * eapply Forall_impl; [exact Hlt|]. simpl. lia.
      * constructor; [simpl; lia|constructor].
Qed.

(** Upserting one key leaves the records of every other key alone. *)
Lemma upsert_row_other type item t type' nm' :
  assets_wf t -> (type', nm') ≠ (type, name item) ->
  assets_with_key projectId type' nm' (upsert_row projectId type item t).2
  = assets_with_key projectId type' nm' t.
Proof.
  intros [Hnd _] Hne. rewrite upsert_row_unfold. unfold assets_with_key at 1 3.
  destruct (head _) as [e|] eqn:Hhead; [destruct (decide _)|]; simpl; [done| |].
  - rewrite redescribe_key.
    rewrite <- (map_id (filter (asset_key projectId type' nm') (rows t))) at 2.
    apply map_ext_in. intros a Ha. apply list_elem_of_In in Ha.
    apply list_elem_of_filter in Ha as [Hka Ha].
    unfold redescribe. destruct (decide (a_id a = a_id e)) as [Hid|]; [|done].
    exfalso.
    assert (e ∈ assets_with_key projectId type (name item) t) as He.
    { apply head_Some_elem_of. exact Hhead. }
    apply list_elem_of_filter in He as [Hke He].
    assert (a = e) as -> by (by eapply unique_id_same_row).
    destruct Hka as (_ & <- & <-), Hke as (_ & Ht & Hn). apply Hne. by rewrite Ht, Hn.
  - rewrite filter_app, filter_cons, decide_False.
    + by rewrite filter_nil, app_nil_r.
    + intros (_ & Ht & Hn). simpl in *. apply Hne. by rewrite Ht, Hn.
Qed.

(** Upserting a key leaves a first record of that key with the entry's
    description, and adds a record only when there was none. *)
Lemma upsert_row_self type item t :
  exists a rest,
    assets_with_key projectId type (name item) (upsert_row projectId type item t).2 = a :: rest
    /\ a_intro a = description item
    /\ length (a :: rest)
       = Nat.max 1 (length (assets_with_key projectId type (name item) t)).
Proof.
  rewrite upsert_row_unfold. unfold assets_with_key.
  destruct (filter (asset_key projectId type (name item)) (rows t)) as [|e rest] eqn:Hf; simpl.
  - rewrite filter_app, Hf, filter_cons, decide_True by done.
    eexists _, []. split; [done|]. by split.
  - destruct (decide (a_intro e = description item)) as [Heq|Hne]; simpl.
    + exists e, rest. by rewrite Hf.
    + rewrite redescribe_key, Hf. simpl.
      eexists _, _. split; [done|]. split.
      * unfold redescribe. by rewrite decide_True.
      * by rewrite length_map.
Qed.

Lemma upsert_row_settled type item t :
  entry_settled projectId t (type, item) ->
  upsert_row projectId type item t = (res_skipped, t).
Proof.
  intros (a & Hhead & Hintro). simpl in *. rewrite upsert_row_unfold, Hhead.
  by rewrite decide_True.
Qed.

Lemma upsert_all_wf entries stats t :
  assets_wf t -> assets_wf (upsert_all projectId entries stats t).2.
Proof.
  revert stats t. induction entries as [|e entries IH]; intros stats t Hwf; simpl; [done|].
  pose proof (upsert_row_wf e.1 e.2 t Hwf) as Hwf'.
  destruct (upsert_row projectId e.1 e.2 t) as [r t']. by apply IH.
Qed.

Lemma upsert_all_other entries stats t type' nm' :
  assets_wf t -> (type', nm') ∉ map entry_key entries ->
  assets_with_key projectId type' nm' (upsert_all projectId entries stats t).2
  = assets_with_key projectId type' nm' t.
Proof.
  revert stats t. induction entries as [|e entries IH]; intros stats t Hwf Hnin; simpl; [done|].
  simpl in Hnin. apply not_elem_of_cons in Hnin as [Hne Hnin].
  pose proof (upsert_row_wf e.1 e.2 t Hwf) as Hwf'.
  pose proof (upsert_row_other e.1 e.2 t type' nm' Hwf Hne) as Hother.
  destruct (upsert_row projectId e.1 e.2 t) as [r t']. simpl in *.
  rewrite IH by done. exact Hother.
Qed.

(** After a pass over entries with distinct keys, every entry is held by a
    first record of its key. *)
Lemma upsert_all_settles entries stats t e :
  assets_wf t -> NoDup (map entry_key entries) -> e ∈ entries ->
  exists a rest,
    assets_with_key projectId e.1 (name e.2) (upsert_all projectId entries stats t).2
      = a :: rest
    /\ a_intro a = description e.2
    /\ length (a :: rest)
       = Nat.max 1 (length (assets_with_key projectId e.1 (name e.2) t)).
Proof.
  revert stats t. induction entries as [|e0 entries IH]; intros stats t Hwf Hnd Hin.
  - by apply elem_of_nil in Hin.
  - simpl in Hnd. apply NoDup_cons in Hnd as [Hfresh Hnd]. simpl.
    pose proof (upsert_row_wf e0.1 e0.2 t Hwf) as Hwf'.
    apply elem_of_cons in Hin as [->|Hin].
    + pose proof (upsert_row_self e0.1 e0.2 t) as Hself.
      destruct (upsert_row projectId e0.1 e0.2 t) as [r t']. simpl in *.
      rewrite upsert_all_other by done. exact Hself.
    + assert (entry_key e ≠ entry_key e0) as Hne.
      { intros Heq. apply Hfresh. rewrite <- Heq. apply list_elem_of_fmap. by exists e. }
      pose proof (upsert_row_other e0.1 e0.2 t e.1 (name e.2) Hwf Hne) as Hother.
      destruct (upsert_row projectId e0.1 e0.2 t) as [r t']. simpl in *.
      rewrite <- Hother. by apply IH.
Qed.

(** A pass over entries that the table already holds changes nothing and
    counts each of them as skipped. *)
Lemma upsert_all_skips entries stats t :
  Forall (entry_settled projectId t) entries ->
  upsert_all projectId entries stats t
  = (mkStats (inserted stats) (updated stats) (skipped stats + Z.of_nat (length entries)), t).
Proof.
  revert stats. induction entries as [|[type item] entries IH]; intros stats Hall.
  - simpl. rewrite Z.add_0_r. by destruct stats.
  - apply Forall_cons in Hall as [He Hall]. simpl.
    rewrite (upsert_row_settled _ _ _ He), IH by done. simpl.
    do 2 f_equal. lia.
Qed.
End UpsertFacts.

(** ** Asset extraction (C5, C6) *)

Lemma tagged_keys type items :
  map entry_key (tagged type items) = map (fun nm => (type, nm)) (map name items).
Proof. unfold tagged. by rewrite !map_map. Qed.



Lemma tagged_NoDup type items :
  NoDup (map name items) -> NoDup (map entry_key (tagged type items)).
Proof.
  intros Hnd. rewrite tagged_keys.
  by apply (NoDup_fmap_2 (fun nm => (type, nm))).
Qed.

Lemma asset_entries_NoDup x :
  NoDup (map name x.1.1) -> NoDup (map name x.1.2) -> NoDup (map name x.2) ->
  NoDup (map entry_key (asset_entries x)).
Proof.
  intros Hc Hp Hs. unfold asset_entries. rewrite !map_app.
  assert (forall type items k, k ∈ map entry_key (tagged type items) -> k.1 = type) as Htag.
  { intros type items k Hk. rewrite tagged_keys in Hk.
    apply list_elem_of_fmap in Hk as (nm & -> & _). done. }
  apply NoDup_app. split; [by apply tagged_NoDup|]. split.
  - intros k Hk Hk'. apply Htag in Hk.
    apply elem_of_app in Hk' as [Hk'|Hk']; apply Htag in Hk'; congruence.
  - apply NoDup_app. split; [by apply tagged_NoDup|]. split; [|by apply tagged_NoDup].
    intros k Hk Hk'. apply Htag in Hk. apply Htag in Hk'. congruence.
Qed.

Lemma extracted_entries_NoDup outlines :
  NoDup (map entry_key (asset_entries (extractAssetsFromOutlines outlines))).
Proof. apply asset_entries_NoDup; apply uniqueByName_NoDup. Qed.

Lemma of_type_extracted type outlines :
  of_type type (extractAssetsFromOutlines outlines)
  = uniqueByName (of_type type (foldl push_assets ([], [], []) outlines)).
Proof. by destruct type. Qed.


(** C6.  On an asset table with unique ids, a second run of
    [generateAssetsFromOutlines] right after a first one reports no insert,
    no update and as many skipped entries as there are deduplicated entries
    (whose (type, name) keys are pairwise distinct), and leaves the store as
    the first run left it. *)
Theorem C6_second_run_skips_everything projectId w :
  assets_wf (t_assets (db w)) ->
  let entries :=
    asset_entries (extractAssetsFromOutlines (map o_data (project_outlines projectId (db w)))) in
  let first := generateAssetsFromOutlines projectId w in
  let second := generateAssetsFromOutlines projectId first.2 in
  second.1 = fulfilled (mkStats 0 0 (Z.of_nat (length entries)))
  /\ db second.2 = db first.2
  /\ NoDup (map entry_key entries).
Proof.
  intros Hwf entries first second. subst second first.
  split; [|split; [|apply extracted_entries_NoDup]].
  - rewrite (generateAssetsFromOutlines_run projectId w).
    set (outlines := map o_data (project_outlines projectId (db w))) in *.
    destruct (decide (length outlines = 0%nat)) as [Hnone|Hsome].
    + cbn [snd]. rewrite generateAssetsFromOutlines_run. fold outlines.
      rewrite decide_True by done. cbn [fst].
      apply nil_length_inv in Hnone. subst entries. by rewrite Hnone.
    + cbn [snd]. rewrite generateAssetsFromOutlines_run.
      cbn [db t_outline t_assets set_assets project_outlines]. fold outlines.
      rewrite decide_False by done. cbn [fst]. fold entries.
      rewrite upsert_all_skips; [done|].
      apply Forall_forall. intros e He.
      destruct (upsert_all_settles projectId _ (mkStats 0 0 0) _ _ Hwf
                  (extracted_entries_NoDup outlines) He)
        as (a & rest & Hkey & Hintro & _).
      exists a. unfold entries. by rewrite Hkey.
  - rewrite (generateAssetsFromOutlines_run projectId w).
    set (outlines := map o_data (project_outlines projectId (db w))) in *.
    destruct (decide (length outlines = 0%nat)) as [Hnone|Hsome].
    + cbn [snd]. rewrite generateAssetsFromOutlines_run. fold outlines.
      by rewrite decide_True by done.
    + cbn [snd]. rewrite generateAssetsFromOutlines_run.
      cbn [db t_outline t_assets set_assets project_outlines]. fold outlines.
      rewrite decide_False by done. cbn [snd db]. fold entries.
      rewrite upsert_all_skips; [done|].
      apply Forall_forall. intros e He.
      destruct (upsert_all_settles projectId _ (mkStats 0 0 0) _ _ Hwf
                  (extracted_entries_NoDup outlines) He)
        as (a & rest & Hkey & Hintro & _).
      exists a. unfold entries. by rewrite Hkey.
Qed.

(** ** Bulk deletion (C7) *)

Lemma head_filter_exists {A} (P : A -> Prop) `{!forall x, Decision (P x)} (l : list A) :
  is_Some (head (filter P l)) <-> Exists P l.
Proof.
  rewrite Exists_exists. split.
  - intros [x Hx]. apply head_Some_elem_of in Hx.
    apply list_elem_of_filter in Hx as [HP Hx]. by exists x.
  - intros (x & Hx & HP).
    assert (x ∈ filter P l) as Hin by (by apply list_elem_of_filter).
    destruct (filter P l); [by apply elem_of_nil in Hin|by eexists].
Qed.













(** ** The tools of a sub-agent (C8) *)

Lemma ids_kept_refl {A} (id : A -> Z) (t : Table A) : ids_kept id t t.
Proof.
  apply Forall_forall. intros r Hr. apply list_elem_of_fmap. by exists r.
Qed.

Lemma ids_kept_insert {A} (id : A -> Z) (mks : list (Z -> A)) (t : Table A) :
  ids_kept id t (insert_rows mks t).
Proof.
  apply Forall_forall. intros r Hr. simpl. rewrite map_app, elem_of_app. left.
  apply list_elem_of_fmap. by exists r.
Qed.

Lemma ids_kept_update {A} (id : A -> Z) (P : A -> Prop) `{!forall x, Decision (P x)}
    (f : A -> A) (t : Table A) :
  (forall r, id (f r) = id r) -> ids_kept id t (update_rows P f t).
Proof.
  intros Hf. apply Forall_forall. intros r Hr. simpl.
  apply list_elem_of_fmap. exists (if decide (P r) then f r else r). split.
  - by destruct (decide (P r)).
  - apply list_elem_of_fmap. by exists r.
Qed.

Lemma no_data_deleted_refl w : no_data_deleted w w.
Proof. repeat split; apply ids_kept_refl. Qed.

Lemma only_refresh_refl w : only_refresh_emitted w w.
Proof. exists []. by rewrite app_nil_r. Qed.

Lemma only_refresh_one w d h type :
  only_refresh_emitted w (mkWorld d (emitted w ++ [ev_refresh type]) h).
Proof. eexists. split; [done|]. constructor; [by eexists|constructor]. Qed.

Lemma only_refresh_same w d h : only_refresh_emitted w (mkWorld d (emitted w) h).
Proof. exists []. by rewrite app_nil_r. Qed.

Lemma getOutlineText_world projectId simplified w :
  (getOutlineText projectId simplified w).2 = w.
Proof.
  unfold getOutlineText, findOutlines, bind, read. simpl.
  destruct (decide _); [done|]. by destruct simplified.
Qed.

Lemma upsertStorylineContent_world projectId content w :
  (upsertStorylineContent projectId content w).2
  = mkWorld
      (set_storyline
         (match head (filter (fun r => sl_projectId r = projectId)
                             (rows (t_storyline (db w)))) with
          | Some _ =>
              update_rows (fun r => sl_projectId r = projectId)
                (fun r => mkStoryline (sl_id r) (sl_projectId r) content) (t_storyline (db w))
          | None =>
              insert_rows [fun id => mkStoryline id projectId content] (t_storyline (db w))
          end) (db w))
      (emitted w ++ [ev_refresh refresh_storyline]) (history w).
Proof.
  unfold upsertStorylineContent, findStoryline, bind, read, refresh, emit. simpl.
  by destruct (head _).
Qed.

(** What each tool of the catalogue leaves behind. *)
Lemma sub_agent_tool_effect projectId key tool input w :
  (key, tool) ∈ getSubAgentTools projectId ->
  assets_untouched w (execute tool input w).2
  /\ only_refresh_emitted w (execute tool input w).2
  /\ (~ overwriting_save input -> no_data_deleted w (execute tool input w).2).
Proof.
  intros Hin. unfold getSubAgentTools in Hin.
  repeat (apply elem_of_cons in Hin as [Heq|Hin]; [injection Heq as -> ->|]);
    [..|by apply elem_of_nil in Hin].
  - (* getChapter *)
    assert ((execute (getChapter projectId) input w).2 = w) as ->.
    { destruct input; try done. simpl. by destruct (decide _). }
    split; [done|]. split; [apply only_refresh_refl|]. intros _. apply no_data_deleted_refl.
  - (* getStoryline *)
    assert ((execute (getStoryline projectId) input w).2 = w) as ->.
    { by destruct input. }
    split; [done|]. split; [apply only_refresh_refl|]. intros _. apply no_data_deleted_refl.
  - (* saveStoryline *)
    destruct input as [|content| | | | | |];
      try (split; [done|]; split; [apply only_refresh_refl|]; intros _;
           apply no_data_deleted_refl).
    assert ((execute (saveStoryline projectId) (in_content content) w).2
            = (upsertStorylineContent projectId content w).2) as ->.
    { simpl. unfold bind. by destruct (upsertStorylineContent _ _ w) as [[[]|err] w']. }
    rewrite upsertStorylineContent_world.
    split; [done|]. split; [apply only_refresh_one|]. intros _.
    repeat split; try apply ids_kept_refl. simpl.
    destruct (head _); [by apply ids_kept_update|apply ids_kept_insert].
  - (* getOutline *)
    assert ((execute (getOutline projectId) input w).2 = w) as ->.
    { destruct input; try done. simpl. apply getOutlineText_world. }
    split; [done|]. split; [apply only_refresh_refl|]. intros _. apply no_data_deleted_refl.
  - (* saveOutline *)
    destruct input as [| | |episodes overwrite startEpisode| | | |];
      try (split; [done|]; split; [apply only_refresh_refl|]; intros _;
           apply no_data_deleted_refl).
    rewrite saveOutline_world. destruct (decide _) as [[Hne _]|_].
    2:{ split; [done|]. split; [apply only_refresh_refl|]. intros _.
        apply no_data_deleted_refl. }
    rewrite saveOutlineData_run by done. cbv zeta.
    destruct (mapM _ _) as [scripts|]; cbn [snd].
    + split; [|split].
      * unfold assets_untouched. cbn [db]. destruct (decide _); by destruct overwrite.
      * apply only_refresh_one.
      * intros Hmode. destruct overwrite; [by destruct Hmode|]. cbn [base_db].
        destruct (decide _); repeat split; cbn [db]; simpl;
          try apply ids_kept_refl; try apply ids_kept_insert.
    + split; [|split].
      * unfold assets_untouched. cbn [db]. by destruct overwrite.
      * apply only_refresh_same.
      * intros Hmode. destruct overwrite; [by destruct Hmode|]. cbn [base_db].
        repeat split; cbn [db]; simpl; try apply ids_kept_refl; try apply ids_kept_insert.
  - (* updateOutline *)
    destruct input as [| | | |id data| | |];
      try (split; [done|]; split; [apply only_refresh_refl|]; intros _;
           apply no_data_deleted_refl).
    rewrite updateOutline_world. destruct (decide _) as [_|_].
    2:{ split; [done|]. split; [apply only_refresh_refl|]. intros _.
        apply no_data_deleted_refl. }
    rewrite updateOutlineData_run. destruct (head _); cbn [snd].
    + split; [done|]. split; [apply only_refresh_one|]. intros _.
      repeat split; cbn [db]; simpl; try apply ids_kept_refl. by apply ids_kept_update.
    + split; [done|]. split; [apply only_refresh_refl|]. intros _.
      apply no_data_deleted_refl.
Qed.

(** [invokeSubAgent] up to the request that it hands to the completion
    service. *)
Lemma invokeSubAgent_run projectId stream buildEnvironmentContext agentType task w :
  invokeSubAgent projectId stream buildEnvironmentContext agentType task w
  = let w1 := mkWorld (db w) (emitted w ++ [ev_transfer agentType]) (history w) in
    let promptsList :=
      filter (fun p => pr_code p ∈ ["outlineScript-a1"; "outlineScript-a2";
                                     "outlineScript-director"])
             (t_prompts (db w)) in
    match buildFullContext buildEnvironmentContext task w1 with
    | (fulfilled context, w2) =>
        (await fullResponse <-
           subAgentLoop agentType
             (stream (subAgentRequest projectId promptsList agentType context)) "";
         run emit (ev_subAgentEnd (tag_persona agentType));
         run push_history (mkMessage role_assistant fullResponse);
         resolve fullResponse) w2
    | (rejected err, w2) => (rejected err, w2)
    end.
Proof.
  unfold invokeSubAgent. unfold bind at 1, emit at 1. unfold bind at 1, read at 1.
  cbv beta iota zeta. unfold bind at 1. cbn [db].
  by destruct (buildFullContext _ _ _) as [[context|err] w2].
Qed.

(** The request of a sub-agent turn. *)
Lemma invokeSubAgent_request projectId :
  turn_started_with projectId (getSubAgentTools projectId).
Proof.
  intros buildEnvironmentContext agentType task w.
  set (w1 := mkWorld (db w) (emitted w ++ [ev_transfer agentType]) (history w)).
  destruct (buildFullContext buildEnvironmentContext task w1) as [[context|err] w2] eqn:Hctx.
  - exists (subAgentRequest projectId
              (filter (fun p => pr_code p ∈ ["outlineScript-a1"; "outlineScript-a2";
                                             "outlineScript-director"])
                      (t_prompts (db w)))
              agentType context).
    split; [done|]. split; [done|]. intros stream stream' Hsame.
    rewrite !invokeSubAgent_run. cbv zeta. fold w1. rewrite Hctx. by rewrite Hsame.
  - exists (subAgentRequest projectId [] agentType "").
    split; [done|]. split; [done|]. intros stream stream' _.
    rewrite !invokeSubAgent_run. cbv zeta. fold w1. by rewrite Hctx.
Qed.

(** C8, as amended.  Every sub-agent turn is started with exactly the six
    tools getChapter, getStoryline, saveStoryline, getOutline, saveOutline
    and updateOutline, none of deleteStoryline, deleteOutline, generateAssets
    or the three delegation tools: the request that [invokeSubAgent] hands to
    the completion service carries this catalogue.  No call of these tools
    changes an asset or emits a transfer to a sub-agent, and no call deletes
    a record except [saveOutline] with [overwrite = true], which removes the
    project's outlines and their scripts. *)
Theorem C8_sub_agent_tools_confined : sub_agent_confined overwriting_save.
Proof.
  intros projectId. split; [apply invokeSubAgent_request|]. split; [done|]. split.
  - repeat constructor; simpl; intros Hin;
      repeat (apply elem_of_cons in Hin as [Heq|Hin]; [discriminate Heq|]);
      by apply elem_of_nil in Hin.
  - intros key tool input w. apply sub_agent_tool_effect.
Qed.

(** C8 fails as stated: with the [saveOutline] tool of its catalogue and
    [overwrite = true], a sub-agent deletes the three outlines of project 7
    and their scripts. *)
Lemma C8_sub_agent_overwrite_deletes : ~ sub_agent_confined never.
Proof.
  intros H. destruct (H 7) as (_ & _ & _ & Hcalls).
  destruct (Hcalls "saveOutline" (saveOutline 7)
              (in_saveOutline [sample_episode 1 []] true None) three_episodes)
    as (_ & _ & Hkept).
  { unfold getSubAgentTools. do 4 right. left. }
  assert (~ never (in_saveOutline [sample_episode 1 []] true None)) as Hnever by (by intros []).
  specialize (Hkept Hnever).
  apply (bool_decide_pack _) in Hkept. vm_compute in Hkept. done.
Qed.

(** ** Labels of sub-agent events (C9) *)

Lemma string_app_nil_r (s : string) : s +:+ "" = s.
Proof.
  induction s as [|a s IH]; [done|].
  change (String a s +:+ "") with (String a (s +:+ "")). by rewrite IH.
Qed.

Lemma string_app_assoc (s t u : string) : (s +:+ t) +:+ u = s +:+ (t +:+ u).
Proof.
  induction s as [|a s IH]; [done|].
  change (String a ((s +:+ t) +:+ u) = String a (s +:+ (t +:+ u))).
  by rewrite IH.
Qed.

(** Over a stream during which the service leaves the world alone, the loop
    of [invokeSubAgent] emits one event per text fragment, labelled with the
    persona, and one event per tool call, labelled ["main"]. *)
Lemma subAgentLoop_quiet agentType items fullResponse w :
  subAgentLoop agentType (quiet items) fullResponse w
  = (fulfilled (fullResponse +:+ concat_texts (map item_text_of items)),
     mkWorld (db w) (emitted w ++ concat (map (sub_agent_event agentType) items)) (history w)).
Proof.
  revert fullResponse w. induction items as [|item items IH]; intros fullResponse w.
  - simpl. unfold resolve. by rewrite app_nil_r, world_eta, string_app_nil_r.
  - simpl. unfold bind at 1. unfold resolve at 1.
    destruct item as [item_title|item_text|].
    + unfold bind at 1, emit at 1. rewrite IH. simpl. by rewrite <- app_assoc.
    + unfold bind at 1, emit at 1. rewrite IH. simpl.
      by rewrite <- app_assoc, string_app_assoc.
    + by rewrite IH.
Qed.

(** C9 (defect).  In the turn of the sub-agent AI2 in which the model writes,
    calls [saveOutline] and writes again, the text fragments and the end of
    the turn are labelled with AI2, but the tool-call notification is
    emitted with the label ["main"], the label of the top-level agent. *)
Theorem C9_tool_call_labelled_main :
  let result := invokeSubAgent 7 sample_stream (resolve "env") AI2 "task" empty_world in
  result.1 = fulfilled "plan done"
  /\ emitted result.2
     = [ ev_transfer AI2;
         ev_subAgentStream (tag_persona AI2) "plan";
         ev_toolCall tag_main "saveOutline";
         ev_subAgentStream (tag_persona AI2) " done";
         ev_subAgentEnd (tag_persona AI2) ]
  /\ map event_agent (emitted result.2)
     = [ None; Some (tag_persona AI2); Some tag_main; Some (tag_persona AI2);
         Some (tag_persona AI2) ].
Proof. vm_compute. repeat split. Qed.

(** ** Payloads that are not JSON (C10) *)



(** [getOutlineText], in one step. *)
Lemma getOutlineText_run projectId simplified w :
  getOutlineText projectId simplified w
  = (fulfilled (if decide (project_outlines projectId (db w) = [])
                then "当前项目暂无大纲"
                else if simplified then simplified_text (listed_outlines projectId (db w))
                     else detailed_text (listed_outlines projectId (db w))),
     w).
Proof.
  unfold listed_outlines, getOutlineText, findOutlines, bind, read. cbv beta iota.
  destruct (decide (length (orderBy_asc o_episode (project_outlines projectId (db w))) = 0%nat))
    as [Hnone|Hsome].
  - rewrite orderBy_asc_length in Hnone. apply nil_length_inv in Hnone.
    by rewrite decide_True.
  - rewrite decide_False.
    2:{ intros Hnil. apply Hsome. by rewrite Hnil. }
    unfold simplified_text, detailed_text. rewrite !length_map, !map_map.
    by destruct simplified.
Qed.


Lemma written_payload_is_Some data : written_payload data -> is_Some data.
Proof. intros [[ep ->]|[raw ->]]; by eexists. Qed.



(** The detail that [getOutlineText] renders for such a record. *)
Example broken_outline_detail :
  formatOutlineDetail (view_of broken_outline) = "
大纲ID: 5
第 undefined 集: 
==================================================
章节范围: 
核心矛盾: 

【剧情主干】(最高优先级，剧本生成的唯一权威):
无

【开场镜头】(必须作为剧本第一个镜头):
无

【剧情节点】(严格按顺序：起→承→转→合):
  无

情绪曲线: 

【视觉重点】(按剧情主干顺序排列):
  无

【结尾悬念】:
无

【经典台词】:
  无

角色(按出场顺序): 无
场景(按出场顺序): 无
道具(按出场顺序): 无".
Proof. vm_compute. reflexivity. Qed.

(** ** The properties at work on sample data *)


(** C1 on project 7: two documents appended to the three episodes. *)
Lemma C1_append_witness :
  [sample_episode 8 []; sample_episode 8 []] ≠ []
  /\ within_safe_integers (max_episode 7 (db three_episodes)) 2
  /\ let result :=
       saveOutlineData_with 7 double_add [sample_episode 8 []; sample_episode 8 []]
         false None three_episodes in
     result.1 = fulfilled (2, 2)
     /\ map o_episode (appended_outlines three_episodes result.2) = [4; 5]
     /\ map stored_episodeIndex (appended_outlines three_episodes result.2)
        = [Some 4; Some 5].
Proof.
  assert ([sample_episode 8 []; sample_episode 8 []] ≠ []) as Hsome by discriminate.
  assert (within_safe_integers (max_episode 7 (db three_episodes)) 2) as Hsafe.
  { change (max_episode 7 (db three_episodes)) with 3.
    unfold within_safe_integers, safe_integer, MAX_SAFE_INTEGER. lia. }
  split; [exact Hsome|]. split; [exact Hsafe|].
  destruct (C1_append_numbers_from_max 7 [sample_episode 8 []; sample_episode 8 []]
              three_episodes Hsome Hsafe)
    as (Hres & _ & _ & _ & Hnum & Hidx & _).
  intros result.
  split; [exact Hres|]. split; [exact Hnum|exact Hidx].
Defined.

(** C2 on project 7: three episodes overwritten by two. *)
Lemma C2_overwrite_witness :
  [sample_episode 8 []; sample_episode 8 []] ≠ []
  /\ store_integrity (db three_episodes)
  /\ let result :=
       saveOutlineData 7 [sample_episode 8 []; sample_episode 8 []] true None three_episodes in
     result.1 = fulfilled (2, 2)
     /\ map o_episode (project_outlines 7 (db result.2)) = [1; 2]
     /\ map stored_episodeIndex (project_outlines 7 (db result.2)) = [Some 1; Some 2]
     /\ length (project_scripts 7 (db result.2)) = 2%nat.
Proof.
  assert ([sample_episode 8 []; sample_episode 8 []] ≠ []) as Hsome by discriminate.
  assert (store_integrity (db three_episodes)) as Hstore.
  { split; apply (bool_decide_unpack _); vm_compute; exact I. }
  split; [exact Hsome|]. split; [exact Hstore|].
  destruct (C2_overwrite_replaces_everything 7
              [sample_episode 8 []; sample_episode 8 []] None three_episodes Hsome Hstore)
    as (Hres & _ & _ & Hnum & Hidx & Hscripts & _).
  intros result.
  split; [exact Hres|]. split; [exact Hnum|]. split; [exact Hidx|exact Hscripts].
Defined.

(** C2 fails as stated, on a store with a script whose outline is gone:
    project 7 holds the script that the appending save had made for outline
    3 by mistake and that the deletion of outline 3 left behind; the
    clearing removes the scripts of the outlines that the project has, not
    this one, and after an overwriting save of one document the project has
    two scripts. *)
Lemma C2_script_without_outline_survives : ~ overwrite_replaces any_store.
Proof.
  intros H.
  destruct (H 7 [sample_episode 1 []] None orphaned_script)
    as (_ & _ & _ & _ & _ & Hscripts & _); [done|done|].
  vm_compute in Hscripts. discriminate Hscripts.
Qed.

(** C4 on the state reached by one overwriting save of three episodes. *)
Lemma C4_numbering_witness :
  let w := (apply_op 7 (op_saveOutline
              [sample_episode 1 []; sample_episode 2 []; sample_episode 3 []] true None)
              empty_world).2 in
  reachable_by numbering_kept w
  /\ episode_numbers 7 (db w) = Zseq 1 (length (project_outlines 7 (db w)))
  /\ contiguous (episode_numbers 7 (db w)).
Proof.
  intros w.
  assert (reachable_by numbering_kept w) as Hreach.
  { subst w. apply reach_step; [apply reach_start|]. left. reflexivity. }
  split; [exact Hreach|].
  exact (C4_numbering_kept_without_explicit_start w Hreach 7).
Defined.


(** C6 on the same project: three entries inserted by the first run, three
    skipped by the second. *)
Lemma C6_second_run_witness :
  assets_wf (t_assets (db episode_five_first))
  /\ let first := generateAssetsFromOutlines 7 episode_five_first in
     let second := generateAssetsFromOutlines 7 first.2 in
     first.1 = fulfilled (mkStats 3 0 0)
     /\ second.1 = fulfilled (mkStats 0 0 3)
     /\ db second.2 = db first.2.
Proof.
  assert (assets_wf (t_assets (db episode_five_first))) as Hwf.
  { split; constructor. }
  split; [exact Hwf|].
  destruct (C6_second_run_skips_everything 7 episode_five_first Hwf) as (Hstats & Hdb & _).
  split; [vm_compute; reflexivity|]. split; [exact Hstats|exact Hdb].
Defined.

(** C8 on project 7: the turn of AI2 asks the completion service with the
    step budget of 100, and an [updateOutline] call of a sub-agent deletes
    nothing. *)
Lemma C8_confined_witness :
  ("updateOutline", updateOutline 7) ∈ getSubAgentTools 7
  /\ ~ overwriting_save (in_updateOutline 2 (sample_episode 2 []))
  /\ no_data_deleted three_episodes
       (execute (updateOutline 7) (in_updateOutline 2 (sample_episode 2 [])) three_episodes).2
  /\ map fst (getSubAgentTools 7)
     = ["getChapter"; "getStoryline"; "saveStoryline"; "getOutline"; "saveOutline";
        "updateOutline"]
  /\ invokeSubAgent 7 sample_stream (resolve "environment") AI2 "task" empty_world
     = invokeSubAgent 7 budgeted_stream (resolve "environment") AI2 "task" empty_world.
Proof.
  assert (("updateOutline", updateOutline 7) ∈ getSubAgentTools 7) as Hin.
  { unfold getSubAgentTools. do 5 right. left. }
  assert (~ overwriting_save (in_updateOutline 2 (sample_episode 2 []))) as Hmode.
  { intros []. }
  destruct (C8_sub_agent_tools_confined 7) as (Hturn & Hnames & _ & Hcalls).
  destruct (Hcalls "updateOutline" (updateOutline 7)
              (in_updateOutline 2 (sample_episode 2 [])) three_episodes Hin)
    as (_ & _ & Hkept).
  destruct (Hturn (resolve "environment") AI2 "task" empty_world)
    as (request & _ & Hbudget & Hsame).
  assert (sample_stream request = budgeted_stream request) as Hstreams.
  { unfold budgeted_stream. by rewrite decide_True. }
  split; [exact Hin|]. split; [exact Hmode|]. split; [exact (Hkept Hmode)|].
  split; [exact Hnames|]. exact (Hsame sample_stream budgeted_stream Hstreams).
Defined.


(** ** Further facts about deletion *)

Lemma remove_first_length {A} (P : A -> Prop) `{!forall x, Decision (P x)} (l : list A) :
  length (remove_first P l)
  = if decide (Exists P l) then Nat.pred (length l) else length l.
Proof.
  induction l as [|x l IH]; simpl.
  - by destruct (decide (Exists P [])).
  - destruct (decide (P x)) as [Hx|Hx].
    + rewrite decide_True by (by left). done.
    + simpl. rewrite IH. destruct (decide (Exists P l)) as [Hl|Hl].
      * rewrite decide_True by (by right).
        destruct l; [by apply Exists_nil in Hl|done].
      * rewrite decide_False; [done|]. intros Hc. apply Exists_cons in Hc as [Hc|Hc]; done.
Qed.

(** The cascade, as modelled: a successful deletion removes exactly one
    outline and at most one script. *)
Lemma deleted_db_removes_one id projectId d :
  outline_exists id projectId d ->
  S (length (rows (t_outline (deleted_db id projectId d)))) = length (rows (t_outline d))
  /\ (length (rows (t_script d)) - 1 <= length (rows (t_script (deleted_db id projectId d))))%nat
  /\ (length (rows (t_script (deleted_db id projectId d))) <= length (rows (t_script d)))%nat.
Proof.
  intros Hex. unfold deleted_db. simpl. rewrite !remove_first_length.
  unfold outline_exists in Hex. rewrite decide_True by done.
  split.
  - destruct (rows (t_outline d)); [by apply Exists_nil in Hex|done].
  - destruct (decide _); lia.
Qed.






(** Deletion does not renumber: without outline 2, project 7 keeps the
    episode numbers 1 and 3. *)
Example delete_leaves_gap :
  let w := (apply_op 7 (op_deleteOutline [2]) three_episodes).2 in
  episode_numbers 7 (db w) = [1; 3] /\ ~ contiguous (episode_numbers 7 (db w)).
Proof.
  split; [vm_compute; reflexivity|].
  intros H. apply (bool_decide_pack _) in H. vm_compute in H. done.
Qed.










(** ** The integrity of the store is kept by saves and updates *)

Lemma Exists_outline_mono (P : OutlineRow -> Prop) l l' :
  (forall o, o ∈ l -> P o -> exists o', o' ∈ l' /\ P o') -> Exists P l -> Exists P l'.
Proof.
  intros Hsub Hex. apply Exists_exists in Hex as (o & Ho & HP).
  destruct (Hsub o Ho HP) as (o' & Ho' & HP'). apply Exists_exists. eauto.
Qed.

Lemma cleared_keeps_integrity projectId d :
  store_integrity d -> store_integrity (cleared_db projectId d).
Proof.
  intros [Hissued Hatt]. split.
  - unfold outline_ids_issued, cleared_db in *. simpl.
    apply Forall_forall. intros o Ho. apply list_elem_of_filter in Ho as [_ Ho].
    rewrite Forall_forall in Hissued. by apply Hissued.
  - unfold scripts_attached, cleared_db in *. simpl.
    apply Forall_forall. intros s Hs. apply list_elem_of_filter in Hs as [Hnot Hs].
    rewrite Forall_forall in Hatt. specialize (Hatt s Hs).
    eapply Exists_outline_mono; [|exact Hatt].
    intros o Ho [Hid Hp]. exists o. split; [|done].
    apply list_elem_of_filter. split; [|done].
    intros Hpid. apply Hnot. rewrite <- Hid. apply list_elem_of_fmap. exists o.
    split; [done|]. by apply list_elem_of_filter.
Qed.

Lemma inserted_keeps_integrity projectId start episodes d :
  store_integrity d -> store_integrity (with_inserted projectId start episodes d).
Proof.
  intros [Hissued Hatt]. split.
  - unfold outline_ids_issued, with_inserted in *. simpl.
    apply Forall_app. split.
    + eapply Forall_impl; [exact Hissued|]. simpl. lia.
    + apply Forall_forall. intros o Ho.
      assert (o_id o ∈ Zseq (next_id (t_outline d)) (length episodes)) as Hin.
      { rewrite <- (inserted_ids projectId start). apply list_elem_of_fmap. by exists o. }
      apply elem_of_Zseq in Hin. rewrite length_imap. lia.
  - unfold scripts_attached, with_inserted in *. simpl.
    eapply Forall_impl; [exact Hatt|]. intros s Hs. simpl in Hs.
    eapply Exists_outline_mono; [|exact Hs].
    intros o Ho HP. exists o. split; [|done]. apply elem_of_app. by left.
Qed.

Lemma Forall_number_from {A} (P : A -> Prop) i (mks : list (Z -> A)) :
  Forall (fun mk => forall id, P (mk id)) mks -> Forall P (number_from i mks).
Proof.
  revert i. induction mks as [|mk mks IH]; intros i Hall; simpl; [constructor|].
  apply Forall_cons in Hall as [Hmk Hall]. constructor; [apply Hmk|by apply IH].
Qed.

Lemma new_scripts_attached projectId (l : list OutlineRow) scripts :
  mapM (new_script projectId) l = Some scripts ->
  Forall (fun mk => forall id,
            exists o, o ∈ l /\ o_id o = s_outlineId (mk id) /\ s_projectId (mk id) = projectId)
         scripts.
Proof.
  revert scripts. induction l as [|o l IH]; intros scripts Hm.
  - injection Hm as <-. constructor.
  - simpl in Hm. destruct (new_script projectId o) as [mk|] eqn:Hmk; [|done].
    destruct (mapM (new_script projectId) l) as [rest|]; [|done].
    simpl in Hm. injection Hm as <-. constructor.
    + intros id. exists o. split; [by left|].
      unfold new_script in Hmk. destruct (o_data o); [|done]. by injection Hmk as <-.
    + eapply Forall_impl; [by apply IH|]. intros mk' Hmk' id.
      destruct (Hmk' id) as (o' & Ho' & Hrest). exists o'. split; [by right|done].
Qed.

Lemma saveOutlineData_keeps_integrity projectId episodes overwrite startEpisode w :
  episodes ≠ [] ->
  store_integrity (db w) ->
  store_integrity (db (saveOutlineData projectId episodes overwrite startEpisode w).2).
Proof.
  intros Hne Hint. rewrite saveOutlineData_run by done. cbv zeta.
  set (d0 := base_db projectId overwrite (db w)).
  set (start := actualStart projectId overwrite startEpisode (db w)).
  set (d1 := with_inserted projectId start episodes d0).
  assert (store_integrity d1) as [Hissued Hatt].
  { apply inserted_keeps_integrity. unfold d0, base_db.
    destruct overwrite; [by apply cleared_keeps_integrity|done]. }
  destruct (mapM _ _) as [scripts|] eqn:Hm; cbn [snd db]; [|done].
  destruct (decide _) as [Hpos|Hpos]; [|done]. split; [exact Hissued|].
  unfold scripts_attached. simpl. apply Forall_app. split; [exact Hatt|].
  apply Forall_number_from. eapply Forall_impl; [by eapply new_scripts_attached|].
  intros mk Hmk id. destruct (Hmk id) as (o & Ho & Hid & Hp).
  apply elem_of_take in Ho as (k & Ho & _). apply list_elem_of_lookup_2 in Ho.
  rewrite orderBy_desc_perm in Ho. apply list_elem_of_filter in Ho as [Hproj Ho].
  apply Exists_exists. exists o. split; [exact Ho|]. split; [done|congruence].
Qed.

Lemma updateOutlineData_keeps_integrity projectId id data w :
  store_integrity (db w) ->
  store_integrity (db (updateOutlineData projectId id data w).2).
Proof.
  intros [Hissued Hatt]. rewrite updateOutlineData_run.
  destruct (head _) as [found|]; [|done]. cbn [snd db]. split.
  - unfold outline_ids_issued in *. simpl.
    apply Forall_forall. intros o Ho. apply list_elem_of_fmap in Ho as (o' & -> & Ho').
    rewrite Forall_forall in Hissued. specialize (Hissued _ Ho').
    by destruct (decide _).
  - unfold scripts_attached in *. simpl.
    eapply Forall_impl; [exact Hatt|]. intros s Hs. simpl in Hs.
    eapply Exists_outline_mono; [|exact Hs].
    intros o Ho HP.
    exists (if decide (o_id o = id)
            then mkOutline (o_id o) (o_projectId o) (Some (JSON_stringify data)) (o_episode o)
            else o).
    split; [apply list_elem_of_fmap; by exists o|]. by destruct (decide _).
Qed.

(** The hypotheses under which C2 is stated hold in every state that saves
    and updates reach from the empty store. *)
Lemma store_integrity_reachable w :
  reachable_by save_or_update w -> store_integrity (db w).
Proof.
  induction 1 as [|w projectId op _ IH Hop].
  - split; constructor.
  - destruct op as [episodes overwrite startEpisode|id data|ids]; [| |done]; unfold apply_op.
    + rewrite saveOutline_world. destruct (decide _) as [[Hne _]|]; [|done].
      by apply saveOutlineData_keeps_integrity.
    + rewrite updateOutline_world. destruct (decide _); [|done].
      by apply updateOutlineData_keeps_integrity.
Qed.

(** ** The uniqueness of asset keys is kept by the extraction *)

Lemma upsert_all_unique projectId entries stats t :
  assets_wf t -> NoDup (map entry_key entries) ->
  assets_unique projectId t ->
  assets_unique projectId (upsert_all projectId entries stats t).2.
Proof.
  intros Hwf Hnd Huniq type nm.
  destruct (decide ((type, nm) ∈ map entry_key entries)) as [Hin|Hnin].
  - apply list_elem_of_fmap in Hin as (e & Hkey & He). injection Hkey as -> ->.
    destruct (upsert_all_settles projectId entries stats t e Hwf Hnd He)
      as (a & rest & -> & _ & Hlen).
    rewrite Hlen. specialize (Huniq e.1 (name e.2)). lia.
  - rewrite upsert_all_other by done. apply Huniq.
Qed.

Lemma generateAssets_keeps_assets projectId w :
  assets_wf (t_assets (db w)) -> assets_unique projectId (t_assets (db w)) ->
  assets_wf (t_assets (db (generateAssetsFromOutlines projectId w).2))
  /\ assets_unique projectId (t_assets (db (generateAssetsFromOutlines projectId w).2)).
Proof.
  intros Hwf Huniq. rewrite generateAssetsFromOutlines_run.
  destruct (decide _); [done|]. cbn [snd db t_assets set_assets]. split.
  - by apply upsert_all_wf.
  - apply upsert_all_unique; [done|apply extracted_entries_NoDup|done].
Qed.

(** * Further properties of the module *)

(** ** Storyline operations *)

Lemma filter_head_None {A} (P : A -> Prop) `{!forall x, Decision (P x)} (l : list A) :
  head (filter P l) = None -> filter P l = [].
Proof. by destruct (filter P l). Qed.

Lemma storyline_rewrite_project projectId content (l : list StorylineRow) :
  filter (fun r => sl_projectId r = projectId)
    (map (fun r => if decide (sl_projectId r = projectId)
                   then mkStoryline (sl_id r) (sl_projectId r) content else r) l)
  = map (fun r => mkStoryline (sl_id r) (sl_projectId r) content)
      (filter (fun r => sl_projectId r = projectId) l).
Proof.
  induction l as [|r l IH]; [done|]. simpl.
  rewrite !filter_cons. destruct (decide (sl_projectId r = projectId)) as [Hr|Hr].
  - simpl. rewrite decide_True by done. simpl. by rewrite IH.
  - rewrite decide_False by done. apply IH.
Qed.

Lemma storyline_rewrite_other projectId q content (l : list StorylineRow) :
  q ≠ projectId ->
  filter (fun r => sl_projectId r = q)
    (map (fun r => if decide (sl_projectId r = projectId)
                   then mkStoryline (sl_id r) (sl_projectId r) content else r) l)
  = filter (fun r => sl_projectId r = q) l.
Proof.
  intros Hq. induction l as [|r l IH]; [done|]. simpl.
  rewrite !filter_cons. destruct (decide (sl_projectId r = projectId)) as [Hr|Hr]; simpl.
  - rewrite !decide_False by congruence. apply IH.
  - destruct (decide (sl_projectId r = q)); by rewrite IH.
Qed.

(** The storylines of the project after [upsertStorylineContent]. *)
Lemma upsertStorylineContent_project projectId content w :
  project_storylines projectId (db (upsertStorylineContent projectId content w).2)
  = match project_storylines projectId (db w) with
    | [] => [mkStoryline (next_id (t_storyline (db w))) projectId content]
    | l => map (fun r => mkStoryline (sl_id r) (sl_projectId r) content) l
    end.
Proof.
  rewrite upsertStorylineContent_world. unfold project_storylines. cbn [db].
  destruct (head _) as [r|] eqn:Hhead.
  - simpl. rewrite storyline_rewrite_project.
    destruct (filter _ (rows (t_storyline (db w)))); [done|done].
  - apply filter_head_None in Hhead. simpl. rewrite filter_app, Hhead.
    rewrite filter_cons, decide_True by done. done.
Qed.

Lemma upsertStorylineContent_other projectId q content w :
  q ≠ projectId ->
  project_storylines q (db (upsertStorylineContent projectId content w).2)
  = project_storylines q (db w).
Proof.
  intros Hq. rewrite upsertStorylineContent_world. unfold project_storylines. cbn [db].
  destruct (head _) as [r|]; simpl.
  - by apply storyline_rewrite_other.
  - rewrite filter_app, filter_cons, decide_False by (simpl; congruence).
    by rewrite filter_nil, app_nil_r.
Qed.

Lemma upsertStorylineContent_fulfils projectId content w :
  (upsertStorylineContent projectId content w).1 = fulfilled tt.
Proof.
  unfold upsertStorylineContent, findStoryline, bind, read, refresh, emit. simpl.
  by destruct (head _).
Qed.

Lemma saveStoryline_run projectId content w :
  execute (saveStoryline projectId) (in_content content) w
  = (fulfilled "故事线保存成功", (upsertStorylineContent projectId content w).2).
Proof.
  simpl. unfold bind. pose proof (upsertStorylineContent_fulfils projectId content w) as H.
  destruct (upsertStorylineContent projectId content w) as [r w']. simpl in H. by subst r.
Qed.

Lemma getStoryline_run projectId w :
  execute (getStoryline projectId) in_empty w
  = (fulfilled (from_option sl_content "当前项目暂无故事线"
                  (head (project_storylines projectId (db w)))), w).
Proof. done. Qed.

(** X1.  Whatever the store held, after [saveStoryline] with a content the
    [getStoryline] tool of the same project returns that content. *)
Theorem X1_saveStoryline_then_getStoryline projectId content w :
  let saved := execute (saveStoryline projectId) (in_content content) w in
  saved.1 = fulfilled "故事线保存成功"
  /\ (execute (getStoryline projectId) in_empty saved.2).1 = fulfilled content.
Proof.
  intros saved. subst saved. rewrite saveStoryline_run. cbn [fst snd].
  split; [done|]. rewrite getStoryline_run. cbn [fst].
  rewrite upsertStorylineContent_project.
  by destruct (project_storylines projectId (db w)).
Qed.

(** X2.  On a project without storyline, saving twice leaves exactly one
    storyline record, which holds the second content: the second save
    rewrites the record of the first. *)
Theorem X2_saving_twice_keeps_one_storyline projectId first second w :
  project_storylines projectId (db w) = [] ->
  let w1 := (upsertStorylineContent projectId first w).2 in
  let w2 := (upsertStorylineContent projectId second w1).2 in
  project_storylines projectId (db w1)
  = [mkStoryline (next_id (t_storyline (db w))) projectId first]
  /\ project_storylines projectId (db w2)
     = [mkStoryline (next_id (t_storyline (db w))) projectId second].
Proof.
  intros Hnone w1 w2. subst w2 w1.
  rewrite !upsertStorylineContent_project, Hnone. done.
Qed.

(** In general a save never adds a second record to a project that has one,
    and leaves every record of the project with the new content. *)
Lemma upsertStorylineContent_count projectId content w :
  let after := project_storylines projectId (db (upsertStorylineContent projectId content w).2) in
  length after = Nat.max 1 (length (project_storylines projectId (db w)))
  /\ Forall (fun r => sl_content r = content) after.
Proof.
  cbv zeta. rewrite upsertStorylineContent_project.
  destruct (project_storylines projectId (db w)) as [|r l]; [by repeat constructor|].
  split; [by rewrite length_map|]. by apply Forall_fmap, Forall_true.
Qed.

Lemma deleteStorylineContent_run projectId w :
  deleteStorylineContent projectId w
  = (fulfilled (Z.of_nat (length (project_storylines projectId (db w)))),
     mkWorld (set_storyline (keep_rows (fun r => sl_projectId r ≠ projectId)
                               (t_storyline (db w))) (db w))
             (emitted w ++ [ev_refresh refresh_storyline]) (history w)).
Proof. done. Qed.

Lemma deleted_project_storylines projectId w :
  project_storylines projectId (db (deleteStorylineContent projectId w).2) = [].
Proof.
  rewrite deleteStorylineContent_run. unfold project_storylines. simpl.
  apply filter_none, Forall_forall. intros r Hr.
  apply list_elem_of_filter in Hr. tauto.
Qed.

(** X3.  [deleteStoryline] reports success exactly when the project had a
    storyline; afterwards [getStoryline] answers that there is none, and
    deleting again reports that there is nothing to delete. *)
Theorem X3_deleteStoryline_then_none projectId w :
  let deleted := execute (deleteStoryline projectId) in_empty w in
  deleted.1 = fulfilled (if decide (project_storylines projectId (db w) = [])
                         then "当前项目没有故事线" else "故事线删除成功")
  /\ (execute (getStoryline projectId) in_empty deleted.2).1 = fulfilled "当前项目暂无故事线"
  /\ (execute (deleteStoryline projectId) in_empty deleted.2).1
     = fulfilled "当前项目没有故事线".
Proof.
  intros deleted.
  assert (forall w0, execute (deleteStoryline projectId) in_empty w0
     = (fulfilled (if decide (0 < Z.of_nat (length (project_storylines projectId (db w0))))
                   then "故事线删除成功" else "当前项目没有故事线"),
        (deleteStorylineContent projectId w0).2)) as Hrun by done.
  subst deleted. rewrite Hrun. cbn [fst snd]. split; [|split].
  - destruct (project_storylines projectId (db w)) as [|r l]; [done|].
    rewrite decide_True by (simpl; lia). by rewrite decide_False.
  - rewrite getStoryline_run. cbn [fst]. by rewrite deleted_project_storylines.
  - rewrite Hrun. cbn [fst]. by rewrite deleted_project_storylines.
Qed.

(** X4.  Saving or deleting the storyline of one project leaves the
    storylines of every other project as they were. *)
Theorem X4_storylines_of_other_projects_kept projectId q content w :
  q ≠ projectId ->
  project_storylines q (db (execute (saveStoryline projectId) (in_content content) w).2)
  = project_storylines q (db w)
  /\ project_storylines q (db (execute (deleteStoryline projectId) in_empty w).2)
     = project_storylines q (db w).
Proof.
  intros Hq. split.
  - rewrite saveStoryline_run. cbn [snd]. by apply upsertStorylineContent_other.
  - change (execute (deleteStoryline projectId) in_empty w).2
      with (deleteStorylineContent projectId w).2.
    rewrite deleteStorylineContent_run. unfold project_storylines. simpl.
    rewrite list_filter_filter. apply list_filter_iff. intros r. split; [tauto|].
    intros Hr. split; [done|congruence].
Qed.

(** ** Clearing, updating and listing outlines *)

Lemma clearOutlinesAndScripts_nothing projectId w :
  project_outlines projectId (db w) = [] ->
  clearOutlinesAndScripts projectId w = (fulfilled 0, w).
Proof.
  intros Hnone. unfold clearOutlinesAndScripts, bind, read. cbv beta iota.
  rewrite Hnone. done.
Qed.

(** X5.  [clearOutlinesAndScripts] returns the number of outlines the project
    had, leaves the project without outlines and the store without scripts
    linked to them, emits nothing, and is idempotent: a second call returns
    0 and changes nothing. *)
Theorem X5_clearOutlinesAndScripts_idempotent projectId w :
  let first := clearOutlinesAndScripts projectId w in
  let second := clearOutlinesAndScripts projectId first.2 in
  first.1 = fulfilled (Z.of_nat (length (project_outlines projectId (db w))))
  /\ project_outlines projectId (db first.2) = []
  /\ Forall (fun s => s_outlineId s ∉ map o_id (project_outlines projectId (db w)))
            (rows (t_script (db first.2)))
  /\ emitted first.2 = emitted w
  /\ second = (fulfilled 0, first.2).
Proof.
  intros first second. subst second first.
  rewrite clearOutlinesAndScripts_run. cbn [fst snd db emitted].
  split; [done|]. split; [apply cleared_project_outlines|]. split.
  - unfold cleared_db. simpl. apply Forall_forall. intros s Hs.
    apply list_elem_of_filter in Hs. tauto.
  - split; [done|]. apply clearOutlinesAndScripts_nothing. cbn [db].
    apply cleared_project_outlines.
Qed.



(** X7.  [updateOutlineData] on an outline of the project returns true and
    emits one outline refresh.  It rewrites the document of the records with
    that id and nothing else: ids, projects and episode numbers stay, records
    with another id and all scripts stay.  The document is stored as given:
    its episode index is the one of the input, not the episode number of the
    record. *)
Theorem X7_update_rewrites_the_document projectId id data w :
  outline_exists id projectId (db w) ->
  let result := updateOutlineData projectId id data w in
  let before := rows (t_outline (db w)) in
  let after := rows (t_outline (db result.2)) in
  result.1 = fulfilled true
  /\ map (fun o => (o_id o, o_projectId o, o_episode o)) after
     = map (fun o => (o_id o, o_projectId o, o_episode o)) before
  /\ filter (fun o => o_id o ≠ id) after = filter (fun o => o_id o ≠ id) before
  /\ Forall (fun o => o_data o = Some (JSON_stringify data)
                      /\ stored_episodeIndex o = Some (episodeIndex data))
            (filter (fun o => o_id o = id) after)
  /\ t_script (db result.2) = t_script (db w)
  /\ emitted result.2 = emitted w ++ [ev_refresh refresh_outline].
Proof.
  intros Hex result before after. subst result before after.
  rewrite updateOutlineData_run.
  destruct (proj2 (head_filter_exists
                     (fun o => o_id o = id /\ o_projectId o = projectId)
                     (rows (t_outline (db w)))) Hex) as [found ->].
  cbn [fst snd db emitted t_script set_outline t_outline update_rows rows].
  split; [done|].
  generalize (rows (t_outline (db w))). intros l.
  split; [|split; [|split; [|done]]].
  - rewrite map_map. apply map_ext. intros o. by destruct (decide (o_id o = id)).
  - induction l as [|o l IH]; [done|]. simpl. rewrite !filter_cons.
    destruct (decide (o_id o = id)) as [Ho|Ho]; simpl.
    + rewrite !decide_False by (intros H; by apply H). apply IH.
    + rewrite !decide_True by done. by rewrite IH.
  - apply Forall_forall. intros o Ho. apply list_elem_of_filter in Ho as [Hid Ho].
    apply list_elem_of_fmap in Ho as (o' & -> & _).
    destruct (decide (o_id o' = id)) as [_|Hne]; [done|]. simpl in Hid. done.
Qed.

(** X8.  On a store in which every outline has a payload that the module
    wrote or that does not parse, [saveOutlineData] with [N >= 1] documents
    fulfils whatever the mode and the starting number, reports [N] outlines
    inserted and [N] scripts created, appends exactly [N] records to the
    script table and emits one outline refresh.  (The counts say nothing
    about which outlines the scripts were linked to.) *)
Theorem X8_saveOutlineData_reports_N_and_N projectId episodes overwrite startEpisode w :
  episodes ≠ [] ->
  Forall (fun o => written_payload (o_data o)) (rows (t_outline (db w))) ->
  let N := length episodes in
  let result := saveOutlineData projectId episodes overwrite startEpisode w in
  result.1 = fulfilled (Z.of_nat N, Z.of_nat N)
  /\ length (rows (t_script (db result.2)))
     = (length (rows (t_script (base_db projectId overwrite (db w)))) + N)%nat
  /\ emitted result.2 = emitted w ++ [ev_refresh refresh_outline].
Proof.
  intros Hne Hwritten N result. subst result.
  assert (Forall (fun o => is_Some (o_data o)) (rows (t_outline (db w)))) as Htext.
  { eapply Forall_impl; [exact Hwritten|]. intros o. apply written_payload_is_Some. }
  rewrite saveOutlineData_run by done. cbv zeta.
  set (d0 := base_db projectId overwrite (db w)).
  set (start := actualStart projectId overwrite startEpisode (db w)).
  set (d1 := with_inserted projectId start episodes d0).
  set (newOutlines := take (length episodes) (orderBy_desc o_episode (project_outlines projectId d1))).
  assert (Forall (fun o => is_Some (o_data o)) (rows (t_outline d0))) as Htext0.
  { unfold d0, base_db. destruct overwrite; [|done].
    unfold cleared_db. simpl. apply Forall_forall. intros o Ho.
    apply list_elem_of_filter in Ho as [_ Ho]. rewrite Forall_forall in Htext. by apply Htext. }
  assert (Forall (fun o => is_Some (o_data o)) newOutlines) as Hnew.
  { apply Forall_forall. intros o Ho. unfold newOutlines in Ho.
    apply elem_of_take in Ho as (k & Ho & _). apply list_elem_of_lookup_2 in Ho.
    rewrite orderBy_desc_perm in Ho. apply list_elem_of_filter in Ho as [_ Ho].
    unfold d1, with_inserted in Ho. simpl in Ho. apply elem_of_app in Ho as [Ho|Ho].
    - rewrite Forall_forall in Htext0. by apply Htext0.
    - pose proof (inserted_have_text projectId start episodes (next_id (t_outline d0))) as Hi.
      rewrite Forall_forall in Hi. by apply Hi. }
  assert (length newOutlines = N) as Hlen.
  { unfold newOutlines. rewrite length_take, orderBy_desc_length.
    unfold d1. rewrite project_outlines_inserted, length_app.
    unfold inserted_outlines. rewrite number_from_length, length_imap. unfold N. lia. }
  rewrite mapM_new_script by done. rewrite scripts_for_length, Hlen.
  cbn [fst snd db emitted]. split; [done|]. split; [|done].
  destruct (decide (0 < N)%nat) as [Hpos|Hpos].
  - simpl. rewrite length_app, number_from_length, scripts_for_length, Hlen. done.
  - simpl. lia.
Qed.

(** X9.  An empty batch: [saveOutlineData] rejects with the error of the
    query builder, inserts no outline, makes no script and emits no refresh;
    when it was asked to overwrite, the outlines of the project and their
    scripts have been cleared by then and stay cleared.  The [saveOutline]
    tool, whose schema asks for at least one episode, leaves the world alone
    on an empty batch. *)
Theorem X9_empty_batch_is_rejected projectId overwrite startEpisode w :
  let result := saveOutlineData projectId [] overwrite startEpisode w in
  result.1 = rejected "The query is empty"
  /\ db result.2 = (if overwrite then cleared_db projectId (db w) else db w)
  /\ emitted result.2 = emitted w
  /\ history result.2 = history w
  /\ (execute (saveOutline projectId) (in_saveOutline [] overwrite startEpisode) w).2 = w.
Proof.
  intros result. subst result. rewrite saveOutlineData_empty. cbn [fst snd db emitted history].
  split; [done|]. split; [by destruct overwrite|]. split; [done|]. split; [done|].
  rewrite saveOutline_world. rewrite decide_False; [done|]. by intros [Hne _].
Qed.

Lemma listing_of_inserted projectId start episodes i :
  map (fun o => simplified_line (view_of o))
      (number_from i (imap (new_outline projectId start) episodes))
  = imap (fun k _ => episode_line (start + Z.of_nat k) (i + Z.of_nat k)) episodes.
Proof.
  revert start i. induction episodes as [|ep l IH]; intros start i; [done|].
  simpl. rewrite new_outline_shift, IH. f_equal.
  - unfold simplified_line, view_of, new_outline, new_outline_with, episode_line. simpl.
    change (Z.of_nat 0) with 0. by rewrite !Z.add_0_r.
  - apply imap_ext. intros k x _. simpl. f_equal; lia.
Qed.

(** X10.  After an overwriting save of [N >= 1] documents, the simplified
    list of [getOutlineText] shows [N] episodes, numbered [1 .. N] in order
    under the ids the records received, whatever indexes the documents
    carried and whatever the project held before. *)
Theorem X10_overwrite_then_list projectId episodes startEpisode w :
  episodes ≠ [] ->
  let saved := (saveOutlineData projectId episodes true startEpisode w).2 in
  (getOutlineText projectId true saved).1
  = fulfilled ("项目大纲 (共 " +:+ pretty (Z.of_nat (length episodes)) +:+ " 集):" +:+ nl
               +:+ join nl (imap (fun k _ =>
                     episode_line (1 + Z.of_nat k)
                                  (next_id (t_outline (db w)) + Z.of_nat k)) episodes)).
Proof.
  intros Hsome saved.
  assert (project_outlines projectId (db saved)
          = inserted_outlines projectId 1 episodes (cleared_db projectId (db w))) as Hproj.
  { unfold saved.
    rewrite (project_outlines_ext projectId _ _
               (saveOutlineData_outlines projectId episodes true startEpisode w Hsome)).
    cbn [base_db actualStart].
    by rewrite project_outlines_inserted, cleared_project_outlines. }
  rewrite getOutlineText_run. cbn [fst]. unfold listed_outlines. rewrite Hproj.
  unfold inserted_outlines.
  rewrite decide_False.
  2:{ intros Hnil. apply (f_equal length) in Hnil.
      rewrite number_from_length, length_imap in Hnil. by destruct episodes. }
  rewrite (orderBy_asc_run _ 1).
  2:{ by rewrite inserted_episode_numbers, number_from_length, length_imap. }
  unfold simplified_text. rewrite number_from_length, length_imap, listing_of_inserted.
  done.
Qed.

Lemma unique_outline_id (l : list OutlineRow) a b :
  NoDup (map o_id l) -> a ∈ l -> b ∈ l -> o_id a = o_id b -> a = b.
Proof.
  induction l as [|x l IH]; intros Hnd Ha Hb Hid.
  - by apply elem_of_nil in Ha.
  - simpl in Hnd. apply NoDup_cons in Hnd as [Hx Hnd].
    apply elem_of_cons in Ha as [->|Ha]; apply elem_of_cons in Hb as [->|Hb].
    + done.
    + exfalso. apply Hx. rewrite Hid. apply list_elem_of_fmap. by exists b.
    + exfalso. apply Hx. rewrite <- Hid. apply list_elem_of_fmap. by exists a.
    + by apply IH.
Qed.

Lemma cleared_other_scripts projectId q d :
  q ≠ projectId -> NoDup (map o_id (rows (t_outline d))) -> scripts_attached d ->
  project_scripts q (cleared_db projectId d) = project_scripts q d.
Proof.
  intros Hq Hnd Hatt. unfold project_scripts, cleared_db. simpl.
  rewrite list_filter_filter. apply filter_ext_in. intros s Hs. split; [tauto|].
  intros Hproj. split; [done|]. intros Hin.
  unfold scripts_attached in Hatt. rewrite Forall_forall in Hatt.
  specialize (Hatt s Hs). apply Exists_exists in Hatt as (o & Ho & Hid & Hp).
  apply list_elem_of_fmap in Hin as (o' & Hid' & Ho').
  apply list_elem_of_filter in Ho' as [Hp' Ho'].
  assert (o = o') as -> by (eapply unique_outline_id; [done..|congruence]).
  congruence.
Qed.

(** X11.  On a store with unique outline ids whose scripts belong to outlines
    of their own project, [saveOutlineData] for one project, in either mode,
    leaves the outlines and the scripts of every other project as they
    were. *)
Theorem X11_saveOutlineData_keeps_other_projects projectId q episodes overwrite startEpisode w :
  q ≠ projectId ->
  NoDup (map o_id (rows (t_outline (db w)))) ->
  scripts_attached (db w) ->
  let after := db (saveOutlineData projectId episodes overwrite startEpisode w).2 in
  project_outlines q after = project_outlines q (db w)
  /\ project_scripts q after = project_scripts q (db w).
Proof.
  intros Hq Hnd Hatt after. subst after.
  destruct (decide (episodes = [])) as [->|Hne].
  { rewrite saveOutlineData_empty. cbn [snd db].
    destruct overwrite; [|done]. cbn [base_db].
    split; [by apply cleared_other_outlines|by apply cleared_other_scripts]. }
  split.
  - rewrite (project_outlines_ext q _ _
               (saveOutlineData_outlines projectId episodes overwrite startEpisode w Hne)).
    rewrite project_outlines_inserted_other by done.
    destruct overwrite; [by apply cleared_other_outlines|done].
  - rewrite saveOutlineData_run by done. cbv zeta.
    set (d0 := base_db projectId overwrite (db w)).
    assert (project_scripts q d0 = project_scripts q (db w)) as Hbase.
    { unfold d0. destruct overwrite; [by apply cleared_other_scripts|done]. }
    destruct (mapM _ _) as [scripts|] eqn:Hm; cbn [snd db]; [|exact Hbase].
    destruct (decide _) as [Hpos|Hpos]; [|exact Hbase].
    unfold project_scripts in *. simpl. rewrite filter_app.
    rewrite Hbase, (filter_none _ (number_from _ _)), app_nil_r; [done|].
    apply Forall_number_from. eapply Forall_impl; [by eapply new_scripts_attached|].
    intros mk Hmk id. destruct (Hmk id) as (o & _ & _ & Hp). simpl. congruence.
Qed.

(** ** Asset operations *)

Lemma findAssetByTypeAndName_run projectId type nm w :
  findAssetByTypeAndName projectId type nm w
  = (fulfilled (head (assets_with_key projectId type nm (t_assets (db w)))), w).
Proof. done. Qed.

(** X12.  After [upsertAsset] of an entry, [findAssetByTypeAndName] finds a
    record of the entry's key whose intro is the entry's description.  When
    the upsert inserted or updated, the prompt of that record is the
    description too; when it skipped, the world is as before. *)
Theorem X12_upsertAsset_then_find projectId type item w :
  let upserted := upsertAsset projectId type item w in
  exists result a,
    upserted.1 = fulfilled result
    /\ (findAssetByTypeAndName projectId type (name item) upserted.2).1 = fulfilled (Some a)
    /\ asset_key projectId type (name item) a
    /\ a_intro a = description item
    /\ (result = res_skipped /\ upserted.2 = w
        \/ result ≠ res_skipped /\ a_prompt a = description item).
Proof.
  intros upserted. subst upserted. rewrite upsertAsset_run. cbn [fst snd].
  rewrite findAssetByTypeAndName_run. cbn [fst db t_assets set_assets].
  rewrite upsert_row_unfold. unfold assets_with_key.
  destruct (filter (asset_key projectId type (name item)) (rows (t_assets (db w))))
    as [|e rest] eqn:Hf; cbn [head].
  - eexists _, _. split; [done|]. cbn [snd rows].
    rewrite filter_app, Hf, filter_cons, decide_True by done. cbn.
    split; [done|]. split; [done|]. split; [done|]. right. by split.
  - assert (asset_key projectId type (name item) e) as Hkey.
    { assert (e ∈ filter (asset_key projectId type (name item)) (rows (t_assets (db w))))
        as Hin by (rewrite Hf; left).
      by apply list_elem_of_filter in Hin as [? _]. }
    destruct (decide (a_intro e = description item)) as [Heq|Hne].
    + exists res_skipped, e. cbn [fst snd]. rewrite Hf. cbn.
      split; [done|]. split; [done|]. split; [done|]. split; [done|]. left.
      split; [done|]. by rewrite set_assets_same, world_eta.
    + eexists _, _. split; [done|]. cbn [snd rows]. rewrite redescribe_key, Hf. cbn.
      unfold redescribe at 1. rewrite decide_True by done.
      split; [done|]. split; [exact Hkey|]. split; [done|]. right. by split.
Qed.

Lemma upsert_row_counts projectId type item stats t :
  let stats' := count_result stats (upsert_row projectId type item t).1 in
  inserted stats' + updated stats' + skipped stats'
  = inserted stats + updated stats + skipped stats + 1
  /\ inserted stats <= inserted stats' /\ updated stats <= updated stats'
  /\ skipped stats <= skipped stats'.
Proof.
  cbv zeta. destruct (upsert_row projectId type item t).1; simpl; lia.
Qed.

Lemma upsert_all_counts projectId entries stats t :
  let stats' := (upsert_all projectId entries stats t).1 in
  inserted stats' + updated stats' + skipped stats'
  = inserted stats + updated stats + skipped stats + Z.of_nat (length entries)
  /\ inserted stats <= inserted stats' /\ updated stats <= updated stats'
  /\ skipped stats <= skipped stats'.
Proof.
  cbv zeta. revert stats t. induction entries as [|e entries IH]; intros stats t.
  - simpl. lia.
  - simpl. pose proof (upsert_row_counts projectId e.1 e.2 stats t) as Hone.
    destruct (upsert_row projectId e.1 e.2 t) as [r t']. simpl in Hone.
    specialize (IH (count_result stats r) t').
    change (length (e :: entries)) with (S (length entries)). lia.
Qed.

Lemma project_entries_nothing projectId d :
  project_outlines projectId d = [] -> project_entries projectId d = [].
Proof. unfold project_entries. by intros ->. Qed.

Lemma generateAssets_stats projectId w :
  (generateAssetsFromOutlines projectId w).1
  = fulfilled (upsert_all projectId (project_entries projectId (db w)) (mkStats 0 0 0)
                 (t_assets (db w))).1.
Proof.
  rewrite generateAssetsFromOutlines_run. fold (project_entries projectId (db w)).
  destruct (decide _) as [Hnone|]; [|done]. cbn [fst].
  rewrite length_map in Hnone. apply nil_length_inv in Hnone.
  by rewrite project_entries_nothing.
Qed.

(** X13.  When the payloads of the project's outlines are documents that
    the module wrote, unparsable text or [NULL], the three counts that
    [generateAssetsFromOutlines] reports are non-negative and add up to the
    number of deduplicated entries.  The [generateAssets] tool therefore
    answers that the project has no outline data exactly when there is no
    entry to process, which is also its answer for a project whose outlines
    name no character, prop or scene. *)
Theorem X13_asset_counts_add_up projectId w :
  Forall (fun o => readable_payload (o_data o)) (project_outlines projectId (db w)) ->
  let entries := project_entries projectId (db w) in
  exists stats,
    (generateAssetsFromOutlines projectId w).1 = fulfilled stats
    /\ inserted stats + updated stats + skipped stats = Z.of_nat (length entries)
    /\ 0 <= inserted stats /\ 0 <= updated stats /\ 0 <= skipped stats
    /\ (execute (generateAssets projectId) in_empty w).1
       = fulfilled (if decide (entries = [])
                    then "当前项目没有大纲数据，无法生成资产"
                    else assets_report stats).
Proof.
  intros _ entries. subst entries. eexists. split; [apply generateAssets_stats|].
  pose proof (upsert_all_counts projectId (project_entries projectId (db w))
                (mkStats 0 0 0) (t_assets (db w))) as Hc.
  cbv zeta in Hc. simpl in Hc.
  set (stats := (upsert_all projectId (project_entries projectId (db w)) (mkStats 0 0 0)
                   (t_assets (db w))).1) in *.
  split; [lia|]. split; [lia|]. split; [lia|]. split; [lia|].
  cbn [execute generateAssets]. unfold bind.
  pose proof (generateAssets_stats projectId w) as Hrun. fold stats in Hrun.
  destruct (generateAssetsFromOutlines projectId w) as [r w']. simpl in Hrun. subst r.
  cbv beta iota.
  destruct (decide (project_entries projectId (db w) = [])) as [Hnil|Hsome].
  - rewrite Hnil in Hc. simpl in Hc. rewrite decide_True by lia. done.
  - rewrite decide_False; [done|]. intros (Hi & Hu & Hs).
    apply Hsome. apply nil_length_inv. lia.
Qed.

Lemma upsert_row_identities projectId type item t :
  map asset_identity (rows t)
    `prefix_of` map asset_identity (rows (upsert_row projectId type item t).2).
Proof.
  rewrite upsert_row_unfold.
  destruct (head _) as [e|]; [destruct (decide _)|]; simpl.
  - done.
  - rewrite map_map.
    assert (map (fun a => asset_identity (redescribe (a_id e) (description item) a)) (rows t)
            = map asset_identity (rows t)) as ->; [|done].
    apply map_ext. intros a. unfold redescribe. by destruct (decide _).
  - rewrite map_app. by apply prefix_app_r.
Qed.

Lemma upsert_all_identities projectId entries stats t :
  map asset_identity (rows t)
    `prefix_of` map asset_identity (rows (upsert_all projectId entries stats t).2).
Proof.
  revert stats t. induction entries as [|e entries IH]; intros stats t; simpl; [done|].
  pose proof (upsert_row_identities projectId e.1 e.2 t) as Hone.
  destruct (upsert_row projectId e.1 e.2 t) as [r t']. simpl in Hone.
  etrans; [exact Hone|apply IH].
Qed.

(** X14.  [generateAssetsFromOutlines] only inserts and updates: the asset
    records that existed keep their place, id, project, type and name, new
    records come after them, and the outline, script and storyline tables,
    the chapters, the prompts and the history stay as they were. *)
Theorem X14_generateAssets_never_deletes projectId w :
  let after := (generateAssetsFromOutlines projectId w).2 in
  map asset_identity (rows (t_assets (db w)))
    `prefix_of` map asset_identity (rows (t_assets (db after)))
  /\ set_assets (t_assets (db w)) (db after) = db w
  /\ history after = history w.
Proof.
  intros after. subst after. rewrite generateAssetsFromOutlines_run.
  destruct (decide _); cbn [snd db history t_assets set_assets].
  - split; [done|]. split; [apply set_assets_same|done].
  - split; [apply upsert_all_identities|]. split; [|done]. by destruct (db w).
Qed.

Lemma filter_map_unchanged {A} (P : A -> Prop) `{!forall x, Decision (P x)} (g : A -> A)
    (l : list A) :
  (forall a, a ∈ l -> (P (g a) <-> P a) /\ (P a -> g a = a)) ->
  filter P (map g l) = filter P l.
Proof.
  induction l as [|a l IH]; intros Hg; [done|]. simpl.
  destruct (Hg a) as [Hiff Hsame]; [by left|].
  rewrite !filter_cons, IH by (intros b Hb; apply Hg; by right).
  destruct (decide (P a)) as [Ha|Ha].
  - rewrite decide_True by (by apply Hiff). by rewrite Hsame.
  - rewrite decide_False; [done|]. by rewrite Hiff.
Qed.

Lemma upsert_row_other_project projectId q type item t :
  q ≠ projectId -> assets_wf t ->
  filter (fun a => a_projectId a = q) (rows (upsert_row projectId type item t).2)
  = filter (fun a => a_projectId a = q) (rows t).
Proof.
  intros Hq [Hnd _]. rewrite upsert_row_unfold.
  destruct (head _) as [e|] eqn:Hhead; [destruct (decide _)|]; simpl; [done| |].
  - assert (e ∈ assets_with_key projectId type (name item) t) as He.
    { apply head_Some_elem_of. exact Hhead. }
    apply list_elem_of_filter in He as [(Hp & _ & _) He].
    apply filter_map_unchanged. intros a Ha. unfold redescribe.
    destruct (decide (a_id a = a_id e)) as [Hid|Hid]; [|done].
    assert (a = e) as -> by (by eapply unique_id_same_row).
    split; [done|]. simpl. congruence.
  - rewrite filter_app, filter_cons, decide_False by (simpl; congruence).
    by rewrite filter_nil, app_nil_r.
Qed.

Lemma upsert_all_other_project projectId q entries stats t :
  q ≠ projectId -> assets_wf t ->
  filter (fun a => a_projectId a = q) (rows (upsert_all projectId entries stats t).2)
  = filter (fun a => a_projectId a = q) (rows t).
Proof.
  intros Hq. revert stats t. induction entries as [|e entries IH]; intros stats t Hwf; [done|].
  simpl. pose proof (upsert_row_other_project projectId q e.1 e.2 t Hq Hwf) as Hone.
  pose proof (upsert_row_wf projectId e.1 e.2 t Hwf) as Hwf'.
  destruct (upsert_row projectId e.1 e.2 t) as [r t']. simpl in *.
  rewrite IH by done. exact Hone.
Qed.

(** X15.  On an asset table with unique ids, [generateAssetsFromOutlines] for
    one project leaves the asset records of every other project untouched. *)
Theorem X15_generateAssets_keeps_other_projects projectId q w :
  q ≠ projectId ->
  assets_wf (t_assets (db w)) ->
  filter (fun a => a_projectId a = q)
         (rows (t_assets (db (generateAssetsFromOutlines projectId w).2)))
  = filter (fun a => a_projectId a = q) (rows (t_assets (db w))).
Proof.
  intros Hq Hwf. rewrite generateAssetsFromOutlines_run.
  destruct (decide _); cbn [snd db t_assets set_assets]; [done|].
  by apply upsert_all_other_project.
Qed.

Lemma insert_rows_cons {A} (mk : Z -> A) (mks : list (Z -> A)) (t : Table A) :
  insert_rows mks (insert_rows [mk] t) = insert_rows (mk :: mks) t.
Proof.
  unfold insert_rows. simpl. rewrite <- app_assoc. simpl. f_equal. lia.
Qed.

Lemma upsert_all_inserts projectId entries stats t :
  NoDup (map entry_key entries) ->
  Forall (fun e => assets_with_key projectId e.1 (name e.2) t = []) entries ->
  upsert_all projectId entries stats t
  = (mkStats (inserted stats + Z.of_nat (length entries)) (updated stats) (skipped stats),
     insert_rows (map (new_asset projectId) entries) t).
Proof.
  revert stats t. induction entries as [|e entries IH]; intros stats t Hnd Hnone.
  - simpl. rewrite insert_rows_nil, Z.add_0_r. by destruct stats.
  - simpl in Hnd. apply NoDup_cons in Hnd as [Hfresh Hnd].
    apply Forall_cons in Hnone as [He Hnone]. simpl.
    unfold upsert_row. rewrite He. cbn [head].
    rewrite IH; [| done |].
    + rewrite insert_rows_cons. simpl. do 2 f_equal. lia.
    + apply Forall_forall. intros e' He'.
      rewrite Forall_forall in Hnone. specialize (Hnone e' He').
      unfold assets_with_key in *. simpl. rewrite filter_app, Hnone.
      rewrite filter_cons, decide_False; [done|]. intros (_ & Ht & Hn). simpl in *.
      apply Hfresh. apply list_elem_of_fmap. exists e'. split; [|done].
      unfold entry_key. by rewrite Ht, Hn.
Qed.

(** X16.  On a project that has outlines but no asset record yet,
    [generateAssetsFromOutlines] inserts one record per deduplicated entry,
    in the order characters, props, scenes, each with the entry's
    description as intro and as prompt; it reports all of them as inserted
    and emits one assets refresh. *)
Theorem X16_first_extraction_inserts_all projectId w :
  project_outlines projectId (db w) ≠ [] ->
  Forall (fun a => a_projectId a ≠ projectId) (rows (t_assets (db w))) ->
  let entries := project_entries projectId (db w) in
  let result := generateAssetsFromOutlines projectId w in
  result.1 = fulfilled (mkStats (Z.of_nat (length entries)) 0 0)
  /\ rows (t_assets (db result.2))
     = rows (t_assets (db w))
       ++ number_from (next_id (t_assets (db w))) (map (new_asset projectId) entries)
  /\ emitted result.2 = emitted w ++ [ev_refresh refresh_assets].
Proof.
  intros Hsome Hnone entries result. subst result.
  rewrite generateAssetsFromOutlines_run. fold (project_entries projectId (db w)). fold entries.
  rewrite decide_False.
  2:{ rewrite length_map. intros Hlen. by apply nil_length_inv in Hlen. }
  rewrite upsert_all_inserts.
  - done.
  - apply extracted_entries_NoDup.
  - apply Forall_forall. intros e _. unfold assets_with_key.
    apply filter_none. eapply Forall_impl; [exact Hnone|].
    intros a Ha (Hp & _). done.
Qed.

(** ** Deduplication and extraction *)

Lemma Map_set_fresh {V} (k : string) (v : V) (m : list (string * V)) :
  k ∉ map fst m -> Map_set k v m = m ++ [(k, v)].
Proof.
  induction m as [|e m IH]; simpl; [done|].
  intros Hk. apply not_elem_of_cons in Hk as [Hne Hk].
  rewrite decide_False by done. by rewrite IH.
Qed.

Lemma Map_foldl_distinct {V} (entries m : list (string * V)) :
  NoDup (map fst (m ++ entries)) ->
  foldl (fun m e => Map_set e.1 e.2 m) m entries = m ++ entries.
Proof.
  revert m. induction entries as [|[k v] entries IH]; intros m Hnd; simpl.
  - by rewrite app_nil_r.
  - rewrite map_app in Hnd. simpl in Hnd.
    assert (k ∉ map fst m) as Hk.
    { apply NoDup_app in Hnd as (_ & Hdisj & _). intros Hin. apply (Hdisj k Hin). left. }
    rewrite Map_set_fresh by done. rewrite IH.
    + by rewrite <- app_assoc.
    + rewrite <- app_assoc. simpl. by rewrite map_app.
Qed.

(** Deduplication leaves a list with distinct names as it is. *)
Lemma uniqueByName_distinct items :
  NoDup (map name items) -> uniqueByName items = items.
Proof.
  intros Hnd. unfold uniqueByName, Map_new, Map_values.
  rewrite Map_foldl_distinct.
  - simpl. rewrite map_map. simpl. apply map_id.
  - simpl. rewrite map_map. simpl. exact Hnd.
Qed.

(** X17.  [uniqueByName] is idempotent, keeps exactly the names it was
    given, and never returns two entries of the same name. *)
Theorem X17_uniqueByName_idempotent items :
  uniqueByName (uniqueByName items) = uniqueByName items
  /\ (forall nm, nm ∈ map name (uniqueByName items) <-> nm ∈ map name items)
  /\ NoDup (map name (uniqueByName items)).
Proof.
  split; [apply uniqueByName_distinct, uniqueByName_NoDup|].
  split; [|apply uniqueByName_NoDup].
  intros nm. rewrite !list_elem_of_fmap. split.
  - intros (e & -> & He). apply elem_of_uniqueByName in He.
    unfold last_named in He. apply last_Some_elem_of in He.
    apply list_elem_of_filter in He as [_ He]. by exists e.
  - intros (item & -> & Hitem).
    destruct (uniqueByName_covers item items Hitem) as (latest & _ & Hin & Hname).
    by exists latest.
Qed.

Lemma accumulated_by_document type acc outlines :
  of_type type (foldl push_assets acc outlines)
  = of_type type acc ++ concat (map (document_entries type) outlines).
Proof.
  revert acc. induction outlines as [|o outlines IH]; intros acc; simpl.
  - by rewrite app_nil_r.
  - rewrite IH, app_assoc. f_equal. by destruct type.
Qed.

(** X18.  An entry is among those that [extractAssetsFromOutlines] returns
    for a type exactly when it is the last entry of its name among the
    entries of that type of all documents, taken in the order of the
    outlines; an outline without payload, with a payload that is not JSON,
    or whose document lacks the list contributes nothing. *)
Theorem X18_extraction_keeps_last_entries type outlines e :
  e ∈ of_type type (extractAssetsFromOutlines outlines)
  <-> last_named (name e) (concat (map (document_entries type) outlines)) = Some e.
Proof.
  rewrite of_type_extracted, elem_of_uniqueByName, accumulated_by_document.
  by destruct type.
Qed.

(** ** Turns *)

Lemma concat_texts_app l1 l2 :
  concat_texts (l1 ++ l2) = concat_texts l1 +:+ concat_texts l2.
Proof.
  unfold concat_texts. induction l1 as [|x l1 IH]; simpl; [done|].
  by rewrite IH, string_app_assoc.
Qed.

(** The loop of [invokeSubAgent] over the part of a stream during which the
    service leaves the world alone. *)
Lemma subAgentLoop_prefix agentType items rest fullResponse w :
  subAgentLoop agentType (quiet items ++ rest) fullResponse w
  = subAgentLoop agentType rest (fullResponse +:+ response_text items)
      (mkWorld (db w) (emitted w ++ concat (map (sub_agent_event agentType) items)) (history w)).
Proof.
  unfold response_text.
  revert fullResponse w. induction items as [|item items IH]; intros fullResponse w.
  - simpl. by rewrite app_nil_r, world_eta, string_app_nil_r.
  - simpl. unfold bind at 1. unfold resolve at 1.
    destruct item as [item_title|item_text|].
    + unfold bind at 1, emit at 1. rewrite IH. simpl. by rewrite <- app_assoc.
    + unfold bind at 1, emit at 1. rewrite IH. simpl.
      by rewrite <- app_assoc, string_app_assoc.
    + by rewrite IH.
Qed.

Lemma callLoop_prefix items rest fullResponse w :
  callLoop (quiet items ++ rest) fullResponse w
  = callLoop rest (fullResponse +:+ response_text items)
      (mkWorld (db w) (emitted w ++ concat (map call_event items)) (history w)).
Proof.
  unfold response_text.
  revert fullResponse w. induction items as [|item items IH]; intros fullResponse w.
  - simpl. by rewrite app_nil_r, world_eta, string_app_nil_r.
  - simpl. unfold bind at 1. unfold resolve at 1.
    destruct item as [item_title|item_text|].
    + unfold bind at 1, emit at 1. rewrite IH. simpl. by rewrite <- app_assoc.
    + unfold bind at 1, emit at 1. rewrite IH. simpl.
      by rewrite <- app_assoc, string_app_assoc.
    + by rewrite IH.
Qed.

Section Turns.
Variable projectId : Z.
Variable ai_text_stream : StreamRequest -> FullStream.
Variable buildEnvironmentContext : Async string.

(** The environment text is rendered without touching the world. *)
Hypothesis environment_read_only :
  forall w, exists env, buildEnvironmentContext w = (fulfilled env, w).

Lemma buildFullContext_read_only task w :
  exists context, buildFullContext buildEnvironmentContext task w = (fulfilled context, w).
Proof.
  unfold buildFullContext, bind at 1.
  destruct (environment_read_only w) as [env ->].
  unfold bind, buildConversationHistory, resolve. by eexists.
Qed.

(** X19.  When the environment text is rendered without touching the world
    and the service leaves the world alone during the turn,
    [invokeSubAgent] returns the text fragments of the stream put together,
    appends exactly one assistant message with that text to the history,
    and emits the transfer first, the events of the stream in order, and the
    end of the turn last; the store is unchanged. *)
Theorem X19_invokeSubAgent_quiet_turn agentType task items w :
  (forall request, ai_text_stream request = quiet items) ->
  invokeSubAgent projectId ai_text_stream buildEnvironmentContext agentType task w
  = (fulfilled (response_text items),
     mkWorld (db w)
       (emitted w ++ [ev_transfer agentType]
          ++ concat (map (sub_agent_event agentType) items)
          ++ [ev_subAgentEnd (tag_persona agentType)])
       (history w ++ [mkMessage role_assistant (response_text items)])).
Proof.
  intros Hstream. unfold invokeSubAgent.
  unfold bind at 1, emit at 1. unfold bind at 1, read at 1. cbv beta iota.
  unfold bind at 1.
  destruct (buildFullContext_read_only task
              (mkWorld (db w) (emitted w ++ [ev_transfer agentType]) (history w)))
    as [context ->].
  rewrite Hstream. unfold bind at 1.
  rewrite <- (app_nil_r (quiet items)), subAgentLoop_prefix.
  simpl. unfold bind, emit, push_history, resolve. simpl.
  by rewrite <- !app_assoc.
Qed.

(** X20.  Under the same conditions [call] appends the user message and then
    the assistant message to the history, emits the events of the stream in
    order followed by one response event with the whole text, returns that
    text, and leaves the store unchanged. *)
Theorem X20_call_quiet_turn msg items w :
  (forall request, ai_text_stream request = quiet items) ->
  call projectId ai_text_stream buildEnvironmentContext msg w
  = (fulfilled (response_text items),
     mkWorld (db w)
       (emitted w ++ concat (map call_event items) ++ [ev_response (response_text items)])
       (history w ++ [mkMessage role_user msg; mkMessage role_assistant (response_text items)])).
Proof.
  intros Hstream. unfold call.
  unfold bind at 1, push_history at 1. unfold bind at 1.
  destruct (environment_read_only (mkWorld (db w) (emitted w) (history w ++ [mkMessage role_user msg])))
    as [env ->].
  unfold bind at 1, read at 1. cbv beta iota. unfold bind at 1. cbv beta iota.
  rewrite Hstream. unfold bind at 1.
  rewrite <- (app_nil_r (quiet items)), callLoop_prefix.
  simpl. unfold bind, emit, push_history, resolve. simpl.
  by rewrite <- !app_assoc.
Qed.

(** X21.  An error raised while the stream of [call] is consumed is not
    caught: [call] rejects with it, the history keeps the user message but
    gets no assistant message, no response event is emitted, and what was
    emitted for the items before the error stays emitted. *)
Theorem X21_call_propagates_errors msg before reason item rest w :
  (forall request, ai_text_stream request = quiet before ++ (throw reason, item) :: rest) ->
  call projectId ai_text_stream buildEnvironmentContext msg w
  = (rejected reason,
     mkWorld (db w) (emitted w ++ concat (map call_event before))
             (history w ++ [mkMessage role_user msg])).
Proof.
  intros Hstream. unfold call.
  unfold bind at 1, push_history at 1. unfold bind at 1.
  destruct (environment_read_only (mkWorld (db w) (emitted w) (history w ++ [mkMessage role_user msg])))
    as [env ->].
  unfold bind at 1, read at 1. cbv beta iota. unfold bind at 1. cbv beta iota.
  rewrite Hstream. unfold bind at 1.
  by rewrite callLoop_prefix.
Qed.

(** X22.  Likewise an error raised while the stream of a sub-agent turn is
    consumed makes [invokeSubAgent] reject: the transfer was announced, but
    the end of the turn is never emitted and nothing is appended to the
    history. *)
Theorem X22_invokeSubAgent_propagates_errors agentType task before reason item rest w :
  (forall request, ai_text_stream request = quiet before ++ (throw reason, item) :: rest) ->
  invokeSubAgent projectId ai_text_stream buildEnvironmentContext agentType task w
  = (rejected reason,
     mkWorld (db w)
       (emitted w ++ [ev_transfer agentType] ++ concat (map (sub_agent_event agentType) before))
       (history w)).
Proof.
  intros Hstream. unfold invokeSubAgent.
  unfold bind at 1, emit at 1. unfold bind at 1, read at 1. cbv beta iota.
  unfold bind at 1.
  destruct (buildFullContext_read_only task
              (mkWorld (db w) (emitted w ++ [ev_transfer agentType]) (history w)))
    as [context ->].
  rewrite Hstream. unfold bind at 1.
  rewrite subAgentLoop_prefix. simpl. by rewrite <- app_assoc.
Qed.
End Turns.

(** ** Prompts *)

Lemma or_string_nonempty s d : d ≠ "" -> or_string s d ≠ "".
Proof. intros Hd. unfold or_string. by destruct (decide (s = "")). Qed.

Lemma prompt_value_nonempty promptsList code fallback :
  fallback ≠ "" -> prompt_value promptsList code fallback ≠ "".
Proof.
  intros Hd. unfold prompt_value.
  destruct (head _) as [item|]; [|done].
  unfold or_default.
  destruct (pr_customValue item) as [c|], (pr_defaultValue item) as [d|];
    repeat apply or_string_nonempty; done.
Qed.





(** X25.  The video route takes a custom or default value as soon as it is
    present, even when it is the empty string: its prompt for a code is
    empty exactly when the first row with the code has an empty custom
    value, or no custom value and an empty default value.  With the same
    table the lookup of the agent never gives an empty prompt. *)
Theorem X25_video_prompt_may_be_empty promptsList code :
  (getPromptValue promptsList code = "" <->
   exists item, head (filter (fun p => pr_code p = code) promptsList) = Some item /\
     (pr_customValue item = Some "" \/
      (pr_customValue item = None /\ pr_defaultValue item = Some "")))
  /\ prompt_value promptsList code "不论用户说什么，请直接输出Agent配置异常" ≠ "".
Proof.
  split; [|by apply prompt_value_nonempty].
  unfold getPromptValue. cbv zeta.
  destruct (head _) as [item|].
  - destruct (pr_customValue item) as [c|] eqn:Hc; simpl.
    + split.
      * intros ->. exists item. rewrite Hc. by split; [|left].
      * intros (item' & [= <-] & [H|[H _]]); rewrite Hc in H; by simplify_eq.
    + destruct (pr_defaultValue item) as [d|] eqn:Hd; simpl.
      * split.
        -- intros ->. exists item. rewrite Hc, Hd. by split; [|right].
        -- intros (item' & [= <-] & [H|[_ H]]); [by rewrite Hc in H|].
           rewrite Hd in H. by simplify_eq.
      * split; [done|].
        intros (item' & [= <-] & [H|[_ H]]); [by rewrite Hc in H|by rewrite Hd in H].
  - split; [done|]. by intros (item & ? & _).
Qed.

(** ** Tools that only read *)

(** X26.  The three reading tools, [getChapter], [getStoryline] and
    [getOutline], leave the store, the emitted events and the history as
    they are, whatever input they are given. *)
Theorem X26_reading_tools_change_nothing projectId input w :
  (execute (getChapter projectId) input w).2 = w /\
  (execute (getStoryline projectId) input w).2 = w /\
  (execute (getOutline projectId) input w).2 = w.
Proof.
  split; [|split].
  - destruct input; try done. simpl. by destruct (decide _).
  - by destruct input.
  - destruct input; try done. simpl. apply getOutlineText_world.
Qed.


(** ** The further properties on sample data *)

(** X2 on a project without storyline. *)
Lemma X2_saving_twice_witness :
  project_storylines 7 (db empty_world) = []
  /\ project_storylines 7
       (db (upsertStorylineContent 7 "second"
              (upsertStorylineContent 7 "first" empty_world).2).2)
     = [mkStoryline 1 7 "second"].
Proof.
  assert (project_storylines 7 (db empty_world) = []) as Hnone by reflexivity.
  split; [exact Hnone|].
  exact (proj2 (X2_saving_twice_keeps_one_storyline 7 "first" "second" empty_world Hnone)).
Defined.

(** X4: saving or deleting the storyline of project 7 keeps that of
    project 8. *)
Lemma X4_other_storyline_witness :
  8 ≠ 7
  /\ project_storylines 8
       (db (execute (saveStoryline 7) (in_content "mine") two_projects).2)
     = project_storylines 8 (db two_projects)
  /\ project_storylines 8 (db two_projects) = [mkStoryline 1 8 "the other storyline"].
Proof.
  assert (8 ≠ 7) as Hq by lia.
  split; [exact Hq|]. split; [|reflexivity].
  exact (proj1 (X4_storylines_of_other_projects_kept 7 8 "mine" two_projects Hq)).
Defined.


(** X7: outline 2 of project 7 is rewritten. *)
Lemma X7_update_witness :
  outline_exists 2 7 (db three_episodes)
  /\ (updateOutlineData 7 2 (sample_episode 9 []) three_episodes).1 = fulfilled true
  /\ t_script (db (updateOutlineData 7 2 (sample_episode 9 []) three_episodes).2)
     = t_script (db three_episodes).
Proof.
  assert (outline_exists 2 7 (db three_episodes)) as Hexists.
  { apply (bool_decide_unpack _). vm_compute. exact I. }
  destruct (X7_update_rewrites_the_document 7 2 (sample_episode 9 []) three_episodes Hexists)
    as (Hres & _ & _ & _ & Hscripts & _).
  split; [exact Hexists|]. split; [exact Hres|exact Hscripts].
Defined.

(** X8: two more episodes appended to project 7. *)
Lemma X8_counts_witness :
  [sample_episode 1 []; sample_episode 1 []] ≠ []
  /\ Forall (fun o => written_payload (o_data o)) (rows (t_outline (db three_episodes)))
  /\ (saveOutlineData 7 [sample_episode 1 []; sample_episode 1 []] false None
        three_episodes).1
     = fulfilled (2, 2).
Proof.
  assert ([sample_episode 1 []; sample_episode 1 []] ≠ []) as Hsome by discriminate.
  assert (Forall (fun o => written_payload (o_data o)) (rows (t_outline (db three_episodes))))
    as Hdata.
  { apply Forall_forall. intros o Ho. vm_compute in Ho.
    repeat (apply elem_of_cons in Ho as [->|Ho]); [..|by apply elem_of_nil in Ho].
    - left. by exists (sample_episode 1 []).
    - left. by exists (sample_episode 2 []).
    - left. by exists (sample_episode 3 []). }
  split; [exact Hsome|]. split; [exact Hdata|].
  exact (proj1 (X8_saveOutlineData_reports_N_and_N 7
                  [sample_episode 1 []; sample_episode 1 []] false None three_episodes
                  Hsome Hdata)).
Defined.

(** X10: two episodes saved over the three of project 7 get the ids 4
    and 5. *)
Lemma X10_overwrite_then_list_witness :
  [sample_episode 8 []; sample_episode 9 []] ≠ []
  /\ (getOutlineText 7 true
        (saveOutlineData 7 [sample_episode 8 []; sample_episode 9 []] true None
           three_episodes).2).1
     = fulfilled ("项目大纲 (共 2 集):" +:+ nl
                  +:+ join nl [episode_line 1 4; episode_line 2 5]).
Proof.
  assert ([sample_episode 8 []; sample_episode 9 []] ≠ []) as Hsome by discriminate.
  split; [exact Hsome|].
  exact (X10_overwrite_then_list 7 [sample_episode 8 []; sample_episode 9 []] None
           three_episodes Hsome).
Defined.

(** X11: an overwriting save in project 7 keeps the outline and the script
    of project 8. *)
Lemma X11_other_project_witness :
  8 ≠ 7
  /\ NoDup (map o_id (rows (t_outline (db two_projects))))
  /\ scripts_attached (db two_projects)
  /\ project_outlines 8
       (db (saveOutlineData 7 [sample_episode 1 []] true None two_projects).2)
     = project_outlines 8 (db two_projects)
  /\ length (project_outlines 8 (db two_projects)) = 1%nat.
Proof.
  assert (8 ≠ 7) as Hq by lia.
  assert (NoDup (map o_id (rows (t_outline (db two_projects))))) as Hids.
  { apply (bool_decide_unpack _). vm_compute. exact I. }
  assert (scripts_attached (db two_projects)) as Hattached.
  { apply (bool_decide_unpack _). vm_compute. exact I. }
  split; [exact Hq|]. split; [exact Hids|]. split; [exact Hattached|].
  split; [|reflexivity].
  exact (proj1 (X11_saveOutlineData_keeps_other_projects 7 8 [sample_episode 1 []] true None
                  two_projects Hq Hids Hattached)).
Defined.

(** X13: the three episodes of project 7 name one scene and one prop. *)
Lemma X13_counts_witness :
  Forall (fun o => readable_payload (o_data o)) (project_outlines 7 (db three_episodes))
  /\ exists stats,
       (generateAssetsFromOutlines 7 three_episodes).1 = fulfilled stats
       /\ inserted stats + updated stats + skipped stats = 2.
Proof.
  assert (Forall (fun o => readable_payload (o_data o))
                 (project_outlines 7 (db three_episodes))) as Hdata.
  { apply Forall_forall. intros o Ho. vm_compute in Ho.
    repeat (apply elem_of_cons in Ho as [->|Ho]); [..|by apply elem_of_nil in Ho].
    - right. left. by exists (sample_episode 1 []).
    - right. left. by exists (sample_episode 2 []).
    - right. left. by exists (sample_episode 3 []). }
  split; [exact Hdata|].
  destruct (X13_asset_counts_add_up 7 three_episodes Hdata) as (stats & Hres & Hsum & _).
  exists stats. split; [exact Hres|exact Hsum].
Defined.

(** X15: generating the assets of project 7 keeps the three assets of
    project 8. *)
Lemma X15_other_assets_witness :
  8 ≠ 7
  /\ assets_wf (t_assets (db two_projects))
  /\ filter (fun a => a_projectId a = 8)
            (rows (t_assets (db (generateAssetsFromOutlines 7 two_projects).2)))
     = filter (fun a => a_projectId a = 8) (rows (t_assets (db two_projects)))
  /\ length (filter (fun a => a_projectId a = 8) (rows (t_assets (db two_projects))))
     = 3%nat.
Proof.
  assert (8 ≠ 7) as Hq by lia.
  assert (assets_wf (t_assets (db two_projects))) as Hwf.
  { apply (bool_decide_unpack _). vm_compute. exact I. }
  split; [exact Hq|]. split; [exact Hwf|]. split; [|reflexivity].
  exact (X15_generateAssets_keeps_other_projects 7 8 two_projects Hq Hwf).
Defined.

(** X16: project 7 has outlines and no asset yet; its two entries are
    inserted. *)
Lemma X16_first_extraction_witness :
  project_outlines 7 (db two_projects) ≠ []
  /\ Forall (fun a => a_projectId a ≠ 7) (rows (t_assets (db two_projects)))
  /\ (generateAssetsFromOutlines 7 two_projects).1 = fulfilled (mkStats 2 0 0).
Proof.
  assert (project_outlines 7 (db two_projects) ≠ []) as Hsome.
  { apply (bool_decide_unpack _). vm_compute. exact I. }
  assert (Forall (fun a => a_projectId a ≠ 7) (rows (t_assets (db two_projects)))) as Hnone.
  { apply (bool_decide_unpack _). vm_compute. exact I. }
  split; [exact Hsome|]. split; [exact Hnone|].
  exact (proj1 (X16_first_extraction_inserts_all 7 two_projects Hsome Hnone)).
Defined.

(** X19: the turn of AI2 over the sample stream. *)
Lemma X19_quiet_turn_witness :
  (forall w, exists env, resolve "environment" w = (fulfilled env, w))
  /\ (forall request, sample_stream request
        = quiet [text_delta "plan"; tool_call "saveOutline"; text_delta " done"])
  /\ invokeSubAgent 7 sample_stream (resolve "environment") AI2 "task" empty_world
     = (fulfilled "plan done",
        mkWorld empty_db
          [ev_transfer AI2; ev_subAgentStream (tag_persona AI2) "plan"; ev_toolCall tag_main "saveOutline";
           ev_subAgentStream (tag_persona AI2) " done"; ev_subAgentEnd (tag_persona AI2)]
          [mkMessage role_assistant "plan done"]).
Proof.
  assert (forall w, exists env, resolve "environment" w = (fulfilled env, w)) as Henv.
  { intros w. exists "environment". reflexivity. }
  assert (forall request, sample_stream request
            = quiet [text_delta "plan"; tool_call "saveOutline"; text_delta " done"])
    as Hstream.
  { intros request. reflexivity. }
  split; [exact Henv|]. split; [exact Hstream|].
  exact (X19_invokeSubAgent_quiet_turn 7 sample_stream (resolve "environment") Henv
           AI2 "task" _ empty_world Hstream).
Defined.

(** X20: a top-level turn over the sample stream. *)
Lemma X20_quiet_turn_witness :
  (forall w, exists env, resolve "environment" w = (fulfilled env, w))
  /\ (forall request, sample_stream request
        = quiet [text_delta "plan"; tool_call "saveOutline"; text_delta " done"])
  /\ call 7 sample_stream (resolve "environment") "hello" empty_world
     = (fulfilled "plan done",
        mkWorld empty_db
          [ev_data "plan"; ev_toolCall tag_main "saveOutline"; ev_data " done";
           ev_response "plan done"]
          [mkMessage role_user "hello"; mkMessage role_assistant "plan done"]).
Proof.
  assert (forall w, exists env, resolve "environment" w = (fulfilled env, w)) as Henv.
  { intros w. exists "environment". reflexivity. }
  assert (forall request, sample_stream request
            = quiet [text_delta "plan"; tool_call "saveOutline"; text_delta " done"])
    as Hstream.
  { intros request. reflexivity. }
  split; [exact Henv|]. split; [exact Hstream|].
  exact (X20_call_quiet_turn 7 sample_stream (resolve "environment") Henv
           "hello" _ empty_world Hstream).
Defined.

(** X21: a top-level turn whose stream breaks after the first fragment. *)
Lemma X21_broken_turn_witness :
  (forall w, exists env, resolve "environment" w = (fulfilled env, w))
  /\ (forall request, broken_stream request
        = quiet [text_delta "plan"]
            ++ (throw "connection lost", tool_call "saveOutline") :: [])
  /\ call 7 broken_stream (resolve "environment") "hello" empty_world
     = (rejected "connection lost",
        mkWorld empty_db [ev_data "plan"] [mkMessage role_user "hello"]).
Proof.
  assert (forall w, exists env, resolve "environment" w = (fulfilled env, w)) as Henv.
  { intros w. exists "environment". reflexivity. }
  assert (forall request, broken_stream request
            = quiet [text_delta "plan"]
                ++ (throw "connection lost", tool_call "saveOutline") :: [])
    as Hstream.
  { intros request. reflexivity. }
  split; [exact Henv|]. split; [exact Hstream|].
  exact (X21_call_propagates_errors 7 broken_stream (resolve "environment") Henv
           "hello" _ _ _ _ empty_world Hstream).
Defined.

(** X22: the same stream in a turn of the director. *)
Lemma X22_broken_sub_agent_witness :
  (forall w, exists env, resolve "environment" w = (fulfilled env, w))
  /\ (forall request, broken_stream request
        = quiet [text_delta "plan"]
            ++ (throw "connection lost", tool_call "saveOutline") :: [])
  /\ invokeSubAgent 7 broken_stream (resolve "environment") director "task" empty_world
     = (rejected "connection lost",
        mkWorld empty_db [ev_transfer director; ev_subAgentStream (tag_persona director) "plan"] []).
Proof.
  assert (forall w, exists env, resolve "environment" w = (fulfilled env, w)) as Henv.
  { intros w. exists "environment". reflexivity. }
  assert (forall request, broken_stream request
            = quiet [text_delta "plan"]
                ++ (throw "connection lost", tool_call "saveOutline") :: [])
    as Hstream.
  { intros request. reflexivity. }
  split; [exact Henv|]. split; [exact Hstream|].
  exact (X22_invokeSubAgent_propagates_errors 7 broken_stream (resolve "environment") Henv
           director "task" _ _ _ _ empty_world Hstream).
Defined.
